(* ===== verification/_CoqProject ===== *)
-Q . S2P
Prelude.v
PyStr.v
Json.v
Dumps.v
Summarize.v
Recovery.v
Client.v
Poller.v
Queries.v
Report.v
Cli.v
