(* ===== verification/Prelude.v ===== *)
(** * A verification library for the scripts of velo-workspace

    The repository holds two Python scripts that bring Velociraptor query
    results into the workspace:

    - [src/scripts/summarize_results.py]: [parse_velo_output] turns a saved
      text blob (concatenated JSON arrays with [[ERROR]] lines merged in
      from stderr) into rows and error lines; [print_summary] prints counts,
      columns, group counts, distinct values, sample rows and errors;
      [main] reads a file or stdin and chains the two.
    - [src/scripts/velo_api.py]: [run_vql_raw] drives one streaming gRPC
      query, folds the response chunks into rows and log lines and
      classifies failures; [run_vql] drops the logs; six convenience
      functions ([list_clients] ... [get_hunt_results]) format a VQL query
      and call [run_vql]; [poll_until] retries a query until a predicate
      accepts the rows or a deadline passes; [_cli_main] runs one query
      from the command line.

    Both ingestion paths deliver the same shape, JSON rows plus text lines:
    [print_summary] consumes what [parse_velo_output] returns, the query
    builders, the poller and the CLI all go through [run_vql], and the JSON
    the CLI prints is what [json.loads] reads back.

    ** Files and what they model

    - [Prelude] (this file): text as a list of Unicode code points (Python
      [str] is a sequence of code points), the [outcome] type of a
      computation that may raise, the writer-and-exception monad [io] for
      code that prints while it may raise, the [velo] hint databases and the
      shared lemmas on outcomes and lists.
    - [PyStr]: the [str] methods the scripts call ([splitlines], [strip],
      [startswith], [in], [join]) with their Unicode character classes
      (CPython builtins, modelled from their documented behaviour).
    - [Json]: the CPython decoder as the scripts use it
      ([JSONDecoder.raw_decode], [json.loads]): the scanner of
      [Modules/_json.c], Python's [dict] insertion order, and the two runtime
      limits that make a decode raise something other than
      [JSONDecodeError]: the recursion limit and [sys.int_max_str_digits].
    - [Dumps]: [json.dumps] with [ensure_ascii] (the encoder of
      [Modules/_json.c]) and with [indent=2] (the pure-Python encoder), and
      the round trip: [json.loads] reads back what [json.dumps] writes.
    - [Summarize]: [parse_velo_output] (lines 28-67): line classification,
      the rejoined buffer and the scanning loop with one-character recovery.
    - [Recovery]: what the parser does with the output of a real run: lines
      of [json.dumps] batches interleaved with error lines, and a batch
      followed by one injected character.
    - [Report]: [print_summary] and [main] (lines 70-185), with [Counter],
      [most_common] and [sorted(set(...))] as the library defines them; the
      [str()] of floats and containers is a section parameter.
    - [Client]: [run_vql_raw] / [run_vql] (velo_api.py 42-154): the
      configuration, the request, the scoped channel as events, the fold
      over the response stream and the failure classification; the network
      and [LoadConfigFile] are the [world] record.
    - [Queries]: the convenience functions (velo_api.py 161-289), the text
      of each query and the conversions that raise before the call.
    - [Poller]: [poll_until] (velo_api.py 292-319) over a type class
      [PollEnv] (clock, sleep, one query) with an instance for [run_vql] and
      one for replayed scripts.
    - [Cli]: [_cli_main] (velo_api.py 326-372): the [--env] dict, the call,
      the exit status and what goes to stdout and stderr.

    ** What the theorems show (PROJECT.json lists the claims in order)

    - Parser ([Recovery], [Summarize]): the rows and error lines of any
      interleaving of dumped batches and error lines come back exactly (a
      round trip through [json.dumps]); one injected character other than a
      double quote loses no row; only the integer-digit limit and the
      recursion limit make the parser raise (never [JSONDecodeError], never
      the model's [EFuel]); its error list is exactly the stripped error
      lines.
    - Client: the classification order (gRPC failure, then
      [PermissionDenied], then no rows with [ERROR:] lines), the
      configuration failures, and that the channel is closed on every path.
    - Queries: the description given to [schedule_hunt] is one JSON literal
      whatever it holds, while [delete_artifact] lets a double quote end its
      literal (VQL injection).
    - Summary: [--group-by] counts are exact, distinct, sorted and add up
      to the number of rows; [--unique] prints at most 25 sorted distinct
      values cut to 100 characters; [--columns] lists the visible keys
      sorted; a row that is not an object makes [print_summary] raise after
      the counts, and [main] composed with the parser does so on any saved
      output holding such a row.
    - Poller: the contract of what it returns, termination within
      [timeout/interval + 2] iterations, the end time bounded by the deadline
      plus one query (and reached: a long first query overruns the timeout
      by its whole length), and that it retries every [VeloAPIError],
      permission and connection failures included, until the deadline.
    - CLI: [--env] keeps the last value of each key; a malformed item exits
      with status 2 before any call; a successful query prints one text that
      [json.loads] reads back as its rows, with status 0.

    ** Fuel and bounds

    The scanner and the parsing loop are [Fixpoint]s on fuel.  Each
    recursive call consumes at least one code point, so fuel one larger than
    the input length is enough; running out is reported as [EFuel], a value
    no Python run produces, and the theorem on its exceptions shows that [EFuel]
    never escapes [parse_velo_output] with that fuel.  The poller's fuel bounds its iterations;
    its termination theorem gives the bound.  Integers are [Z] and lengths
    [nat]: Python's integers are unbounded, and the only limit the scripts
    meet is [sys.int_max_str_digits] (4300 by default), modelled in
    [limits] and in [str(int)].

    ** Not modelled

    [argparse] (the modelled [main] and [_cli_main] start from the namespace
    it returns; [parser.error] is an event with its message, without the
    usage text), the gRPC transport and [pyvelociraptor] (the [world]
    record gives their results), file reading (a function from path to text
    or error), Python's [repr] of floats, lists and dicts (a parameter of
    the summary printer), and the import-time constants.  Two parts are
    modelled narrower than the code: [Queries] models [int(limit)] on
    integers only (the code also accepts a string or float argument), and
    [make_request] (the [VQLCollectorArgs] message of [Client]) takes
    [max_row] as an unbounded [Z], where the protobuf field is an unsigned
    64-bit integer whose constructor raises [ValueError] out of range: a
    negative [--max-row] raises in Python before any channel is opened,
    while the model sends it.  No theorem depends on its value. *)

From Stdlib Require Import NArith ZArith String Ascii Lia.
From stdpp Require Import base list decidable.

(** ** Text *)

(** A Python [str] is a sequence of code points.  Both names are
    notations, so that rewriting sees through them. *)
Abbreviation char := N (only parsing).
Abbreviation text := (list N) (only parsing).

(** ASCII literals as text, for the constants of the scripts. *)
Definition txt (s : string) : text :=
  map (fun a => N_of_ascii a) (list_ascii_of_string s).
Arguments txt s%_string.

(** JSON text written with [']] for the double quote, for concrete inputs. *)
Definition jtxt (s : string) : text :=
  map (fun c => if bool_decide (c = 39%N) then 34%N else c) (txt s).
Arguments jtxt s%_string.

#[export] Instance text_eq_dec : EqDecision text := _.

(** ** Computations that may raise *)

Inductive outcome (E A : Type) : Type :=
| Ok (a : A)
| Raise (e : E).
Arguments Ok {E A} a.
Arguments Raise {E A} e.

Definition obind {E A B} (m : outcome E A) (k : A -> outcome E B) : outcome E B :=
  match m with
  | Ok a => k a
  | Raise e => Raise e
  end.

Definition omap {E A B} (f : A -> B) (m : outcome E A) : outcome E B :=
  obind m (fun a => Ok (f a)).

(** [[f(x) for x in l]] where [f] may raise: the first exception wins. *)
Fixpoint omapM {E A B} (f : A -> outcome E B) (l : list A) : outcome E (list B) :=
  match l with
  | [] => Ok []
  | x :: r =>
      match f x with
      | Raise e => Raise e
      | Ok y => match omapM f r with Raise e => Raise e | Ok ys => Ok (y :: ys) end
      end
  end.

Declare Scope velo_scope.
Delimit Scope velo_scope with velo.

Notation "x <- m ;; k" := (obind m (fun x => k))
  (at level 100, m at next level, right associativity) : velo_scope.

(** ** Printing while raising: a writer and exception monad

    Code such as [run_vql_raw] writes to stderr and may raise afterwards; the
    lines already written stay written.  [io Ev E A] is the list of events
    emitted together with the outcome. *)

Definition io (Ev E A : Type) : Type := list Ev * outcome E A.

Definition iret {Ev E A} (a : A) : io Ev E A := ([], Ok a).
Definition iraise {Ev E A} (e : E) : io Ev E A := ([], Raise e).
Definition emit {Ev E} (ev : Ev) : io Ev E unit := ([ev], Ok tt).

(** A computation that only may raise, with no events. *)
Definition lift {Ev E A} (m : outcome E A) : io Ev E A := ([], m).

Definition ibind {Ev E A B} (m : io Ev E A) (k : A -> io Ev E B) : io Ev E B :=
  match m with
  | (t, Ok a) => let '(t', r) := k a in (t ++ t', r)
  | (t, Raise e) => (t, Raise e)
  end.

(** [try: m except h]: the handler sees the exception and the events emitted
    before it stay. *)
Definition itry {Ev E A} (m : io Ev E A) (h : E -> io Ev E A) : io Ev E A :=
  match m with
  | (t, Ok a) => (t, Ok a)
  | (t, Raise e) => let '(t', r) := h e in (t ++ t', r)
  end.

Notation "x <~ m ;; k" := (ibind m (fun x => k))
  (at level 100, m at next level, right associativity) : velo_scope.
Notation "m ;;; k" := (ibind m (fun _ => k))
  (at level 100, right associativity) : velo_scope.

Open Scope velo_scope.

(** ** Automation *)

Create HintDb velo discriminated.
Create Rewrite HintDb velo_rw.

Lemma obind_ok {E A B} (a : A) (k : A -> outcome E B) : obind (Ok a) k = k a.
Proof. reflexivity. Qed.

Lemma obind_raise {E A B} (e : E) (k : A -> outcome E B) :
  obind (Raise e) k = Raise e.
Proof. reflexivity. Qed.

Lemma ibind_ret {Ev E A B} (a : A) (k : A -> io Ev E B) : ibind (iret a) k = k a.
Proof. unfold ibind, iret. destruct (k a). reflexivity. Qed.

Lemma ibind_lift {Ev E A B} (m : outcome E A) (k : A -> io Ev E B) :
  ibind (lift m) k = match m with Ok a => k a | Raise e => ([], Raise e) end.
Proof. destruct m as [a|e]; [|reflexivity]. unfold ibind, lift. by destruct (k a). Qed.

Lemma ibind_assoc {Ev E A B C} (m : io Ev E A) (k : A -> io Ev E B)
      (k' : B -> io Ev E C) :
  ibind (ibind m k) k' = ibind m (fun a => ibind (k a) k').
Proof.
  destruct m as [t [a|e]]; simpl; [|reflexivity].
  destruct (k a) as [t1 [b|e]]; simpl.
  - destruct (k' b) as [t2 r]. by rewrite app_assoc.
  - reflexivity.
Qed.

#[export] Hint Rewrite @obind_ok @obind_raise @ibind_ret : velo_rw.

(** The events of [ibind m k] start with the events of [m]. *)
Lemma ibind_events_prefix {Ev E A B} (m : io Ev E A) (k : A -> io Ev E B) :
  exists t', (ibind m k).1 = m.1 ++ t'.
Proof.
  destruct m as [t [a|e]]; simpl.
  - destruct (k a). eexists; reflexivity.
  - exists []. by rewrite app_nil_r.
Qed.

(** A continuation or a handler that emits nothing leaves the events as
    they were. *)
Lemma ibind_events_silent {Ev E A B} (m : io Ev E A) (k : A -> io Ev E B) :
  (forall a, (k a).1 = []) -> (ibind m k).1 = m.1.
Proof.
  intros Hk. destruct m as [t [a|e]]; simpl; [|done].
  specialize (Hk a). destruct (k a). simpl in *. subst. by rewrite app_nil_r.
Qed.

Lemma itry_events_silent {Ev E A} (m : io Ev E A) (h : E -> io Ev E A) :
  (forall e, (h e).1 = []) -> (itry m h).1 = m.1.
Proof.
  intros Hh. destruct m as [t [a|e]]; simpl; [done|].
  specialize (Hh e). destruct (h e). simpl in *. subst. by rewrite app_nil_r.
Qed.

(** A map whose function raises [e] exactly where [g] fails: the first
    failure raises, and otherwise every image is returned. *)
Lemma omapM_guarded {E A B} (g : A -> bool) (h : A -> B) (e : E) (f : A -> outcome E B) l :
  (forall x, f x = if g x then Ok (h x) else Raise e) ->
  omapM f l = if forallb g l then Ok (map h l) else Raise e.
Proof.
  intros Hf. induction l as [|x l IH]; [reflexivity|]. simpl. rewrite Hf.
  destruct (g x); [|reflexivity]. rewrite IH. by destruct (forallb g l).
Qed.

(** A map raises as soon as one element raises. *)
Lemma omapM_raise {E A B} (f : A -> outcome E B) x l :
  In x l -> (exists e, f x = Raise e) -> exists e, omapM f l = Raise e.
Proof.
  induction l as [|y l IH]; intros Hx Hf; [destruct Hx|]. simpl.
  destruct Hx as [->|Hx].
  - destruct Hf as [e ->]. by exists e.
  - destruct (f y); [|by eexists]. destruct (IH Hx Hf) as [e ->]. by exists e.
Qed.

(** ** Shared list lemmas *)

Lemma length_lt_cons {A} (x : A) (l r : list A) :
  length r <= length l -> length r < length (x :: l).
Proof. simpl; lia. Qed.

#[export] Hint Resolve length_lt_cons : velo.

Lemma fold_left_snoc {A B} (f : A -> B -> A) (l : list B) (x : B) (a : A) :
  fold_left f (l ++ [x]) a = f (fold_left f l a) x.
Proof. by rewrite fold_left_app. Qed.

(** Induction on the length of a list, for scanners that recurse on a
    suffix. *)
Lemma length_ind {A} (P : list A -> Prop) :
  (forall l, (forall l', length l' < length l -> P l') -> P l) -> forall l, P l.
Proof.
  intros H l. remember (length l) as n eqn:Hn. revert l Hn.
  induction n as [n IH] using lt_wf_ind. intros l ->. apply H.
  intros l' Hl'. by apply (IH (length l')).
Qed.

(** Turn the [bool_decide] tests in the hypotheses into the propositions
    they decide. *)
Ltac bool_decide_hyps :=
  repeat match goal with
  | H : bool_decide _ = true |- _ => apply bool_decide_eq_true in H
  | H : bool_decide _ = false |- _ => apply bool_decide_eq_false in H
  end.

(** Prove a decidable proposition about a closed term by evaluating its
    decision procedure. *)
Ltac decide_vm := apply (bool_decide_unpack _); vm_compute; exact I.

(** Expand the lengths of concatenations in the goal and the context. *)
Ltac len_simpl := repeat (progress (rewrite ?length_app in *; simpl in *)).

(** Unfold a boolean test on code points into its decision. *)
Ltac case_eqn :=
  repeat match goal with
  | |- context [ decide ?P ] => destruct (decide P); subst; try lia
  | |- context [ (?a =? ?b)%N ] => destruct (N.eqb_spec a b); subst; try lia
  end.
