(* ===== verification/PyStr.v ===== *)
(** * Python [str] methods used by the scripts

    [str.splitlines], [str.strip], [str.startswith], the [in] operator on
    strings and [str.join], over text as code points.  These are CPython
    builtins ([Objects/unicodeobject.c], [Objects/stringlib/split.h]); the
    character classes are CPython's [Py_UNICODE_ISLINEBREAK] and
    [Py_UNICODE_ISSPACE].  Both scripts rely on them, and the line-break class
    in particular decides how [parse_velo_output] cuts its input. *)

From Stdlib Require Import NArith Lia.
From stdpp Require Import base list decidable.
From S2P Require Import Prelude.

Module PyStr.

(** Code points that end a line for [str.splitlines]: LF, VT, FF, CR, the
    file/group/record separators, NEL, LINE SEPARATOR, PARAGRAPH SEPARATOR. *)
Definition linebreaks : list char :=
  [10; 11; 12; 13; 28; 29; 30; 133; 8232; 8233]%N.

Definition is_linebreak (c : char) : bool := bool_decide (c ∈ linebreaks).

(** Code points for which [str.isspace] holds, as [str.strip] uses them. *)
Definition spaces : list char :=
  [9; 10; 11; 12; 13; 28; 29; 30; 31; 32; 133; 160; 5760;
   8192; 8193; 8194; 8195; 8196; 8197; 8198; 8199; 8200; 8201; 8202;
   8232; 8233; 8239; 8287; 12288]%N.

Definition is_space (c : char) : bool := bool_decide (c ∈ spaces).

(** [s.splitlines()]: cut after each line break, reading CR LF as one break;
    a final line without a break is kept, no empty line follows a final
    break. *)
Fixpoint splitlines (s : text) : list text :=
  match s with
  | [] => []
  | c :: r =>
      if is_linebreak c then
        if bool_decide (c = 13%N) then
          match r with
          | c' :: r' =>
              if bool_decide (c' = 10%N) then [] :: splitlines r'
              else [] :: splitlines r
          | [] => [[]]
          end
        else [] :: splitlines r
      else
        match splitlines r with
        | [] => [[c]]
        | l :: ls => (c :: l) :: ls
        end
  end.

Fixpoint drop_while (p : char -> bool) (s : text) : text :=
  match s with
  | c :: r => if p c then drop_while p r else s
  | [] => []
  end.

(** [s.strip()]: remove leading and trailing whitespace. *)
Definition strip (s : text) : text :=
  rev (drop_while is_space (rev (drop_while is_space s))).

(** [s.startswith(p)]. *)
Fixpoint startswith (s p : text) : bool :=
  match p, s with
  | [], _ => true
  | c :: p', d :: s' => bool_decide (c = d) && startswith s' p'
  | _ :: _, [] => false
  end.

(** [needle in hay] for strings. *)
Fixpoint contains (needle hay : text) : bool :=
  startswith hay needle ||
  match hay with
  | [] => false
  | _ :: r => contains needle r
  end.

(** [sep.join(ls)]. *)
Fixpoint join (sep : text) (ls : list text) : text :=
  match ls with
  | [] => []
  | [l] => l
  | l :: r => l ++ sep ++ join sep r
  end.

(** ** Lemmas *)

Definition no_break (l : text) : Prop := Forall (fun c => is_linebreak c = false) l.

Lemma splitlines_single (l : text) :
  no_break l -> l <> [] -> splitlines l = [l].
Proof.
  induction l as [|c l IH]; intros Hb Hne; [done|].
  inversion Hb as [|? ? Hc Hl]; subst. simpl. rewrite Hc.
  destruct l as [|c' l']; [done|].
  rewrite IH; [done|done|done].
Qed.

Lemma splitlines_app_lf (l r : text) :
  no_break l -> splitlines (l ++ 10%N :: r) = l :: splitlines r.
Proof.
  induction l as [|c l IH]; intros Hb.
  - reflexivity.
  - inversion Hb as [|? ? Hc Hl]; subst. simpl. rewrite Hc, IH by done.
    reflexivity.
Qed.

(** Any line break ends a line; CR ends it alone when no LF follows. *)
Lemma splitlines_app_break (l : text) (c : char) (r : text) :
  no_break l -> is_linebreak c = true -> (c = 13%N -> ∀ r', r <> 10%N :: r') ->
  splitlines (l ++ c :: r) = l :: splitlines r.
Proof.
  induction l as [|d l IH]; intros Hb Hc Hcr.
  - simpl. rewrite Hc. case_bool_decide as H13; [|done].
    destruct r as [|c' r']; [done|]. rewrite bool_decide_false; [done|].
    intros ->. by apply (Hcr H13 r').
  - inversion Hb as [|? ? Hd Hl]; subst. simpl. rewrite Hd, IH by done. reflexivity.
Qed.

(** Joining lines that hold no line break and splitting again gives the
    lines back, provided the last one is not empty. *)
Lemma splitlines_join (ls : list text) :
  Forall no_break ls -> Forall (fun l => l <> []) ls ->
  splitlines (join [10%N] ls) = ls.
Proof.
  induction ls as [|l ls IH]; intros Hb Hne; [done|].
  inversion Hb; inversion Hne; subst.
  destruct ls as [|l' ls'].
  - by apply splitlines_single.
  - change (join [10%N] (l :: l' :: ls')) with (l ++ 10%N :: join [10%N] (l' :: ls')).
    rewrite splitlines_app_lf by done. by rewrite IH.
Qed.

Lemma drop_while_app_l (p : char -> bool) (l r : text) :
  Forall (fun c => p c = false) (take 1 l) -> l <> [] ->
  drop_while p (l ++ r) = l ++ r.
Proof.
  destruct l as [|c l]; intros H Hne; [done|].
  inversion H; subst. simpl. by rewrite H2.
Qed.

Lemma startswith_app (p r : text) : startswith (p ++ r) p = true.
Proof.
  induction p as [|c p IH]; [by destruct r|].
  simpl. rewrite IH. by rewrite bool_decide_eq_true_2.
Qed.

Lemma contains_app_r (n a b : text) :
  contains n b = true -> contains n (a ++ b) = true.
Proof.
  induction a as [|c a IH]; intros H; [done|].
  simpl. rewrite IH by done. apply orb_true_r.
Qed.

Lemma startswith_app_l (n a b : text) :
  startswith a n = true -> startswith (a ++ b) n = true.
Proof.
  revert a. induction n as [|d n IH]; intros a H; [by destruct (a ++ b)|].
  destruct a as [|c a]; [done|]. simpl in *.
  apply andb_true_iff in H as [H1 H2]. rewrite H1. simpl. by apply IH.
Qed.

Lemma contains_app_l (n a b : text) :
  contains n a = true -> contains n (a ++ b) = true.
Proof.
  induction a as [|c a IH]; intros H.
  - destruct n as [|d n]; [by destruct b|discriminate].
  - simpl in *. apply orb_true_iff in H as [H|H]; apply orb_true_iff.
    + left. by apply (startswith_app_l n (c :: a) b).
    + right. by apply IH.
Qed.

Lemma join_cons_length (sep l : text) (ls : list text) :
  length (join sep (l :: ls)) =
  length l + match ls with [] => 0 | _ => length sep + length (join sep ls) end.
Proof. destruct ls; simpl; rewrite ?length_app; lia. Qed.

(** Dropping lines never lengthens the joined text. *)
Lemma join_filter_length (sep : text) (p : text -> bool) (ls : list text) :
  length (join sep (List.filter p ls)) <= length (join sep ls).
Proof.
  induction ls as [|l ls IH]; [done|]. simpl List.filter.
  rewrite join_cons_length.
  destruct (p l).
  - rewrite join_cons_length. destruct (List.filter p ls) as [|f fs] eqn:E; [lia|].
    destruct ls as [|l' ls']; [discriminate|]. lia.
  - destruct ls as [|l' ls']; [simpl; lia|]. etrans; [exact IH|]. lia.
Qed.

(** Rejoining the lines with LF is no longer than the text they came from:
    each break is one code point or two (CR LF). *)
Lemma join_splitlines_length (t : text) : length (join [10%N] (splitlines t)) <= length t.
Proof.
  induction t as [t IH] using length_ind. destruct t as [|c r]; [done|]. simpl.
  destruct (is_linebreak c).
  - destruct (bool_decide (c = 13%N)).
    + destruct r as [|c' r']; [simpl; lia|].
      destruct (bool_decide (c' = 10%N)).
      * rewrite join_cons_length. pose proof (IH r' ltac:(simpl; lia)).
        destruct (splitlines r'); simpl in *; lia.
      * rewrite join_cons_length. pose proof (IH (c' :: r') ltac:(simpl; lia)).
        destruct (splitlines (c' :: r')); simpl in *; lia.
    + rewrite join_cons_length. pose proof (IH r ltac:(simpl; lia)).
      destruct (splitlines r); simpl in *; lia.
  - pose proof (IH r ltac:(simpl; lia)).
    destruct (splitlines r) as [|l ls]; [simpl; lia|].
    rewrite !join_cons_length in *. destruct ls; simpl in *; lia.
Qed.

End PyStr.
