(* ===== verification/Json.v ===== *)
(** * The CPython [json] decoder

    What [json.JSONDecoder.raw_decode] and [json.loads] do with a [str], as
    the C accelerator [Modules/_json.c] implements it ([scan_once_unicode],
    [scanstring_unicode], [_match_number_unicode], [_parse_array_unicode],
    [_parse_object_unicode]) and [Lib/json/decoder.py] wraps it.  The decoder
    is library code, modelled from its documented behaviour; the scripts call
    it from [parse_velo_output] and [run_vql_raw].

    Values: a float is kept as the literal it was read from (Python holds the
    nearest double; no code in scope inspects it), an object as its list of
    pairs in [dict] insertion order.  Besides [JSONDecodeError] the decoder
    can raise [RecursionError] (nesting deeper than the interpreter's limit,
    modelled as the budget [max_depth]) and [ValueError] (an integer literal
    with more digits than [sys.int_max_str_digits], 4300 by default, 0 meaning
    no limit). *)

From Stdlib Require Import NArith ZArith String Lia.
From stdpp Require Import base list decidable.
From S2P Require Import Prelude PyStr.

Open Scope velo_scope.

Module Json.

#[local] Set Warnings "-register-all".

Inductive json : Type :=
| JNull
| JBool (b : bool)
| JInt (z : Z)
| JFloat (lit : text)
| JStr (s : text)
| JArr (xs : list json)
| JObj (kvs : list (text * json)).

Inductive jerr : Type :=
| EDecode      (** [json.JSONDecodeError], and the [StopIteration] of the
                   scanner that [raw_decode] turns into it *)
| EIntDigits   (** [ValueError]: integer string conversion over the limit *)
| ERecursion   (** [RecursionError] *)
| EFuel.       (** the model ran out of fuel; not a Python outcome *)

#[export] Instance jerr_eq_dec : EqDecision jerr.
Proof. solve_decision. Defined.

Record limits := {
  max_depth : nat;            (** containers that may still be entered *)
  int_max_str_digits : nat    (** [sys.get_int_max_str_digits()] *)
}.

(** CPython's defaults: [sys.get_int_max_str_digits()] is 4300; the
    recursion limit is 1000 frames, of which the caller's frames use a few,
    so we grant the scanner 990 nested containers. *)
Definition default_limits : limits := {| max_depth := 990; int_max_str_digits := 4300 |}.

(** ** Lexical helpers *)

(** [IS_WHITESPACE] of [_json.c]: space, tab, LF, CR. *)
Definition is_ws (c : char) : bool := bool_decide (c ∈ [32; 9; 10; 13]%N).

Fixpoint skip_ws (s : text) : text :=
  match s with
  | c :: r => if is_ws c then skip_ws r else s
  | [] => []
  end.

Definition head_is (c : char) (s : text) : bool :=
  match s with
  | d :: _ => bool_decide (d = c)
  | [] => false
  end.

Definition is_digit (c : char) : bool := bool_decide (48 <= c <= 57)%N.

Fixpoint span_digits (s : text) : text * text :=
  match s with
  | c :: r => if is_digit c then let '(ds, r') := span_digits r in (c :: ds, r')
              else ([], s)
  | [] => ([], [])
  end.

Definition hex_val (c : char) : option N :=
  if bool_decide (48 <= c <= 57)%N then Some (c - 48)%N
  else if bool_decide (97 <= c <= 102)%N then Some (c - 87)%N
  else if bool_decide (65 <= c <= 70)%N then Some (c - 55)%N
  else None.

Definition hex4 (a b c d : char) : option N :=
  match hex_val a, hex_val b, hex_val c, hex_val d with
  | Some x1, Some x2, Some x3, Some x4 =>
      Some (((x1 * 16 + x2) * 16 + x3) * 16 + x4)%N
  | _, _, _, _ => None
  end.

Definition is_high_surrogate (u : N) : bool := bool_decide (55296 <= u <= 56319)%N.
Definition is_low_surrogate (u : N) : bool := bool_decide (56320 <= u <= 57343)%N.
Definition join_surrogates (hi lo : N) : char :=
  (65536 + (hi - 55296) * 1024 + (lo - 56320))%N.

(** The one-letter escapes after a backslash: quote, backslash, slash and
    the letters b f n r t. *)
Definition simple_escape (e : char) : option char :=
  if bool_decide (e = 34%N) then Some 34%N
  else if bool_decide (e = 92%N) then Some 92%N
  else if bool_decide (e = 47%N) then Some 47%N
  else if bool_decide (e = 98%N) then Some 8%N
  else if bool_decide (e = 102%N) then Some 12%N
  else if bool_decide (e = 110%N) then Some 10%N
  else if bool_decide (e = 114%N) then Some 13%N
  else if bool_decide (e = 116%N) then Some 9%N
  else None.

Definition cons_str (c : char) (m : outcome jerr (text * text)) : outcome jerr (text * text) :=
  match m with
  | Ok (str, rest) => Ok (c :: str, rest)
  | Raise e => Raise e
  end.

(** ** Strings: [scanstring_unicode] with [strict=True]

    Called after the opening quote; returns the decoded content and the text
    after the closing quote.  A high surrogate escape followed by an escaped
    low surrogate is joined; the C code also requires one more character
    after the pair before trying, which changes nothing since an
    unterminated string fails either way. *)
Fixpoint scanstring (s : text) : outcome jerr (text * text) :=
  match s with
  | [] => Raise EDecode
  | c :: r =>
      if bool_decide (c = 34%N) then Ok ([], r)
      else if bool_decide (c = 92%N) then
        match r with
        | [] => Raise EDecode
        | e :: r1 =>
            if bool_decide (e = 117%N) then
              match r1 with
              | h1 :: h2 :: h3 :: h4 :: r2 =>
                  match hex4 h1 h2 h3 h4 with
                  | None => Raise EDecode
                  | Some u =>
                      if is_high_surrogate u then
                        match r2 with
                        | b :: v :: l1 :: l2 :: l3 :: l4 :: r3 =>
                            if bool_decide (b = 92%N) && bool_decide (v = 117%N) then
                              match hex4 l1 l2 l3 l4 with
                              | None => Raise EDecode
                              | Some u2 =>
                                  if is_low_surrogate u2
                                  then cons_str (join_surrogates u u2) (scanstring r3)
                                  else cons_str u (scanstring r2)
                              end
                            else cons_str u (scanstring r2)
                        | _ => cons_str u (scanstring r2)
                        end
                      else cons_str u (scanstring r2)
                  end
              | _ => Raise EDecode
              end
            else
              match simple_escape e with
              | Some d => cons_str d (scanstring r1)
              | None => Raise EDecode
              end
        end
      else if bool_decide (c <= 31)%N then Raise EDecode
      else cons_str c (scanstring r)
  end.

(** ** Numbers: [_match_number_unicode]

    An optional minus, then [0] or a nonzero digit and more digits, then an
    optional fraction (a dot and digits), then an optional exponent ([e] or
    [E], an optional sign, digits; dropped if no digit follows); an integer becomes a
    Python [int] (subject to the digit limit), anything with a fraction or an
    exponent a [float]. *)

Definition match_sign (s : text) : text * text :=
  match s with
  | c :: r => if bool_decide (c = 45%N) then ([c], r) else ([], s)
  | [] => ([], [])
  end.

Definition match_int (s : text) : option (text * text) :=
  match s with
  | d :: r =>
      if bool_decide (d = 48%N) then Some ([d], r)
      else if is_digit d then let '(ds, r') := span_digits r in Some (d :: ds, r')
      else None
  | [] => None
  end.

Definition match_frac (s : text) : text * text :=
  match s with
  | dot :: d :: r =>
      if bool_decide (dot = 46%N) && is_digit d
      then let '(ds, r') := span_digits r in (dot :: d :: ds, r')
      else ([], s)
  | _ => ([], s)
  end.

Definition match_exp (s : text) : text * text :=
  match s with
  | e :: r =>
      if bool_decide (e = 101%N ∨ e = 69%N) then
        let '(sg, r1) :=
          match r with
          | c :: r' => if bool_decide (c = 43%N ∨ c = 45%N) then ([c], r') else ([], r)
          | [] => ([], [])
          end in
        match span_digits r1 with
        | ([], _) => ([], s)
        | (ds, r2) => (e :: sg ++ ds, r2)
        end
      else ([], s)
  | [] => ([], [])
  end.

Definition digits_value (ds : text) : N :=
  fold_left (fun acc d => acc * 10 + (d - 48))%N ds 0%N.

Definition match_number (lim : limits) (s : text) : outcome jerr (json * text) :=
  let '(sign, s1) := match_sign s in
  match match_int s1 with
  | None => Raise EDecode
  | Some (ip, r2) =>
      let '(frac, r3) := match_frac r2 in
      let '(ex, r4) := match_exp r3 in
      if bool_decide (frac = [] ∧ ex = []) then
        if bool_decide (int_max_str_digits lim <> 0 ∧ int_max_str_digits lim < length ip)
        then Raise EIntDigits
        else
          let n := Z.of_N (digits_value ip) in
          Ok (JInt (if bool_decide (sign = []) then n else (- n)%Z), r4)
      else Ok (JFloat (sign ++ ip ++ frac ++ ex), r4)
  end.

(** ** Named constants: [null true false NaN Infinity -Infinity] *)

Definition constants : list (text * json) :=
  [(txt "null", JNull); (txt "true", JBool true); (txt "false", JBool false);
   (txt "NaN", JFloat (txt "NaN")); (txt "Infinity", JFloat (txt "Infinity"));
   (txt "-Infinity", JFloat (txt "-Infinity"))].

Fixpoint find_constant (cs : list (text * json)) (s : text) : option (json * text) :=
  match cs with
  | [] => None
  | (lit, v) :: cs' =>
      if PyStr.startswith s lit then Some (v, drop (length lit) s)
      else find_constant cs' s
  end.

(** ** Objects keep [dict] insertion order; a repeated key keeps its first
    position and takes the last value ([PyDict_SetItem]). *)
Fixpoint dict_set (k : text) (v : json) (kvs : list (text * json)) : list (text * json) :=
  match kvs with
  | [] => [(k, v)]
  | (k', v') :: r => if bool_decide (k = k') then (k, v) :: r else (k', v') :: dict_set k v r
  end.

(** ** Arrays and objects, given the scanner [v] for nested values *)

Fixpoint array_items (v : text -> outcome jerr (json * text)) (fuel : nat)
         (s : text) (acc : list json) : outcome jerr (json * text) :=
  match fuel with
  | O => Raise EFuel
  | S f =>
      match v s with
      | Raise e => Raise e
      | Ok (x, r) =>
          let r1 := skip_ws r in
          if head_is 93%N r1 then Ok (JArr (acc ++ [x]), tail r1)
          else if head_is 44%N r1 then
            let r2 := skip_ws (tail r1) in
            if head_is 93%N r2 then Raise EDecode
            else array_items v f r2 (acc ++ [x])
          else Raise EDecode
      end
  end.

Definition parse_array (v : text -> outcome jerr (json * text)) (fuel : nat)
           (s : text) : outcome jerr (json * text) :=
  let s1 := skip_ws s in
  if head_is 93%N s1 then Ok (JArr [], tail s1) else array_items v fuel s1 [].

Fixpoint object_items (v : text -> outcome jerr (json * text)) (fuel : nat)
         (s : text) (acc : list (text * json)) : outcome jerr (json * text) :=
  match fuel with
  | O => Raise EFuel
  | S f =>
      if head_is 34%N s then
        match scanstring (tail s) with
        | Raise e => Raise e
        | Ok (key, r1) =>
            let r2 := skip_ws r1 in
            if head_is 58%N r2 then
              match v (skip_ws (tail r2)) with
              | Raise e => Raise e
              | Ok (x, r3) =>
                  let acc' := dict_set key x acc in
                  let r4 := skip_ws r3 in
                  if head_is 125%N r4 then Ok (JObj acc', tail r4)
                  else if head_is 44%N r4 then
                    let r5 := skip_ws (tail r4) in
                    if head_is 125%N r5 then Raise EDecode
                    else object_items v f r5 acc'
                  else Raise EDecode
              end
            else Raise EDecode
        end
      else Raise EDecode
  end.

Definition parse_object (v : text -> outcome jerr (json * text)) (fuel : nat)
           (s : text) : outcome jerr (json * text) :=
  let s1 := skip_ws s in
  if head_is 125%N s1 then Ok (JObj [], tail s1) else object_items v fuel s1 [].

(** ** [scan_once_unicode] *)
Fixpoint scan_once (lim : limits) (depth : nat) (fuel : nat) (s : text) {struct fuel}
  : outcome jerr (json * text) :=
  match fuel with
  | O => Raise EFuel
  | S f =>
      match s with
      | [] => Raise EDecode
      | c :: r =>
          if bool_decide (c = 34%N) then
            match scanstring r with
            | Ok (str, rest) => Ok (JStr str, rest)
            | Raise e => Raise e
            end
          else if bool_decide (c = 123%N) then
            match depth with
            | O => Raise ERecursion
            | S d => parse_object (scan_once lim d f) f r
            end
          else if bool_decide (c = 91%N) then
            match depth with
            | O => Raise ERecursion
            | S d => parse_array (scan_once lim d f) f r
            end
          else
            match find_constant constants s with
            | Some res => Ok res
            | None => match_number lim s
            end
      end
  end.

(** [JSONDecoder.raw_decode(s)]: one value at the start of [s], and the text
    after it. *)
Definition raw_decode (lim : limits) (s : text) : outcome jerr (json * text) :=
  scan_once lim (max_depth lim) (S (length s)) s.

(** [json.loads(s)]: refuse a byte-order mark, skip whitespace, decode one
    value, and allow only whitespace after it. *)
Definition loads (lim : limits) (s : text) : outcome jerr json :=
  if head_is 65279%N s then Raise EDecode
  else
    match raw_decode lim (skip_ws s) with
    | Raise e => Raise e
    | Ok (v, rest) => if bool_decide (skip_ws rest = []) then Ok v else Raise EDecode
    end.

(** ** Serialization

    [render] writes a value as compact JSON, the form the theorems feed to
    the decoder: the text Velociraptor writes for a result batch.  Strings
    escape the quote, the backslash and the control characters below 0x20
    and keep every other code point as it is. *)

Definition hex_digit (n : N) : char :=
  if bool_decide (n < 10)%N then (48 + n)%N else (87 + n)%N.

Definition escape_char (c : char) : text :=
  if bool_decide (c = 34%N) then [92; 34]%N
  else if bool_decide (c = 92%N) then [92; 92]%N
  else if bool_decide (c <= 31)%N then [92; 117; 48; 48; hex_digit (c / 16); hex_digit (c mod 16)]%N
  else [c].

Definition render_str (s : text) : text := [34%N] ++ flat_map escape_char s ++ [34%N].

(** Decimal digits, least significant first; the fuel is a bound on their
    number. *)
Fixpoint digits_rev (fuel : nat) (n : N) : text :=
  match fuel with
  | O => []
  | S f => (48 + n mod 10)%N :: (if bool_decide (n < 10)%N then [] else digits_rev f (n / 10))
  end.

Definition render_nat (n : N) : text := rev (digits_rev (S (N.to_nat (N.size n))) n).

Definition render_int (z : Z) : text :=
  if bool_decide (z < 0)%Z then 45%N :: render_nat (Z.to_N (- z)) else render_nat (Z.to_N z).

Fixpoint render (v : json) : text :=
  match v with
  | JNull => txt "null"
  | JBool b => if b then txt "true" else txt "false"
  | JInt z => render_int z
  | JFloat lit => lit
  | JStr s => render_str s
  | JArr xs => [91%N] ++ PyStr.join [44%N] (map render xs) ++ [93%N]
  | JObj kvs =>
      [123%N] ++ PyStr.join [44%N] (map (fun kv => render_str kv.1 ++ [58%N] ++ render kv.2) kvs)
              ++ [125%N]
  end.

(** ** Well-formed values

    What the decoder can give back: integer literals within the digit limit,
    float literals of the JSON number grammar (or a named constant), objects
    without repeated keys, nesting within the depth budget. *)

Definition all_digits (s : text) : bool := forallb is_digit s.

Definition int_lit_ok (ip : text) : Prop :=
  match ip with
  | [] => False
  | d :: ds => if bool_decide (d = 48%N) then ds = [] else is_digit d = true ∧ all_digits ds = true
  end.

Inductive float_lit : text -> Prop :=
| FL_const lit :
    lit ∈ [txt "NaN"; txt "Infinity"; txt "-Infinity"] -> float_lit lit
| FL_num sign ip frac ex :
    (sign = [] ∨ sign = [45%N]) ->
    int_lit_ok ip ->
    (frac = [] ∨ ∃ ds, frac = 46%N :: ds ∧ ds ≠ [] ∧ all_digits ds = true) ->
    (ex = [] ∨ ∃ e sg ds, ex = e :: sg ++ ds ∧ (e = 101%N ∨ e = 69%N) ∧
                          (sg = [] ∨ sg = [43%N] ∨ sg = [45%N]) ∧
                          ds ≠ [] ∧ all_digits ds = true) ->
    (frac ≠ [] ∨ ex ≠ []) ->
    float_lit (sign ++ ip ++ frac ++ ex).

Fixpoint json_ok (lim : limits) (v : json) : Prop :=
  match v with
  | JNull | JBool _ | JStr _ => True
  | JInt z =>
      int_max_str_digits lim = 0 ∨
      length (render_nat (Z.to_N (Z.abs z))) <= int_max_str_digits lim
  | JFloat lit => float_lit lit
  | JArr xs => (fix go (xs : list json) : Prop :=
                  match xs with [] => True | x :: r => json_ok lim x ∧ go r end) xs
  | JObj kvs => NoDup (map fst kvs) ∧
                (fix go (kvs : list (text * json)) : Prop :=
                   match kvs with [] => True | kv :: r => json_ok lim kv.2 ∧ go r end) kvs
  end.

Fixpoint jdepth (v : json) : nat :=
  match v with
  | JArr xs => S (list_max (map jdepth xs))
  | JObj kvs => S (list_max (map (fun kv => jdepth kv.2) kvs))
  | _ => 0
  end.

(** An induction principle that sees through the lists of arrays and
    objects. *)
Section JsonInd.
Variable P : json -> Prop.
Hypothesis H_null : P JNull.
Hypothesis H_bool : forall b, P (JBool b).
Hypothesis H_int : forall z, P (JInt z).
Hypothesis H_float : forall lit, P (JFloat lit).
Hypothesis H_str : forall s, P (JStr s).
Hypothesis H_arr : forall xs, Forall P xs -> P (JArr xs).
Hypothesis H_obj : forall kvs, Forall (fun kv => P kv.2) kvs -> P (JObj kvs).

Fixpoint json_ind' (v : json) : P v :=
  match v with
  | JNull => H_null
  | JBool b => H_bool b
  | JInt z => H_int z
  | JFloat lit => H_float lit
  | JStr s => H_str s
  | JArr xs =>
      H_arr xs ((fix go (xs : list json) : Forall P xs :=
                   match xs with
                   | [] => Forall_nil P
                   | x :: r => Forall_cons P x r (json_ind' x) (go r)
                   end) xs)
  | JObj kvs =>
      H_obj kvs ((fix go (kvs : list (text * json)) : Forall (fun kv => P kv.2) kvs :=
                    match kvs with
                    | [] => Forall_nil _
                    | kv :: r => Forall_cons (fun kv => P kv.2) kv r (json_ind' kv.2) (go r)
                    end) kvs)
  end.
End JsonInd.

(** ** Lemmas: what every scan consumes, and which exceptions it can raise *)

(** The exceptions a scan over [m] code points with depth budget [D] may
    raise: [JSONDecodeError]; [ValueError] only when the digit limit is on;
    [RecursionError] only when the budget is smaller than the input. *)
Definition raises_ok (lim : limits) (D m : nat) (e : jerr) : Prop :=
  e = EDecode ∨ (e = EIntDigits ∧ int_max_str_digits lim ≠ 0) ∨ (e = ERecursion ∧ D < m).

Lemma raises_ok_mono lim D D' m m' e :
  raises_ok lim D m e -> D' <= D + (m' - m) -> m <= m' -> raises_ok lim D' m' e.
Proof.
  unfold raises_ok. intros [H|[H|[H1 H2]]] ? ?;
    [by left|by right; left|right; right; split; [done|lia]].
Qed.

Lemma skip_ws_length s : length (skip_ws s) <= length s.
Proof. induction s as [|c s IH]; simpl; [lia|]. case_match; simpl; lia. Qed.

Lemma tail_length (s : text) : length (tail s) <= length s.
Proof. destruct s; simpl; lia. Qed.

Lemma tail_length_head c (s : text) : head_is c s = true -> length (tail s) < length s.
Proof. destruct s; simpl; [discriminate|lia]. Qed.

#[export] Hint Resolve skip_ws_length tail_length tail_length_head : velo.

Lemma cons_str_ok c m str r :
  cons_str c m = Ok (str, r) -> ∃ str', m = Ok (str', r).
Proof. unfold cons_str. repeat case_match; intros; simplify_eq; eauto. Qed.

Lemma cons_str_raise c m e : cons_str c m = Raise e -> m = Raise e.
Proof. unfold cons_str. repeat case_match; intros; simplify_eq; eauto. Qed.

Lemma scanstring_spec (s : text) :
  (∀ str r, scanstring s = Ok (str, r) -> length r < length s) ∧
  (∀ e, scanstring s = Raise e -> e = EDecode).
Proof.
  induction s as [s IH] using length_ind.
  split.
  - intros str r H. destruct s as [|c s]; simpl in H; [discriminate|].
    repeat case_match; simplify_eq; simpl; try lia;
      repeat match goal with
      | H : cons_str _ (scanstring ?t) = Ok _ |- _ =>
          apply cons_str_ok in H as [? H]; apply (proj1 (IH t ltac:(simpl; lia))) in H
      end; simpl in *; lia.
  - intros e H. destruct s as [|c s]; simpl in H; [by simplify_eq|].
    repeat case_match; simplify_eq; try done;
      repeat match goal with
      | H : cons_str _ (scanstring ?t) = Raise _ |- _ =>
          apply cons_str_raise in H; apply (proj2 (IH t ltac:(simpl; lia))) in H
      end; done.
Qed.

Lemma span_digits_length s : length (span_digits s).2 <= length s.
Proof. induction s as [|c s IH]; simpl; [lia|]. repeat case_match; simplify_eq/=; lia. Qed.

Lemma span_digits_app s : (span_digits s).1 ++ (span_digits s).2 = s.
Proof. induction s as [|c s IH]; simpl; [done|]. repeat case_match; simplify_eq/=; congruence. Qed.

Lemma match_number_spec lim s :
  (∀ x r, match_number lim s = Ok (x, r) -> length r < length s) ∧
  (∀ e, match_number lim s = Raise e -> e = EDecode ∨ (e = EIntDigits ∧ int_max_str_digits lim ≠ 0)).
Proof.
  unfold match_number, match_sign, match_int, match_frac, match_exp.
  pose proof span_digits_length as Hs.
  split; [intros x r H|intros e H]; repeat case_match; simplify_eq; try tauto;
    repeat match goal with
    | H : span_digits ?t = _ |- _ => let Ht := fresh in
        pose proof (Hs t) as Ht; rewrite H in Ht; simpl in Ht; clear H
    end; simpl in *; try lia.
  all: bool_decide_hyps; right; split; [done|tauto].
Qed.

Lemma find_constant_consumes cs s v r :
  Forall (fun kv => kv.1 ≠ []) cs ->
  find_constant cs s = Some (v, r) -> length r < length s.
Proof.
  induction cs as [|[lit w] cs IH]; simpl; [discriminate|].
  intros Hne H. inversion Hne as [|? ? Hlit Hcs]; subst.
  case_match; [|by eauto]. simplify_eq. rewrite length_drop.
  destruct lit; [done|]. destruct s; simpl in *; [discriminate|lia].
Qed.

Lemma find_constant_constants s v r :
  find_constant constants s = Some (v, r) -> length r < length s.
Proof. apply find_constant_consumes. repeat constructor; discriminate. Qed.

Lemma ws_tail_length (t : text) : length (tail (skip_ws t)) <= length t.
Proof. pose proof (skip_ws_length t). pose proof (tail_length (skip_ws t)). lia. Qed.

Lemma ws_tail_ws_length (t : text) : length (skip_ws (tail (skip_ws t))) <= length t.
Proof. pose proof (ws_tail_length t). pose proof (skip_ws_length (tail (skip_ws t))). lia. Qed.

Lemma scanstring_consumes s str r : scanstring s = Ok (str, r) -> length r < length s.
Proof. apply scanstring_spec. Qed.

Lemma scanstring_raises s e : scanstring s = Raise e -> e = EDecode.
Proof. apply scanstring_spec. Qed.

(** The loops over array elements and object members, for any value scanner
    [v] that consumes input and raises only what [raises_ok] allows below the
    bound [B]. *)
Section Items.
Variable lim : limits.
Variable v : text -> outcome jerr (json * text).
Hypothesis v_consumes : ∀ s x r, v s = Ok (x, r) -> length r < length s.

(** One member of an object: key, colon, value; what is left after it. *)
Lemma object_member_consumes s key r1 y r3 :
  scanstring (tail s) = Ok (key, r1) ->
  v (skip_ws (tail (skip_ws r1))) = Ok (y, r3) ->
  length r3 < length s.
Proof.
  intros Hs Hv. apply scanstring_consumes in Hs. apply v_consumes in Hv.
  pose proof (ws_tail_ws_length r1). pose proof (tail_length s). lia.
Qed.

Lemma array_items_consumes g s acc x r :
  array_items v g s acc = Ok (x, r) -> length r < length s.
Proof.
  revert s acc. induction g as [|g IH]; intros s acc H; simpl in H; [discriminate|].
  destruct (v s) as [[y r1]|e] eqn:Hv; [|discriminate]. apply v_consumes in Hv.
  pose proof (ws_tail_length r1). pose proof (ws_tail_ws_length r1).
  repeat case_match; simplify_eq; [lia|]. apply IH in H. lia.
Qed.

Lemma object_items_consumes g s acc x r :
  object_items v g s acc = Ok (x, r) -> length r < length s.
Proof.
  revert s acc. induction g as [|g IH]; intros s acc H; simpl in H; [discriminate|].
  destruct (head_is 34%N s); [|discriminate].
  destruct (scanstring (tail s)) as [[key r1]|e] eqn:Hs; [|discriminate].
  destruct (head_is 58%N (skip_ws r1)); [|discriminate].
  destruct (v (skip_ws (tail (skip_ws r1)))) as [[y r3]|e] eqn:Hv; [|discriminate].
  pose proof (object_member_consumes s key r1 y r3 Hs Hv).
  pose proof (ws_tail_length r3). pose proof (ws_tail_ws_length r3).
  repeat case_match; simplify_eq; [lia|]. apply IH in H. lia.
Qed.

Lemma parse_array_consumes g s x r : parse_array v g s = Ok (x, r) -> length r < length s.
Proof.
  unfold parse_array. pose proof (skip_ws_length s).
  destruct (head_is 93%N (skip_ws s)) eqn:Hh.
  - intros; simplify_eq. pose proof (tail_length_head _ _ Hh). lia.
  - intros Hp. apply array_items_consumes in Hp. lia.
Qed.

Lemma parse_object_consumes g s x r : parse_object v g s = Ok (x, r) -> length r < length s.
Proof.
  unfold parse_object. pose proof (skip_ws_length s).
  destruct (head_is 125%N (skip_ws s)) eqn:Hh.
  - intros; simplify_eq. pose proof (tail_length_head _ _ Hh). lia.
  - intros Hp. apply object_items_consumes in Hp. lia.
Qed.

Variable D B : nat.
Hypothesis v_raises : ∀ s e, length s < B -> v s = Raise e -> raises_ok lim D (length s) e.

Lemma array_items_raises g s acc e :
  length s < g -> length s < B -> array_items v g s acc = Raise e ->
  raises_ok lim D (length s) e.
Proof.
  revert s acc. induction g as [|g IH]; intros s acc Hg HB H; simpl in H; [lia|].
  destruct (v s) as [[y r1]|e'] eqn:Hv; [|simplify_eq; by apply v_raises].
  apply v_consumes in Hv. pose proof (ws_tail_ws_length r1).
  repeat case_match; simplify_eq; try by left.
  eapply raises_ok_mono; [apply IH in H; [exact H|lia|lia]|lia|lia].
Qed.

Lemma object_items_raises g s acc e :
  length s < g -> length s < B -> object_items v g s acc = Raise e ->
  raises_ok lim D (length s) e.
Proof.
  revert s acc. induction g as [|g IH]; intros s acc Hg HB H; simpl in H; [lia|].
  destruct (head_is 34%N s); [|simplify_eq; by left].
  destruct (scanstring (tail s)) as [[key r1]|e'] eqn:Hs;
    [|simplify_eq; apply scanstring_raises in Hs; subst; by left].
  destruct (head_is 58%N (skip_ws r1)); [|simplify_eq; by left].
  pose proof Hs as Hs'. apply scanstring_consumes in Hs'.
  pose proof (ws_tail_ws_length r1). pose proof (tail_length s).
  destruct (v (skip_ws (tail (skip_ws r1)))) as [[y r3]|e'] eqn:Hv.
  - pose proof (object_member_consumes s key r1 y r3 Hs Hv).
    pose proof (ws_tail_ws_length r3).
    repeat case_match; simplify_eq; try by left.
    eapply raises_ok_mono; [apply IH in H; [exact H|lia|lia]|lia|lia].
  - simplify_eq. apply v_raises in Hv; [|lia].
    eapply raises_ok_mono; [exact Hv|lia|lia].
Qed.

Lemma parse_array_raises g s e :
  length s < g -> length s < B -> parse_array v g s = Raise e -> raises_ok lim D (length s) e.
Proof.
  unfold parse_array. pose proof (skip_ws_length s). case_match; [discriminate|].
  intros ? ? Hp. eapply raises_ok_mono; [apply array_items_raises in Hp; [exact Hp|lia|lia]|lia|lia].
Qed.

Lemma parse_object_raises g s e :
  length s < g -> length s < B -> parse_object v g s = Raise e -> raises_ok lim D (length s) e.
Proof.
  unfold parse_object. pose proof (skip_ws_length s). case_match; [discriminate|].
  intros ? ? Hp. eapply raises_ok_mono; [apply object_items_raises in Hp; [exact Hp|lia|lia]|lia|lia].
Qed.
End Items.

(** The defining equation of one scanning step, kept folded. *)
Lemma scan_once_cons lim d f c s :
  scan_once lim d (S f) (c :: s) =
  if bool_decide (c = 34%N) then
    match scanstring s with
    | Ok (str, rest) => Ok (JStr str, rest)
    | Raise e => Raise e
    end
  else if bool_decide (c = 123%N) then
    match d with O => Raise ERecursion | S d' => parse_object (scan_once lim d' f) f s end
  else if bool_decide (c = 91%N) then
    match d with O => Raise ERecursion | S d' => parse_array (scan_once lim d' f) f s end
  else
    match find_constant constants (c :: s) with
    | Some res => Ok res
    | None => match_number lim (c :: s)
    end.
Proof. reflexivity. Qed.

Lemma scan_once_consumes lim d n s x r :
  scan_once lim d n s = Ok (x, r) -> length r < length s.
Proof.
  revert d s x r. induction n as [|n IH]; intros d s x r H; [discriminate|].
  destruct s as [|c s]; [discriminate|]. rewrite scan_once_cons in H.
  destruct (bool_decide (c = 34%N)).
  { destruct (scanstring s) as [[str r']|e] eqn:Hs; simplify_eq.
    apply scanstring_consumes in Hs. simpl; lia. }
  destruct (bool_decide (c = 123%N)).
  { destruct d; [discriminate|].
    apply parse_object_consumes in H; [simpl; lia|]. intros; eapply IH; eauto. }
  destruct (bool_decide (c = 91%N)).
  { destruct d; [discriminate|].
    apply parse_array_consumes in H; [simpl; lia|]. intros; eapply IH; eauto. }
  destruct (find_constant constants (c :: s)) as [[y rr]|] eqn:Hc.
  { simplify_eq. by apply find_constant_constants in Hc. }
  by apply (proj1 (match_number_spec lim (c :: s))) in H.
Qed.

(** Termination of the scanner: with fuel above the input length it never
    runs out, and what it raises is a [JSONDecodeError], a [ValueError] only
    when the digit limit is on, or a [RecursionError] only when the depth
    budget is below the input length. *)
Lemma scan_once_raises lim n d s e :
  length s < n -> scan_once lim d n s = Raise e -> raises_ok lim d (length s) e.
Proof.
  revert d s e. induction n as [|n IH]; intros d s e Hn H; [lia|].
  destruct s as [|c s]; [simpl in H; simplify_eq; by left|].
  rewrite scan_once_cons in H. simpl in Hn.
  destruct (bool_decide (c = 34%N)).
  { destruct (scanstring s) as [[str r']|e'] eqn:Hs; simplify_eq.
    apply scanstring_raises in Hs. subst. by left. }
  destruct (bool_decide (c = 123%N)).
  { destruct d as [|d]; [simplify_eq; right; right; split; [done|simpl; lia]|].
    apply (parse_object_raises lim (scan_once lim d n)
             (fun s x r Hs => scan_once_consumes lim d n s x r Hs) d n
             (fun s e Hs He => IH d s e Hs He) n s e ltac:(lia) ltac:(lia)) in H.
    eapply raises_ok_mono; [exact H|simpl; lia|simpl; lia]. }
  destruct (bool_decide (c = 91%N)).
  { destruct d as [|d]; [simplify_eq; right; right; split; [done|simpl; lia]|].
    apply (parse_array_raises lim (scan_once lim d n)
             (fun s x r Hs => scan_once_consumes lim d n s x r Hs) d n
             (fun s e Hs He => IH d s e Hs He) n s e ltac:(lia) ltac:(lia)) in H.
    eapply raises_ok_mono; [exact H|simpl; lia|simpl; lia]. }
  destruct (find_constant constants (c :: s)); [discriminate|].
  unfold raises_ok. apply (proj2 (match_number_spec lim (c :: s))) in H. tauto.
Qed.

Lemma raw_decode_consumes lim s x r : raw_decode lim s = Ok (x, r) -> length r < length s.
Proof. apply scan_once_consumes. Qed.

Lemma raw_decode_raises lim s e :
  raw_decode lim s = Raise e -> raises_ok lim (max_depth lim) (length s) e.
Proof. apply scan_once_raises. lia. Qed.

End Json.
