(* ===== verification/Dumps.v ===== *)
(** * The CPython [json] encoder, [json.dumps] with its defaults

    [json.dumps(obj)] with [ensure_ascii=True] and the separators [", "] and
    [": "]: the C accelerator's [encode_basestring_ascii] for strings
    ([Modules/_json.c], [ascii_escape_unichar]), [int.__repr__] for integers,
    and the bracketed lists of [Lib/json/encoder.py] for lists and dicts.
    [schedule_hunt] builds VQL text from it.  A float is written as its
    literal: [JFloat lit] stands for the float whose [repr] is [lit].
    [dumps_indent] is [json.dumps(obj, indent=2)], the pure-Python encoder
    that [print_summary] and the CLI use for their JSON output.

    The theorems: the output is printable ASCII, so it holds no line break
    for [str.splitlines]; a string's encoding has no unescaped quote inside;
    and the decoder of [Json] reads back every well-formed value ([raw_decode]
    of [dumps v] followed by any text that does not continue a number gives
    [v] and that text). *)

From Stdlib Require Import NArith ZArith String Lia.
From stdpp Require Import base list decidable.
From S2P Require Import Prelude PyStr Json.

Module Dumps.
Import Json.

(** ** Strings: [ascii_escape_unichar] *)

(** [\uXXXX] with the lowercase digits of [Py_hexdigits]. *)
Definition u_escape (c : N) : text :=
  [92; 117;
   hex_digit (N.land (N.shiftr c 12) 15); hex_digit (N.land (N.shiftr c 8) 15);
   hex_digit (N.land (N.shiftr c 4) 15); hex_digit (N.land c 15)]%N.

(** [Py_UNICODE_HIGH_SURROGATE] and [Py_UNICODE_LOW_SURROGATE]. *)
Definition high_surrogate (c : N) : N := (55232 + N.shiftr c 10)%N.
Definition low_surrogate (c : N) : N := (56320 + N.land c 1023)%N.

(** [S_CHAR]: printable ASCII other than the backslash and the quote is
    copied; the rest is escaped. *)
Definition escape_ascii (c : char) : text :=
  if bool_decide (32 <= c <= 126 ∧ c ≠ 92 ∧ c ≠ 34)%N then [c]
  else if bool_decide (c = 92%N) then [92; 92]%N
  else if bool_decide (c = 34%N) then [92; 34]%N
  else if bool_decide (c = 8%N) then [92; 98]%N
  else if bool_decide (c = 12%N) then [92; 102]%N
  else if bool_decide (c = 10%N) then [92; 110]%N
  else if bool_decide (c = 13%N) then [92; 114]%N
  else if bool_decide (c = 9%N) then [92; 116]%N
  else if bool_decide (65536 <= c)%N then u_escape (high_surrogate c) ++ u_escape (low_surrogate c)
  else u_escape c.

(** [encode_basestring_ascii]. *)
Definition encode_ascii (s : text) : text := [34%N] ++ flat_map escape_ascii s ++ [34%N].

(** ** Values: [JSONEncoder.encode] with [ensure_ascii=True] *)
Fixpoint dumps (v : json) : text :=
  match v with
  | JNull => txt "null"
  | JBool b => if b then txt "true" else txt "false"
  | JInt z => render_int z
  | JFloat lit => lit
  | JStr s => encode_ascii s
  | JArr xs => [91%N] ++ PyStr.join (txt ", ") (map dumps xs) ++ [93%N]
  | JObj kvs =>
      [123%N] ++ PyStr.join (txt ", ") (map (fun kv => encode_ascii kv.1 ++ txt ": " ++ dumps kv.2) kvs)
              ++ [125%N]
  end.

(** ** [json.dumps(v, indent=2)]: the pure-Python encoder of
    [json.encoder._make_iterencode], which [json.dumps] uses when [indent]
    is given.  The item separator is then [","] (no space), every item
    starts on a new line indented by two spaces per level, and an empty
    container is written [[]] or [{}].  [default=str] is never called for
    the values of [json]. *)
Definition newline_indent (level : nat) : text := 10%N :: repeat 32%N (2 * level).

Fixpoint dumps_indent (level : nat) (v : json) : text :=
  match v with
  | JArr [] => txt "[]"
  | JArr xs =>
      [91%N] ++ newline_indent (S level) ++
      PyStr.join ([44%N] ++ newline_indent (S level)) (map (dumps_indent (S level)) xs) ++
      newline_indent level ++ [93%N]
  | JObj [] => txt "{}"
  | JObj kvs =>
      [123%N] ++ newline_indent (S level) ++
      PyStr.join ([44%N] ++ newline_indent (S level))
        (map (fun kv => encode_ascii kv.1 ++ txt ": " ++ dumps_indent (S level) kv.2) kvs) ++
      newline_indent level ++ [125%N]
  | _ => dumps v
  end.

(** The layout the two encoders share: the whitespace [o] after an
    opening bracket, [s] after a comma, [c] before a closing bracket, each
    given the nesting level.  It is what the round-trip theorems are proved
    for; [dumps_flat] and [dumps_indent_layout] show that both encoders are
    instances of it. *)
Fixpoint dumps_with (o s c : nat -> text) (l : nat) (v : json) : text :=
  match v with
  | JArr [] => txt "[]"
  | JArr xs =>
      [91%N] ++ o (S l) ++ PyStr.join (44%N :: s (S l)) (map (dumps_with o s c (S l)) xs) ++ c l ++ [93%N]
  | JObj [] => txt "{}"
  | JObj kvs =>
      [123%N] ++ o (S l) ++
      PyStr.join (44%N :: s (S l)) (map (fun kv => encode_ascii kv.1 ++ txt ": " ++ dumps_with o s c (S l) kv.2) kvs) ++
      c l ++ [125%N]
  | _ => dumps v
  end.

(** ** What the theorems assume of the input *)

(** A Unicode scalar value: a code point that is not a surrogate. *)
Definition scalar (c : char) : Prop := (c < 1114112)%N ∧ ¬ (55296 <= c <= 57343)%N.

#[export] Instance scalar_dec c : Decision (scalar c).
Proof. unfold scalar. apply _. Defined.

Definition printable_ascii (c : char) : Prop := (32 <= c <= 126)%N.

#[export] Instance printable_ascii_dec c : Decision (printable_ascii c).
Proof. unfold printable_ascii. apply _. Defined.

(** A text that does not continue a number literal: no digit, no dot, no
    exponent letter at its head. *)
Definition num_stop (r : text) : bool :=
  match r with
  | [] => true
  | c :: _ => negb (is_digit c) && bool_decide (c ≠ 46 ∧ c ≠ 101 ∧ c ≠ 69)%N
  end.

Definition digit_head (t : text) : bool :=
  match t with c :: _ => is_digit c | [] => false end.

(** Values whose text ends where a number could go on. *)
Definition is_number (v : json) : bool :=
  match v with JInt _ | JFloat _ => true | _ => false end.

(** Every string of the value, keys included, is made of scalar values. *)
Fixpoint strs_ok (v : json) : Prop :=
  match v with
  | JStr s => Forall scalar s
  | JArr xs => (fix go (xs : list json) : Prop :=
                  match xs with [] => True | x :: r => strs_ok x ∧ go r end) xs
  | JObj kvs => (fix go (kvs : list (text * json)) : Prop :=
                   match kvs with
                   | [] => True
                   | kv :: r => Forall scalar kv.1 ∧ strs_ok kv.2 ∧ go r
                   end) kvs
  | _ => True
  end.

(** The characters a value's text can start with. *)
Definition value_start (c : char) : Prop :=
  c ∈ [34; 91; 123; 45; 110; 116; 102; 78; 73]%N ∨ (48 <= c <= 57)%N.

#[export] Instance value_start_dec c : Decision (value_start c).
Proof. unfold value_start. apply _. Defined.

(** ** Lemmas on the escapes *)

Lemma hex_val_digit n : (n < 16)%N -> hex_val (hex_digit n) = Some n.
Proof.
  intros Hn. unfold hex_val, hex_digit.
  repeat case_bool_decide; f_equal; lia.
Qed.

Lemma land_15 n : N.land n 15 = (n mod 16)%N.
Proof. change 15%N with (N.ones 4). by rewrite N.land_ones. Qed.

Lemma land_1023 n : N.land n 1023 = (n mod 1024)%N.
Proof. change 1023%N with (N.ones 10). by rewrite N.land_ones. Qed.

Lemma u_escape_spec c :
  (c < 65536)%N -> ∃ a b d e, u_escape c = [92; 117; a; b; d; e]%N ∧ hex4 a b d e = Some c.
Proof.
  intros Hc. unfold u_escape. do 4 eexists. split; [reflexivity|]. unfold hex4. rewrite !land_15, !N.shiftr_div_pow2.
  change (2 ^ 12)%N with 4096%N. change (2 ^ 8)%N with 256%N. change (2 ^ 4)%N with 16%N.
  replace (c / 256)%N with (c / 16 / 16)%N by (rewrite N.Div0.div_div; reflexivity).
  replace (c / 4096)%N with (c / 16 / 16 / 16)%N by (rewrite !N.Div0.div_div; reflexivity).
  rewrite !hex_val_digit by (apply N.mod_lt; lia). f_equal.
  pose proof (N.div_mod c 16 ltac:(lia)). pose proof (N.div_mod (c / 16) 16 ltac:(lia)).
  pose proof (N.div_mod (c / 16 / 16) 16 ltac:(lia)).
  set (c1 := (c / 16)%N) in *. set (c2 := (c1 / 16)%N) in *. set (c3 := (c2 / 16)%N) in *.
  set (m0 := (c mod 16)%N) in *. set (m1 := (c1 mod 16)%N) in *. set (m2 := (c2 mod 16)%N) in *.
  clearbody c1 c2 c3 m0 m1 m2. assert (c3 < 16)%N by lia. rewrite (N.mod_small c3) by lia. lia.
Qed.

Lemma surrogates_spec c :
  (65536 <= c < 1114112)%N ->
  (high_surrogate c < 65536)%N ∧ is_high_surrogate (high_surrogate c) = true ∧
  (low_surrogate c < 65536)%N ∧ is_low_surrogate (low_surrogate c) = true ∧
  join_surrogates (high_surrogate c) (low_surrogate c) = c.
Proof.
  intros Hc. unfold high_surrogate, low_surrogate, is_high_surrogate, is_low_surrogate, join_surrogates.
  rewrite land_1023, N.shiftr_div_pow2. change (2 ^ 10)%N with 1024%N.
  pose proof (N.div_mod c 1024 ltac:(lia)). pose proof (N.mod_lt c 1024 ltac:(lia)).
  set (q := (c / 1024)%N) in *. set (m := (c mod 1024)%N) in *. clearbody q m.
  repeat split; try (apply bool_decide_eq_true; lia); lia.
Qed.

(** The decoder reads back one escaped code point. *)
Lemma scanstring_escape c r :
  scalar c -> scanstring (escape_ascii c ++ r) = cons_str c (scanstring r).
Proof.
  intros [Hmax Hsur]. unfold escape_ascii.
  case_bool_decide; [simpl; repeat case_bool_decide; try lia; done|].
  do 7 (case_bool_decide; [subst; reflexivity|]).
  case_bool_decide as Hbig.
  - destruct (surrogates_spec c ltac:(lia)) as (Hh & Hhi & Hl & Hlo & Hj).
    destruct (u_escape_spec _ Hh) as (a & b & d & e & -> & Ha).
    destruct (u_escape_spec _ Hl) as (a' & b' & d' & e' & -> & Ha').
    simpl. rewrite Ha, Hhi. simpl. rewrite Ha', Hlo, Hj. reflexivity.
  - destruct (u_escape_spec c ltac:(lia)) as (a & b & d & e & -> & Ha).
    simpl. rewrite Ha. unfold is_high_surrogate. rewrite bool_decide_false by lia. reflexivity.
Qed.

Lemma scanstring_encode s r :
  Forall scalar s -> scanstring (flat_map escape_ascii s ++ 34%N :: r) = Ok (s, r).
Proof.
  induction 1 as [|c s Hc _ IH]; [reflexivity|].
  simpl. rewrite <-app_assoc, scanstring_escape, IH by done. reflexivity.
Qed.


(** ** Numbers read back *)

Lemma digits_value_snoc ds d : digits_value (ds ++ [d]) = (digits_value ds * 10 + (d - 48))%N.
Proof. unfold digits_value. by rewrite fold_left_app. Qed.

Lemma pow10_succ f : (10 ^ N.of_nat (S f) = 10 * 10 ^ N.of_nat f)%N.
Proof. by rewrite Nat2N.inj_succ, N.pow_succ_r'. Qed.

Lemma digits_rev_spec f n :
  (n < 10 ^ N.of_nat f)%N ->
  digits_value (rev (digits_rev f n)) = n ∧ Forall (fun c => is_digit c = true) (digits_rev f n).
Proof.
  revert n. induction f as [|f IH]; intros n Hn.
  - change (10 ^ N.of_nat 0)%N with 1%N in Hn. assert (n = 0%N) as -> by lia. by split.
  - rewrite pow10_succ in Hn. cbn [digits_rev rev]. rewrite digits_value_snoc.
    pose proof (N.div_mod n 10 ltac:(lia)). pose proof (N.mod_lt n 10 ltac:(lia)).
    assert (Hq : (n < 10 -> n / 10 = 0)%N) by (intros; by apply N.div_small).
    assert (Hq' : (n / 10 < 10 ^ N.of_nat f)%N) by (apply N.Div0.div_lt_upper_bound; lia).
    set (q := (n / 10)%N) in *. set (m := (n mod 10)%N) in *. clearbody q m.
    assert (Hd : is_digit (48 + m)%N = true) by (apply bool_decide_eq_true; lia).
    case_bool_decide.
    + specialize (Hq ltac:(done)). split; [unfold digits_value; simpl; lia|]. by repeat constructor.
    + destruct (IH q) as [IH1 IH2]; [done|].
      rewrite IH1. split; [lia|]. by constructor.
Qed.

Lemma digits_rev_lead f n :
  (0 < n)%N -> (n < 10 ^ N.of_nat f)%N -> ∃ d ds, rev (digits_rev f n) = d :: ds ∧ d ≠ 48%N.
Proof.
  revert n. induction f as [|f IH]; intros n Hpos Hn.
  - change (10 ^ N.of_nat 0)%N with 1%N in Hn. lia.
  - rewrite pow10_succ in Hn. cbn [digits_rev rev]. case_bool_decide.
    + exists (48 + n mod 10)%N, []. rewrite N.mod_small by lia. split; [done|lia].
    + destruct (IH (n / 10)%N) as (d & ds & -> & Hd).
      * apply N.div_str_pos. lia.
      * apply N.Div0.div_lt_upper_bound; lia.
      * by exists d, (ds ++ [(48 + n mod 10)%N]).
Qed.

Lemma render_nat_fuel n : (n < 10 ^ N.of_nat (S (N.to_nat (N.size n))))%N.
Proof.
  rewrite Nat2N.inj_succ, N2Nat.id. eapply N.lt_le_trans; [apply N.size_gt|].
  etrans; [apply (N.pow_le_mono_l 2 10); lia|]. apply N.pow_le_mono_r; lia.
Qed.

Lemma render_nat_value n : digits_value (render_nat n) = n.
Proof. apply digits_rev_spec, render_nat_fuel. Qed.

Lemma render_nat_digits n : all_digits (render_nat n) = true.
Proof.
  unfold all_digits, render_nat. apply forallb_forall. intros c Hc. apply in_rev in Hc.
  destruct (digits_rev_spec _ _ (render_nat_fuel n)) as [_ Hd].
  by eapply Forall_forall in Hd.
Qed.

Lemma render_nat_int_lit n : int_lit_ok (render_nat n).
Proof.
  destruct (decide (n = 0%N)) as [->|Hn]; [done|].
  destruct (digits_rev_lead _ n ltac:(lia) (render_nat_fuel n)) as (d & ds & Hr & Hd).
  pose proof (render_nat_digits n) as Hdig. unfold render_nat in *. rewrite Hr in Hdig |- *.
  simpl. apply andb_prop in Hdig. rewrite bool_decide_false by done. done.
Qed.

Lemma span_digits_stop ds t :
  all_digits ds = true -> digit_head t = false -> span_digits (ds ++ t) = (ds, t).
Proof.
  intros Hd Ht. induction ds as [|d ds IH]; simpl in *.
  - destruct t as [|c t]; simpl in *; [done|]. by rewrite Ht.
  - apply andb_prop in Hd as [Hd1 Hd2]. rewrite Hd1, IH by done. done.
Qed.

Lemma match_int_lit ip t :
  int_lit_ok ip -> digit_head t = false -> match_int (ip ++ t) = Some (ip, t).
Proof.
  destruct ip as [|d ds]; [done|]. simpl. intros Hok Ht.
  case_bool_decide; [by subst|]. destruct Hok as [Hd Hds]. rewrite Hd, span_digits_stop by done.
  done.
Qed.

Lemma num_stop_digit_head r : num_stop r = true -> digit_head r = false.
Proof. destruct r as [|c r]; simpl; [done|]. intros [H _]%andb_prop. by destruct (is_digit c). Qed.

Lemma match_frac_stop r : num_stop r = true -> match_frac r = ([], r).
Proof.
  destruct r as [|c [|c' r]]; simpl; try done.
  intros [_ H]%andb_prop. apply bool_decide_eq_true in H. by rewrite bool_decide_false by lia.
Qed.

Lemma match_exp_stop r : num_stop r = true -> match_exp r = ([], r).
Proof.
  destruct r as [|c r]; simpl; [done|].
  intros [_ H]%andb_prop. apply bool_decide_eq_true in H. by rewrite bool_decide_false by lia.
Qed.

Lemma match_sign_lit ip t : int_lit_ok ip -> match_sign (ip ++ t) = ([], ip ++ t).
Proof.
  destruct ip as [|d ds]; [done|]. simpl. intros Hok.
  rewrite bool_decide_false; [done|]. intros ->.
  rewrite bool_decide_false in Hok by lia. destruct Hok as [Hd _]. vm_compute in Hd. discriminate.
Qed.

Lemma match_number_int lim z r :
  num_stop r = true ->
  (int_max_str_digits lim = 0 ∨ length (render_nat (Z.to_N (Z.abs z))) <= int_max_str_digits lim) ->
  match_number lim (render_int z ++ r) = Ok (JInt z, r).
Proof.
  intros Hr Hlim. unfold match_number, render_int.
  pose proof (num_stop_digit_head r Hr) as Hd.
  case_bool_decide as Hz.
  - rewrite Z.abs_neq in Hlim by lia. set (L := render_nat (Z.to_N (- z))) in *.
    cbn [app match_sign]. rewrite bool_decide_true by done.
    rewrite match_int_lit by (done || apply render_nat_int_lit).
    rewrite match_frac_stop, match_exp_stop by done.
    rewrite bool_decide_true by done. rewrite bool_decide_false by lia.
    rewrite bool_decide_false by done. unfold L. rewrite render_nat_value, Z2N.id by lia.
    do 3 f_equal. lia.
  - rewrite Z.abs_eq in Hlim by lia. set (L := render_nat (Z.to_N z)) in *.
    rewrite match_sign_lit by apply render_nat_int_lit.
    rewrite match_int_lit by (done || apply render_nat_int_lit).
    rewrite match_frac_stop, match_exp_stop by done.
    rewrite bool_decide_true by done. rewrite bool_decide_false by lia.
    rewrite bool_decide_true by done. unfold L. rewrite render_nat_value, Z2N.id by lia.
    done.
Qed.

Section Float.
Context (ex r : text).
Hypothesis H_ex : ex = [] ∨ ∃ e sg ds, ex = e :: sg ++ ds ∧ (e = 101%N ∨ e = 69%N) ∧
                         (sg = [] ∨ sg = [43%N] ∨ sg = [45%N]) ∧ ds ≠ [] ∧ all_digits ds = true.
Hypothesis H_r : num_stop r = true.

Lemma digit_head_exp : digit_head (ex ++ r) = false.
Proof.
  destruct H_ex as [-> | (e & sg & ds & -> & He & _)]; [by apply num_stop_digit_head|].
  simpl. apply bool_decide_eq_false. lia.
Qed.

Lemma match_frac_exp : match_frac (ex ++ r) = ([], ex ++ r).
Proof.
  destruct H_ex as [-> | (e & sg & ds & -> & He & _)]; [by apply match_frac_stop|].
  change ((e :: sg ++ ds) ++ r) with (e :: ((sg ++ ds) ++ r)).
  destruct ((sg ++ ds) ++ r) as [|x t]; [done|]. simpl. by rewrite bool_decide_false by lia.
Qed.

Lemma match_exp_lit : match_exp (ex ++ r) = (ex, r).
Proof.
  destruct H_ex as [-> | (e & sg & ds & -> & He & Hsg & Hds & Hdig)]; [by apply match_exp_stop|].
  pose proof (num_stop_digit_head r H_r) as Hr.
  destruct ds as [|d ds']; [done|]. simpl in Hdig. apply andb_prop in Hdig as [Hd Hds'].
  assert (Hsp : span_digits (d :: ds' ++ r) = (d :: ds', r)).
  { apply (span_digits_stop (d :: ds')); [simpl; by rewrite Hd|done]. }
  apply bool_decide_eq_true in Hd.
  cbn [app match_exp]. rewrite bool_decide_true by done.
  destruct Hsg as [-> | [-> | ->]]; cbn [app].
  - rewrite bool_decide_false by lia. cbn beta iota. by rewrite Hsp.
  - rewrite bool_decide_true by lia. cbn beta iota. by rewrite Hsp.
  - rewrite bool_decide_true by lia. cbn beta iota. by rewrite Hsp.
Qed.
End Float.

Lemma match_number_float lim sign ip frac ex r :
  (sign = [] ∨ sign = [45%N]) -> int_lit_ok ip ->
  (frac = [] ∨ ∃ ds, frac = 46%N :: ds ∧ ds ≠ [] ∧ all_digits ds = true) ->
  (ex = [] ∨ ∃ e sg ds, ex = e :: sg ++ ds ∧ (e = 101%N ∨ e = 69%N) ∧
                        (sg = [] ∨ sg = [43%N] ∨ sg = [45%N]) ∧ ds ≠ [] ∧ all_digits ds = true) ->
  (frac ≠ [] ∨ ex ≠ []) -> num_stop r = true ->
  match_number lim ((sign ++ ip ++ frac ++ ex) ++ r) = Ok (JFloat (sign ++ ip ++ frac ++ ex), r).
Proof.
  intros Hsign Hip Hfrac Hex Hne Hr. unfold match_number. rewrite <-!app_assoc.
  assert (Hs : match_sign (sign ++ ip ++ frac ++ ex ++ r) = (sign, ip ++ frac ++ ex ++ r)).
  { destruct Hsign as [-> | ->]; [by apply (match_sign_lit ip)|]. reflexivity. }
  rewrite Hs. clear Hs.
  assert (Hf : digit_head (frac ++ ex ++ r) = false ∧ match_frac (frac ++ ex ++ r) = (frac, ex ++ r)).
  { destruct Hfrac as [-> | (ds & -> & Hds & Hdig)]; [cbn [app]; split; [by apply (digit_head_exp ex r) | by apply (match_frac_exp ex r)]|].
    split; [reflexivity|].
    destruct ds as [|d ds']; [done|]. simpl in Hdig. apply andb_prop in Hdig as [Hd Hds'].
    assert (Hsp : span_digits (ds' ++ ex ++ r) = (ds', ex ++ r))
      by (apply span_digits_stop; [done | by apply (digit_head_exp ex r)]).
    change ((46%N :: d :: ds') ++ ex ++ r) with (46%N :: d :: (ds' ++ ex ++ r)).
    unfold match_frac. rewrite Hd, Hsp. reflexivity. }
  destruct Hf as [Hd Hf]. rewrite match_int_lit by done. rewrite Hf. cbv beta iota zeta.
  rewrite (match_exp_lit ex r) by done. cbv beta iota zeta.
  rewrite bool_decide_false; [done|]. intros [-> ->]. by destruct Hne.
Qed.

(** ** Constants *)

Lemma find_constant_num c t :
  (48 <= c <= 57)%N -> find_constant constants (c :: t) = None ∧ find_constant constants (45%N :: c :: t) = None.
Proof. intros Hc. split; simpl; repeat (rewrite bool_decide_false by lia; simpl); done. Qed.

Lemma find_constant_float_lit lit r :
  lit ∈ [txt "NaN"; txt "Infinity"; txt "-Infinity"] ->
  find_constant constants (lit ++ r) = Some (JFloat lit, r).
Proof.
  rewrite list_elem_of_In. intros [<- | [<- | [<- | []]]]; destruct r; vm_compute; reflexivity.
Qed.

(** ** The first character of a value's text *)

Lemma value_start_not c :
  value_start c -> is_ws c = false ∧ c ≠ 93%N ∧ c ≠ 125%N ∧ c ≠ 44%N.
Proof.
  unfold value_start, is_ws. rewrite !list_elem_of_In. simpl.
  intros Hc. split; [|lia]. apply bool_decide_eq_false. rewrite list_elem_of_In. simpl. lia.
Qed.

Lemma render_nat_head n : ∃ d t, render_nat n = d :: t ∧ (48 <= d <= 57)%N.
Proof.
  pose proof (render_nat_int_lit n) as Hok. destruct (render_nat n) as [|d t]; [done|].
  exists d, t. split; [done|]. simpl in Hok. case_bool_decide; [lia|].
  destruct Hok as [Hd _]. by apply bool_decide_eq_true in Hd.
Qed.

Lemma int_lit_head ip : int_lit_ok ip -> ∃ d t, ip = d :: t ∧ (48 <= d <= 57)%N.
Proof.
  destruct ip as [|d t]; [done|]. simpl. intros Hok. exists d, t. split; [done|].
  case_bool_decide; [lia|]. destruct Hok as [Hd _]. by apply bool_decide_eq_true in Hd.
Qed.

Lemma dumps_head lim v : json_ok lim v -> ∃ c t, dumps v = c :: t ∧ value_start c.
Proof.
  intros Hok. destruct v as [| [] | z | lit | str | xs | kvs]; simpl in Hok.
  - exists 110%N, (txt "ull"). split; [reflexivity|decide_vm].
  - exists 116%N, (txt "rue"). split; [reflexivity|decide_vm].
  - exists 102%N, (txt "alse"). split; [reflexivity|decide_vm].
  - simpl. unfold render_int. case_bool_decide.
    + eexists _, _. split; [reflexivity|decide_vm].
    + destruct (render_nat_head (Z.to_N z)) as (d & t & -> & Hd). exists d, t. split; [done|by right].
  - simpl. destruct Hok as [lit Hlit | sign ip frac ex Hs Hip _ _ _].
    + rewrite list_elem_of_In in Hlit. destruct Hlit as [<- | [<- | [<- | []]]];
        (eexists _, _; split; [reflexivity|decide_vm]).
    + destruct (int_lit_head ip Hip) as (d & t & -> & Hd).
      destruct Hs as [-> | ->]; [exists d; eexists; split; [reflexivity|by right]|].
      eexists _, _. split; [reflexivity|decide_vm].
  - eexists _, _. split; [reflexivity|decide_vm].
  - eexists _, _. split; [reflexivity|decide_vm].
  - eexists _, _. split; [reflexivity|decide_vm].
Qed.

(** ** Scanning one value back *)

(** A text that starts with neither a quote nor a bracket is a constant or
    a number for the scanner. *)
Lemma scan_once_scalar lim d f c s :
  c ≠ 34%N -> c ≠ 123%N -> c ≠ 91%N ->
  scan_once lim d (S f) (c :: s) =
  match find_constant constants (c :: s) with Some res => Ok res | None => match_number lim (c :: s) end.
Proof. intros. rewrite scan_once_cons. by rewrite !bool_decide_false by done. Qed.

Lemma scan_once_int lim d f z r :
  num_stop r = true ->
  (int_max_str_digits lim = 0 ∨ length (render_nat (Z.to_N (Z.abs z))) <= int_max_str_digits lim) ->
  scan_once lim d (S f) (render_int z ++ r) = Ok (JInt z, r).
Proof.
  intros Hr Hlim. pose proof (match_number_int lim z r Hr Hlim) as Hm. revert Hm.
  unfold render_int. case_bool_decide.
  - destruct (render_nat_head (Z.to_N (- z))) as (c & t & -> & Hc). cbn [app]. intros Hm.
    rewrite scan_once_scalar by lia. by rewrite (proj2 (find_constant_num c (t ++ r) Hc)).
  - destruct (render_nat_head (Z.to_N z)) as (c & t & -> & Hc). cbn [app]. intros Hm.
    rewrite scan_once_scalar by lia. by rewrite (proj1 (find_constant_num c (t ++ r) Hc)).
Qed.

Lemma scan_once_float lim d f lit r :
  float_lit lit -> num_stop r = true -> scan_once lim d (S f) (lit ++ r) = Ok (JFloat lit, r).
Proof.
  intros Hlit Hr. destruct Hlit as [lit Hlit | sign ip frac ex Hs Hip Hfrac Hex Hne].
  - pose proof (find_constant_float_lit lit r Hlit) as Hc.
    rewrite list_elem_of_In in Hlit.
    destruct Hlit as [<- | [<- | [<- | []]]]; cbn [txt list_ascii_of_string map app] in *;
      rewrite scan_once_scalar by (vm_compute; discriminate); by rewrite Hc.
  - pose proof (match_number_float lim sign ip frac ex r Hs Hip Hfrac Hex Hne Hr) as Hm.
    destruct (int_lit_head ip Hip) as (c & t & -> & Hc).
    destruct Hs as [-> | ->]; cbn [app] in *; rewrite scan_once_scalar by lia.
    + by rewrite (proj1 (find_constant_num c _ Hc)).
    + by rewrite (proj2 (find_constant_num c _ Hc)).
Qed.

Lemma scan_once_str lim d f str r :
  Forall scalar str -> scan_once lim d (S f) (encode_ascii str ++ r) = Ok (JStr str, r).
Proof.
  intros Hs. unfold encode_ascii. rewrite <-!app_assoc. cbn [app]. rewrite scan_once_cons.
  rewrite bool_decide_true by done. by rewrite scanstring_encode.
Qed.

(** ** Arrays and objects *)

(** The nested lists of [json_ok] and [strs_ok] as [Forall]. *)
Ltac nested_forall IH :=
  split; [intros Hh; decompose [and] Hh; constructor; [naive_solver|by apply IH]
         |intros Hf; inversion Hf; subst; split_and!; try naive_solver; by apply IH].

Lemma json_ok_arr lim xs : json_ok lim (JArr xs) <-> Forall (json_ok lim) xs.
Proof. induction xs as [|x xs IH]; simpl in *; [by split|]. nested_forall IH. Qed.

Lemma json_ok_obj lim kvs :
  json_ok lim (JObj kvs) <-> NoDup (map fst kvs) ∧ Forall (fun kv => json_ok lim kv.2) kvs.
Proof.
  simpl. apply and_iff_compat_l. induction kvs as [|kv kvs IH]; simpl in *; [by split|].
  nested_forall IH.
Qed.

Lemma strs_ok_arr xs : strs_ok (JArr xs) <-> Forall strs_ok xs.
Proof. induction xs as [|x xs IH]; simpl in *; [by split|]. nested_forall IH. Qed.

Lemma strs_ok_obj kvs :
  strs_ok (JObj kvs) <-> Forall (fun kv => Forall scalar kv.1 ∧ strs_ok kv.2) kvs.
Proof.
  induction kvs as [|kv kvs IH]; simpl in *; [by split|]. nested_forall IH.
Qed.

Lemma jdepth_list {A} (f : A -> json) (l : list A) d :
  list_max (map (fun a => jdepth (f a)) l) <= d <-> Forall (fun a => jdepth (f a) <= d) l.
Proof. by rewrite List.list_max_le, List.Forall_map. Qed.

Lemma dict_set_fresh k x acc : k ∉ map fst acc -> dict_set k x acc = acc ++ [(k, x)].
Proof.
  induction acc as [|[k' x'] acc IH]; intros Hk; [done|]. simpl in *.
  apply not_elem_of_cons in Hk as [Hk1 Hk2].
  rewrite bool_decide_false by done. f_equal. by apply IH.
Qed.

Lemma join_cons_app (sep l : text) (ls : list text) :
  PyStr.join sep (l :: ls) = l ++ match ls with [] => [] | _ => sep ++ PyStr.join sep ls end.
Proof. destruct ls; simpl; by rewrite ?app_nil_r. Qed.

Lemma join_length_ge (sep : text) (ls : list text) :
  Forall (fun l => l ≠ []) ls -> length ls <= length (PyStr.join sep ls).
Proof.
  induction 1 as [|l ls Hl _ IH]; [done|]. rewrite PyStr.join_cons_length.
  destruct l; [done|]. destruct ls; simpl in *; lia.
Qed.

Lemma skip_ws_start c t : value_start c -> skip_ws (c :: t) = c :: t.
Proof. intros Hc. simpl. by rewrite (proj1 (value_start_not c Hc)). Qed.

Lemma num_stop_sep t : num_stop (44%N :: t) = true ∧ num_stop (93%N :: t) = true ∧ num_stop (125%N :: t) = true.
Proof. by vm_compute. Qed.

(** The separators [", "] and [": "] as the scanner meets them. *)
Lemma comma_sep_text (a b : text) : (a ++ txt ", " ++ b) = a ++ 44%N :: 32%N :: b.
Proof. reflexivity. Qed.

Lemma colon_sep_text (a b : text) : (a ++ txt ": " ++ b) = a ++ 58%N :: 32%N :: b.
Proof. reflexivity. Qed.

Lemma skip_ws_sep t :
  skip_ws (93%N :: t) = 93%N :: t ∧ skip_ws (125%N :: t) = 125%N :: t ∧
  skip_ws (44%N :: t) = 44%N :: t ∧ skip_ws (58%N :: t) = 58%N :: t ∧ skip_ws (32%N :: t) = skip_ws t.
Proof. repeat split; reflexivity. Qed.

Lemma head_is_start c t d : value_start c -> d = 93%N ∨ d = 125%N -> head_is d (c :: t) = false.
Proof.
  intros Hc Hd. pose proof (value_start_not c Hc). simpl. apply bool_decide_eq_false. lia.
Qed.

Lemma skip_ws_dumps lim x rest : json_ok lim x -> skip_ws (dumps x ++ rest) = dumps x ++ rest.
Proof.
  intros Hok. destruct (dumps_head lim x Hok) as (c & t & Hd & Hc). rewrite Hd. cbn [app].
  by apply skip_ws_start.
Qed.

(** The text of a non-empty list of values, with what follows, starts with
    a value's first character. *)
Lemma join_dumps_start lim xs r :
  Forall (json_ok lim) xs -> xs ≠ [] ->
  ∃ c t, PyStr.join (txt ", ") (map dumps xs) ++ r = c :: t ∧ value_start c.
Proof.
  intros Hok Hne. destruct xs as [|x xs]; [done|]. apply Forall_cons_1 in Hok as [Hx _].
  destruct (dumps_head lim x Hx) as (c & t & Hd & Hc). cbn [map]. rewrite join_cons_app, Hd.
  by eexists c, _.
Qed.

(** JSON whitespace, which the scanner skips between tokens. *)
Definition all_ws (t : text) : Prop := Forall (fun c => is_ws c = true) t.

Lemma skip_ws_all_ws w t : all_ws w -> skip_ws (w ++ t) = skip_ws t.
Proof. induction 1 as [|c w Hc _ IH]; [done|]. simpl. by rewrite Hc. Qed.

Lemma num_stop_ws w c t : all_ws w -> num_stop (c :: t) = true -> num_stop (w ++ c :: t) = true.
Proof.
  intros Hw Hc. destruct Hw as [|d w Hd _]; [done|]. simpl.
  unfold is_ws in Hd. apply bool_decide_eq_true in Hd. rewrite list_elem_of_In in Hd.
  simpl in Hd. unfold is_digit. repeat case_bool_decide; simpl; lia.
Qed.

Lemma skip_ws_close w c t : all_ws w -> (c = 93%N ∨ c = 125%N ∨ c = 44%N) -> skip_ws (w ++ c :: t) = c :: t.
Proof.
  intros Hw Hc. rewrite skip_ws_all_ws by done. simpl. unfold is_ws.
  rewrite bool_decide_false; [done|]. rewrite list_elem_of_In. simpl. lia.
Qed.

(** The items of an array or object as both encoders write them: each
    item's text, then [","] and whitespace [ws1] between items, whitespace
    [ws2] before the closing bracket.  [json.dumps] has [ws1 = " "] and an
    empty [ws2]; [indent=2] puts a newline and the indentation in both. *)
Section DumpItems.
Context (v : text -> outcome jerr (json * text)) (B : nat) (render : json -> text).
Context (ws1 ws2 : text) (Hws1 : all_ws ws1) (Hws2 : all_ws ws2).

(** [v] reads back the text of [x] followed by any [r] that does not
    continue it, within the length bound [B]. *)
Definition reads_back (x : json) : Prop :=
  ∀ r, (is_number x = true -> num_stop r = true) -> length (render x ++ r) < B -> v (render x ++ r) = Ok (x, r).

(** The text of [x] starts a value: no whitespace, no closing bracket. *)
Definition starts_value (x : json) : Prop := ∃ c t, render x = c :: t ∧ value_start c.

Lemma join_starts_value {A} (f : A -> text) (P : A -> Prop) (l : list A) r :
  (∀ a, P a -> ∃ c t, f a = c :: t ∧ value_start c) -> Forall P l -> l ≠ [] ->
  ∃ c t, PyStr.join (44%N :: ws1) (map f l) ++ r = c :: t ∧ value_start c.
Proof.
  intros Hf Hl Hne. destruct l as [|x l]; [done|]. apply Forall_cons_1 in Hl as [Hx _].
  destruct (Hf x Hx) as (c & t & Hd & Hc). cbn [map]. rewrite join_cons_app, Hd.
  by eexists c, _.
Qed.

Lemma array_items_dumps xs r acc g :
  Forall reads_back xs -> Forall starts_value xs -> xs ≠ [] -> length xs <= g ->
  length (PyStr.join (44%N :: ws1) (map render xs) ++ ws2 ++ 93%N :: r) < B ->
  array_items v g (PyStr.join (44%N :: ws1) (map render xs) ++ ws2 ++ 93%N :: r) acc = Ok (JArr (acc ++ xs), r).
Proof.
  revert acc g. induction xs as [|x xs IH]; intros acc g Hr Hst Hne Hg HB; [done|].
  pose proof (join_starts_value render starts_value xs (ws2 ++ 93%N :: r) (fun a H => H)) as Hstart.
  apply Forall_cons_1 in Hr as [Hx Hr]. apply Forall_cons_1 in Hst as [Hsx Hst].
  destruct g as [|g]; [simpl in Hg; lia|]. cbn [array_items map] in *.
  rewrite join_cons_app in *. destruct xs as [|x' xs']; cbn [map] in *.
  - rewrite app_nil_r in *. rewrite Hx; [|intros; by apply num_stop_ws|lia].
    cbv zeta. rewrite skip_ws_close by auto. reflexivity.
  - set (J := PyStr.join (44%N :: ws1) (render x' :: map render xs')) in *.
    destruct Hstart as (c & t & Hct & Hc); [done|done|].
    rewrite <-!app_assoc in *. cbn [app] in *.
    rewrite Hx; [|intros; reflexivity|lia]. cbv zeta.
    rewrite (proj1 (proj2 (proj2 (skip_ws_sep _)))). cbn [head_is tail].
    rewrite bool_decide_false, bool_decide_true by lia.
    rewrite (skip_ws_all_ws ws1), Hct, skip_ws_start, head_is_start by (done || lia). rewrite <-Hct.
    rewrite IH; [by rewrite <-app_assoc|done|done|done|simpl in *; lia|len_simpl; lia].
Qed.

Lemma parse_array_dumps ws0 xs r g :
  all_ws ws0 -> Forall reads_back xs -> Forall starts_value xs -> xs ≠ [] -> length xs <= g ->
  length (PyStr.join (44%N :: ws1) (map render xs) ++ ws2 ++ 93%N :: r) < B ->
  parse_array v g (ws0 ++ PyStr.join (44%N :: ws1) (map render xs) ++ ws2 ++ 93%N :: r) = Ok (JArr xs, r).
Proof.
  intros Hw0 Hr Hst Hne Hg HB. unfold parse_array. rewrite (skip_ws_all_ws ws0) by done.
  destruct (join_starts_value render starts_value xs (ws2 ++ 93%N :: r) (fun a H => H)) as (c & t & Hct & Hc);
    [done|done|].
  rewrite Hct, skip_ws_start, head_is_start by (done || lia). rewrite <-Hct.
  by apply array_items_dumps.
Qed.

(** One member [key: value] of an object. *)
Lemma member_text k x rest :
  encode_ascii k ++ txt ": " ++ render x ++ rest =
  34%N :: flat_map escape_ascii k ++ 34%N :: 58%N :: 32%N :: render x ++ rest.
Proof. unfold encode_ascii. by rewrite <-!app_assoc. Qed.

Lemma nodup_fresh (acc kvs : list (text * json)) k x :
  NoDup (map fst (acc ++ (k, x) :: kvs)) -> k ∉ map fst acc.
Proof.
  rewrite map_app, list.NoDup_app. intros (_ & Hd & _) Hk. apply (Hd k Hk). simpl. left.
Qed.

(** Scanning one member [key: value] with what follows it. *)
Lemma object_member_dumps k x rest :
  Forall scalar k -> reads_back x -> starts_value x -> num_stop rest = true ->
  length (encode_ascii k ++ txt ": " ++ render x ++ rest) < B ->
  ∃ t, encode_ascii k ++ txt ": " ++ render x ++ rest = 34%N :: t ∧
       scanstring t = Ok (k, 58%N :: 32%N :: render x ++ rest) ∧
       v (skip_ws (tail (skip_ws (58%N :: 32%N :: render x ++ rest)))) = Ok (x, rest).
Proof.
  intros Hk Hx Hst Hr HB. rewrite member_text in *. eexists. split; [reflexivity|].
  split; [by apply scanstring_encode|].
  rewrite (proj1 (proj2 (proj2 (proj2 (skip_ws_sep _))))). cbn [tail].
  rewrite (proj2 (proj2 (proj2 (proj2 (skip_ws_sep _))))).
  destruct Hst as (c & t & Hct & Hc).
  assert (Hsk : skip_ws (render x ++ rest) = render x ++ rest) by (rewrite Hct; by apply skip_ws_start).
  rewrite Hsk. apply Hx; [done|]. len_simpl. lia.
Qed.

Definition member_render (kv : text * json) : text := encode_ascii kv.1 ++ txt ": " ++ render kv.2.

Lemma member_starts kv : ∃ c t, member_render kv = c :: t ∧ value_start c.
Proof. exists 34%N. eexists. split; [reflexivity|decide_vm]. Qed.

Lemma object_items_dumps kvs r acc g :
  Forall (fun kv => Forall scalar kv.1 ∧ reads_back kv.2 ∧ starts_value kv.2) kvs ->
  NoDup (map fst (acc ++ kvs)) -> kvs ≠ [] -> length kvs <= g ->
  length (PyStr.join (44%N :: ws1) (map member_render kvs) ++ ws2 ++ 125%N :: r) < B ->
  object_items v g (PyStr.join (44%N :: ws1) (map member_render kvs) ++ ws2 ++ 125%N :: r) acc =
    Ok (JObj (acc ++ kvs), r).
Proof.
  revert acc g. induction kvs as [|[k x] kvs IH]; intros acc g Hr Hnd Hne Hg HB; [done|].
  apply Forall_cons_1 in Hr as [(Hk & Hx & Hsx) Hr].
  pose proof (nodup_fresh acc kvs k x Hnd) as Hfresh.
  destruct g as [|g]; [simpl in Hg; lia|]. cbn [map] in *. rewrite join_cons_app in *.
  unfold member_render at 1 in HB. unfold member_render at 1. cbn [fst snd] in *.
  destruct kvs as [|kv' kvs']; cbn [map] in *.
  - rewrite app_nil_r in *. rewrite <-!app_assoc in *.
    destruct (object_member_dumps k x (ws2 ++ 125%N :: r)) as (t & Ht & Hs & Hv);
      [done|done|done|by apply num_stop_ws|done|].
    rewrite Ht. cbn [object_items head_is tail]. rewrite bool_decide_true by done.
    rewrite Hs. cbv zeta. rewrite (proj1 (proj2 (proj2 (proj2 (skip_ws_sep _))))) in Hv |- *.
    cbn [head_is]. rewrite (bool_decide_true (58%N = 58%N)) by done.
    rewrite Hv, dict_set_fresh by done.
    rewrite skip_ws_close by auto. cbn [head_is tail]. rewrite bool_decide_true by done. reflexivity.
  - set (J := PyStr.join (44%N :: ws1) (member_render kv' :: map member_render kvs')) in *.
    destruct (join_starts_value member_render (fun _ => True) (kv' :: kvs') (ws2 ++ 125%N :: r))
      as (c & t' & HJ & Hc); [intros kv _; apply member_starts|by apply Forall_true|done|].
    cbn [map] in HJ. fold J in HJ. rewrite <-!app_assoc in *. cbn [app] in *.
    destruct (object_member_dumps k x (44%N :: ws1 ++ J ++ ws2 ++ 125%N :: r)) as (t & Ht & Hs & Hv);
      [done|done|done|reflexivity|done|].
    rewrite Ht. cbn [object_items head_is tail]. rewrite bool_decide_true by done.
    rewrite Hs. cbv zeta. rewrite (proj1 (proj2 (proj2 (proj2 (skip_ws_sep _))))) in Hv |- *.
    cbn [head_is]. rewrite (bool_decide_true (58%N = 58%N)) by done.
    rewrite Hv, dict_set_fresh by done.
    rewrite (proj1 (proj2 (proj2 (skip_ws_sep _)))). cbn [head_is tail].
    rewrite bool_decide_false, bool_decide_true by lia.
    rewrite (skip_ws_all_ws ws1), HJ, skip_ws_start, head_is_start by (done || lia). rewrite <-HJ.
    rewrite IH; [by rewrite <-app_assoc|done|by rewrite <-app_assoc|done|simpl in *; lia|].
    len_simpl. lia.
Qed.

Lemma parse_object_dumps ws0 kvs r g :
  all_ws ws0 ->
  Forall (fun kv => Forall scalar kv.1 ∧ reads_back kv.2 ∧ starts_value kv.2) kvs ->
  NoDup (map fst kvs) -> kvs ≠ [] -> length kvs <= g ->
  length (PyStr.join (44%N :: ws1) (map member_render kvs) ++ ws2 ++ 125%N :: r) < B ->
  parse_object v g (ws0 ++ PyStr.join (44%N :: ws1) (map member_render kvs) ++ ws2 ++ 125%N :: r) =
    Ok (JObj kvs, r).
Proof.
  intros Hw0 Hr Hnd Hne Hg HB. unfold parse_object. rewrite (skip_ws_all_ws ws0) by done.
  destruct (join_starts_value member_render (fun _ => True) kvs (ws2 ++ 125%N :: r))
    as (c & t & HJ & Hc); [intros kv _; apply member_starts|by apply Forall_true|done|].
  rewrite HJ, skip_ws_start, head_is_start by (done || lia). rewrite <-HJ.
  by apply (object_items_dumps kvs r []).
Qed.

End DumpItems.

(** Opening brackets, as [scan_once] dispatches them. *)
Lemma scan_once_open lim d f s :
  scan_once lim (S d) (S f) (91%N :: s) = parse_array (scan_once lim d f) f s ∧
  scan_once lim (S d) (S f) (123%N :: s) = parse_object (scan_once lim d f) f s.
Proof. split; reflexivity. Qed.

Lemma dumps_nonempty lim xs : Forall (json_ok lim) xs -> Forall (fun l => l ≠ []) (map dumps xs).
Proof.
  intros H. apply List.Forall_map. eapply Forall_impl; [|exact H].
  intros x Hx. destruct (dumps_head lim x Hx) as (c & t & -> & _). done.
Qed.

Lemma map_ext_Forall' {A B} (f g : A -> B) (l : list A) :
  Forall (fun x => f x = g x) l -> map f l = map g l.
Proof. induction 1; simpl; congruence. Qed.

(** [json.dumps] is the layout with one space after a comma. *)
Lemma dumps_flat v l : dumps v = dumps_with (fun _ => []) (fun _ => [32%N]) (fun _ => []) l v.
Proof.
  revert l. induction v as [| b | z | lit | str | xs IH | kvs IH] using json_ind'; intros l; try reflexivity.
  - destruct xs as [|x xs]; [reflexivity|]. cbn [dumps dumps_with]. rewrite !app_nil_l.
    do 3 f_equal. apply map_ext_Forall'. eapply Forall_impl; [|exact IH]. intros y Hy. apply Hy.
  - destruct kvs as [|kv kvs]; [reflexivity|]. cbn [dumps dumps_with]. rewrite !app_nil_l.
    do 3 f_equal. apply map_ext_Forall'. eapply Forall_impl; [|exact IH]. intros y Hy. by rewrite (Hy (S l)).
Qed.

(** [json.dumps(v, indent=2)] is the layout with a newline and the
    indentation in all three places. *)
Lemma dumps_indent_layout v l : dumps_indent l v = dumps_with newline_indent newline_indent newline_indent l v.
Proof.
  revert l. induction v as [| b | z | lit | str | xs IH | kvs IH] using json_ind'; intros l; try reflexivity.
  - destruct xs as [|x xs]; [reflexivity|]. cbn [dumps_indent dumps_with].
    do 4 f_equal. apply map_ext_Forall'. eapply Forall_impl; [|exact IH]. intros y Hy. apply Hy.
  - destruct kvs as [|kv kvs]; [reflexivity|]. cbn [dumps_indent dumps_with].
    do 4 f_equal. apply map_ext_Forall'. eapply Forall_impl; [|exact IH]. intros y Hy. by rewrite (Hy (S l)).
Qed.

Section Layout.
Context (o s c : nat -> text) (Ho : ∀ l, all_ws (o l)) (Hs : ∀ l, all_ws (s l)) (Hc : ∀ l, all_ws (c l)).

Lemma dumps_with_head lim l v : json_ok lim v -> ∃ d t, dumps_with o s c l v = d :: t ∧ value_start d.
Proof.
  intros Hok. destruct v as [| | | | | [|x xs] | [|kv kvs]];
    try (exists 91%N; eexists; split; [reflexivity|decide_vm]);
    try (exists 123%N; eexists; split; [reflexivity|decide_vm]);
    apply (dumps_head lim); done.
Qed.

Lemma dumps_with_nonempty lim l xs :
  Forall (json_ok lim) xs -> Forall (fun t => t ≠ []) (map (dumps_with o s c l) xs).
Proof.
  intros H. apply List.Forall_map. eapply Forall_impl; [|exact H].
  intros x Hx. destruct (dumps_with_head lim l x Hx) as (d & t & -> & _). done.
Qed.

(** The decoder reads back the text of every well-formed value in this
    layout, followed by any text that does not continue a number. *)
Theorem scan_once_dumps_with lim v :
  ∀ l d f r, json_ok lim v -> strs_ok v -> jdepth v <= d ->
  (is_number v = true -> num_stop r = true) -> length (dumps_with o s c l v ++ r) < f ->
  scan_once lim d f (dumps_with o s c l v ++ r) = Ok (v, r).
Proof.
  induction v as [| b | z | lit | str | xs IH | kvs IH] using json_ind';
    intros l d f r Hok Hst Hd Hr Hf; (destruct f as [|f]; [lia|]).
  - destruct r; vm_compute; reflexivity.
  - destruct b, r; vm_compute; reflexivity.
  - by apply scan_once_int; [apply Hr|].
  - by apply scan_once_float; [|apply Hr].
  - by apply scan_once_str.
  - destruct d as [|d]; [simpl in Hd; lia|].
    apply json_ok_arr in Hok. apply strs_ok_arr in Hst. simpl in Hd. apply le_S_n in Hd.
    apply (jdepth_list id) in Hd.
    destruct xs as [|x xs]; [reflexivity|].
    cbn [dumps_with] in *. rewrite <-!app_assoc in *. cbn [app] in *. rewrite (proj1 (scan_once_open _ _ _ _)).
    pose proof (join_length_ge (44%N :: s (S l)) _ (dumps_with_nonempty lim (S l) (x :: xs) Hok)).
    rewrite length_map in *.
    apply (parse_array_dumps _ f (dumps_with o s c (S l)) (s (S l)) (c l) (Hs _) (Hc _) (o (S l)));
      [done| | |done|len_simpl; lia|len_simpl; lia].
    + apply Forall_forall. intros y Hy r' Hr' Hl'.
      eapply Forall_forall in IH; [|exact Hy]. apply IH; [..|done|done].
      * by eapply Forall_forall in Hok.
      * by eapply Forall_forall in Hst.
      * by eapply Forall_forall in Hd.
    + apply Forall_forall. intros y Hy. apply (dumps_with_head lim). by eapply Forall_forall in Hok.
  - destruct d as [|d]; [simpl in Hd; lia|].
    apply json_ok_obj in Hok as [Hnd Hok]. apply strs_ok_obj in Hst. simpl in Hd. apply le_S_n in Hd.
    apply (jdepth_list snd) in Hd.
    destruct kvs as [|kv kvs]; [reflexivity|].
    cbn [dumps_with] in *.
    change (map (fun kv => encode_ascii kv.1 ++ txt ": " ++ dumps_with o s c (S l) kv.2) (kv :: kvs))
      with (map (member_render (dumps_with o s c (S l))) (kv :: kvs)) in *.
    rewrite <-!app_assoc in *. cbn [app] in *. rewrite (proj2 (scan_once_open _ _ _ _)).
    assert (Hne : Forall (fun t => t ≠ []) (map (member_render (dumps_with o s c (S l))) (kv :: kvs))).
    { apply List.Forall_map, Forall_forall. intros kv0 _. unfold member_render, encode_ascii. done. }
    pose proof (join_length_ge (44%N :: s (S l)) _ Hne). rewrite length_map in *.
    apply (parse_object_dumps _ f (dumps_with o s c (S l)) (s (S l)) (c l) (Hs _) (Hc _) (o (S l)));
      [done| |done|done|len_simpl; lia|len_simpl; lia].
    apply Forall_forall. intros kv0 Hkv. eapply Forall_forall in Hst as [Hk Hs2]; [|exact Hkv].
    eapply Forall_forall in Hok; [|exact Hkv].
    split_and!; [done| |by apply (dumps_with_head lim)]. intros r' Hr' Hl'.
    eapply Forall_forall in IH; [|exact Hkv].
    apply IH; [done|done|by eapply Forall_forall in Hd|done|done].
Qed.

End Layout.

Lemma all_ws_nil : all_ws [].
Proof. constructor. Qed.

Lemma all_ws_space : all_ws [32%N].
Proof. repeat constructor. Qed.

Lemma all_ws_newline_indent l : all_ws (newline_indent l).
Proof. constructor; [reflexivity|]. induction (2 * l) as [|n IH]; simpl; constructor; auto. Qed.

(** The decoder reads back [json.dumps(v)] of every well-formed value,
    followed by any text that does not continue a number. *)
Corollary scan_once_dumps lim v d f r :
  json_ok lim v -> strs_ok v -> jdepth v <= d ->
  (is_number v = true -> num_stop r = true) -> length (dumps v ++ r) < f ->
  scan_once lim d f (dumps v ++ r) = Ok (v, r).
Proof.
  rewrite (dumps_flat v 0). apply scan_once_dumps_with; intros; auto using all_ws_nil, all_ws_space.
Qed.

Corollary raw_decode_dumps lim v r :
  json_ok lim v -> strs_ok v -> jdepth v <= max_depth lim ->
  (is_number v = true -> num_stop r = true) -> raw_decode lim (dumps v ++ r) = Ok (v, r).
Proof. intros. unfold raw_decode. apply scan_once_dumps; auto. Qed.

(** [json.loads(json.dumps(v)) == v] for every well-formed value. *)
Corollary loads_dumps lim v :
  json_ok lim v -> strs_ok v -> jdepth v <= max_depth lim -> loads lim (dumps v) = Ok v.
Proof.
  intros Hok Hs Hd. unfold loads.
  destruct (dumps_head lim v Hok) as (c & t & Hct & Hc).
  rewrite Hct. cbn [head_is]. rewrite bool_decide_false
    by (intros ->; unfold value_start in Hc; rewrite list_elem_of_In in Hc; simpl in Hc; lia).
  rewrite skip_ws_start by done. rewrite <-Hct, <-(app_nil_r (dumps v)).
  rewrite raw_decode_dumps by done. reflexivity.
Qed.

(** [json.loads(json.dumps(v, indent=2)) == v] for every well-formed
    value. *)
Corollary loads_dumps_indent lim v :
  json_ok lim v -> strs_ok v -> jdepth v <= max_depth lim -> loads lim (dumps_indent 0 v) = Ok v.
Proof.
  intros Hok Hs Hd. unfold loads. rewrite dumps_indent_layout.
  destruct (dumps_with_head newline_indent newline_indent newline_indent lim 0 v Hok) as (c & t & Hct & Hc).
  rewrite Hct. cbn [head_is]. rewrite bool_decide_false
    by (intros ->; unfold value_start in Hc; rewrite list_elem_of_In in Hc; simpl in Hc; lia).
  rewrite skip_ws_start by done. rewrite <-Hct, <-(app_nil_r (dumps_with _ _ _ 0 v)).
  unfold raw_decode. rewrite scan_once_dumps_with by (auto using all_ws_newline_indent || lia).
  reflexivity.
Qed.

(** ** The text is printable ASCII *)

Lemma hex_digit_printable n : (n < 16)%N -> printable_ascii (hex_digit n).
Proof. unfold printable_ascii, hex_digit. case_bool_decide; lia. Qed.

Lemma u_escape_printable c : Forall printable_ascii (u_escape c).
Proof.
  unfold u_escape. repeat constructor; try (unfold printable_ascii; lia);
    apply hex_digit_printable; rewrite land_15; apply N.mod_lt; lia.
Qed.

Lemma escape_ascii_printable c : Forall printable_ascii (escape_ascii c).
Proof.
  unfold escape_ascii. case_bool_decide; [repeat constructor; unfold printable_ascii; lia|].
  repeat (case_bool_decide; [repeat constructor; unfold printable_ascii; lia|]).
  case_bool_decide; [apply Forall_app; split|]; apply u_escape_printable.
Qed.

Lemma encode_ascii_printable s : Forall printable_ascii (encode_ascii s).
Proof.
  unfold encode_ascii. apply Forall_app; split; [decide_vm|]. apply Forall_app; split; [|decide_vm].
  apply Forall_flat_map, Forall_forall. intros c _. apply escape_ascii_printable.
Qed.

Lemma all_digits_printable ds : all_digits ds = true -> Forall printable_ascii ds.
Proof.
  intros H. apply Forall_forall. intros c Hc. unfold all_digits in H.
  eapply forallb_forall in H; [|exact Hc]. apply bool_decide_eq_true in H.
  unfold printable_ascii. lia.
Qed.

Lemma int_lit_printable ip : int_lit_ok ip -> Forall printable_ascii ip.
Proof.
  destruct ip as [|d ds]; [done|]. simpl. case_bool_decide; [intros ->; subst; decide_vm|].
  intros [Hd Hds]. constructor; [|by apply all_digits_printable].
  apply bool_decide_eq_true in Hd. unfold printable_ascii. lia.
Qed.

Lemma render_int_printable z : Forall printable_ascii (render_int z).
Proof.
  assert (∀ n, Forall printable_ascii (render_nat n)).
  { intros n. apply all_digits_printable, render_nat_digits. }
  unfold render_int. case_bool_decide; [constructor; [unfold printable_ascii; lia|]|]; done.
Qed.

Lemma float_lit_printable lit : float_lit lit -> Forall printable_ascii lit.
Proof.
  destruct 1 as [lit Hlit | sign ip frac ex Hs Hip Hfrac Hex _].
  - rewrite list_elem_of_In in Hlit. destruct Hlit as [<- | [<- | [<- | []]]]; decide_vm.
  - repeat (apply Forall_app; split).
    + destruct Hs as [-> | ->]; decide_vm.
    + by apply int_lit_printable.
    + destruct Hfrac as [-> | (ds & -> & _ & Hds)]; [done|].
      constructor; [unfold printable_ascii; lia|by apply all_digits_printable].
    + destruct Hex as [-> | (e & sg & ds & -> & He & Hsg & _ & Hds)]; [done|].
      constructor; [unfold printable_ascii; lia|]. apply Forall_app; split; [|by apply all_digits_printable].
      destruct Hsg as [-> | [-> | ->]]; decide_vm.
Qed.

Lemma join_Forall (P : char -> Prop) (sep : text) (ls : list text) :
  Forall P sep -> Forall (Forall P) ls -> Forall P (PyStr.join sep ls).
Proof.
  intros Hsep. induction 1 as [|l ls Hl _ IH]; [done|]. rewrite join_cons_app.
  apply Forall_app; split; [done|]. destruct ls; [done|]. by apply Forall_app.
Qed.

(** [json.dumps] with [ensure_ascii=True] writes printable ASCII only. *)
Theorem dumps_printable lim v : json_ok lim v -> Forall printable_ascii (dumps v).
Proof.
  induction v as [| b | z | lit | str | xs IH | kvs IH] using json_ind'; intros Hok; simpl in Hok.
  - decide_vm.
  - destruct b; decide_vm.
  - apply render_int_printable.
  - by apply float_lit_printable.
  - apply encode_ascii_printable.
  - apply json_ok_arr in Hok. cbn [dumps]. apply Forall_app; split; [decide_vm|].
    apply Forall_app; split; [|decide_vm]. apply join_Forall; [decide_vm|].
    apply List.Forall_map, Forall_forall. intros x Hx.
    eapply Forall_forall in IH; [|exact Hx]. apply IH. by eapply Forall_forall in Hok.
  - apply json_ok_obj in Hok as [_ Hok]. cbn [dumps]. apply Forall_app; split; [decide_vm|].
    apply Forall_app; split; [|decide_vm]. apply join_Forall; [decide_vm|].
    apply List.Forall_map, Forall_forall. intros kv Hkv.
    apply Forall_app; split; [apply encode_ascii_printable|]. apply Forall_app; split; [decide_vm|].
    eapply Forall_forall in IH; [|exact Hkv]. apply IH. by eapply Forall_forall in Hok.
Qed.

Lemma printable_no_break c : printable_ascii c -> PyStr.is_linebreak c = false.
Proof.
  unfold printable_ascii, PyStr.is_linebreak, PyStr.linebreaks. intros Hc.
  apply bool_decide_eq_false. rewrite list_elem_of_In. simpl. lia.
Qed.

End Dumps.
