(* ===== verification/Summarize.v ===== *)
(** * [parse_velo_output] (src/scripts/summarize_results.py, lines 28-67)

    The text is cut with [str.splitlines]; a line whose stripped form starts
    with [[ERROR]] goes, stripped, to the error list; the other lines are
    joined with LF into one buffer, which is scanned left to right: skip
    JSON whitespace, try [raw_decode] at the position, keep the elements of
    an array or the object itself as rows, and on [JSONDecodeError] move one
    code point forward.  Any other exception of the decoder propagates. *)

From Stdlib Require Import NArith ZArith String Lia.
From stdpp Require Import base list decidable.
From S2P Require Import Prelude PyStr Json.

Module Summarize.
Import Json.

Definition error_marker : text := txt "[ERROR]".

(** The test of line 39. *)
Definition is_error_line (line : text) : bool :=
  PyStr.startswith (PyStr.strip line) error_marker.

(** One iteration of the loop of lines 37-42 over [(errors, json_lines)]. *)
Definition classify_step (acc : list text * list text) (line : text) : list text * list text :=
  let '(errors, json_lines) := acc in
  let stripped := PyStr.strip line in
  if PyStr.startswith stripped error_marker then (errors ++ [stripped], json_lines)
  else (errors, json_lines ++ [line]).

Definition classify_lines (lines : list text) : list text * list text :=
  fold_left classify_step lines ([], []).

(** Lines 58-61: what a decoded value contributes to [rows]. *)
Definition rows_of (obj : json) : list json :=
  match obj with
  | JArr xs => xs
  | JObj _ => [obj]
  | _ => []
  end.

(** The loop of lines 50-65 over the rest of [clean] from [pos].  The
    whitespace of line 52 is the same set as the decoder's. *)
Fixpoint scan_rows (lim : limits) (fuel : nat) (clean : text) (rows : list json)
  : outcome jerr (list json) :=
  match fuel with
  | O => Raise EFuel
  | S f =>
      match skip_ws clean with
      | [] => Ok rows
      | s =>
          match raw_decode lim s with
          | Ok (obj, rest) => scan_rows lim f rest (rows ++ rows_of obj)
          | Raise EDecode => scan_rows lim f (tail s) rows
          | Raise e => Raise e
          end
      end
  end.

(** [parse_velo_output(text)]: rows and error lines, or the exception that
    escaped. *)
Definition parse_velo_output (lim : limits) (t : text)
  : outcome jerr (list json * list text) :=
  let '(errors, json_lines) := classify_lines (PyStr.splitlines t) in
  let clean := PyStr.join [10%N] json_lines in
  match scan_rows lim (S (length clean)) clean [] with
  | Ok rows => Ok (rows, errors)
  | Raise e => Raise e
  end.

(** ** Line classification *)

Lemma classify_step_spec errs json l :
  classify_step (errs, json) l =
  if is_error_line l then (errs ++ [PyStr.strip l], json) else (errs, json ++ [l]).
Proof. reflexivity. Qed.

Lemma classify_fold (lines : list text) (errs json : list text) :
  fold_left classify_step lines (errs, json) =
  (errs ++ map PyStr.strip (List.filter is_error_line lines),
   json ++ List.filter (fun l => negb (is_error_line l)) lines).
Proof.
  revert errs json. induction lines as [|l lines IH]; intros errs json;
    cbn [fold_left List.filter].
  - by rewrite !app_nil_r.
  - rewrite classify_step_spec.
    destruct (is_error_line l); cbn [negb map]; rewrite IH; by rewrite <-!app_assoc.
Qed.

(** The error list is the stripped error lines, the buffer is the other
    lines, both in their order. *)
Lemma classify_lines_spec (lines : list text) :
  classify_lines lines =
  (map PyStr.strip (List.filter is_error_line lines),
   List.filter (fun l => negb (is_error_line l)) lines).
Proof. unfold classify_lines. by rewrite classify_fold. Qed.

(** ** The scanning loop *)

(** Where the loop stands after skipping whitespace: a value was decoded, a
    code point is skipped, or an exception other than [JSONDecodeError]
    ends it. *)
Lemma scan_rows_step lim f clean rows :
  scan_rows lim (S f) clean rows =
  match skip_ws clean with
  | [] => Ok rows
  | s =>
      match raw_decode lim s with
      | Ok (obj, rest) => scan_rows lim f rest (rows ++ rows_of obj)
      | Raise EDecode => scan_rows lim f (tail s) rows
      | Raise e => Raise e
      end
  end.
Proof. reflexivity. Qed.

(** Termination of the loop, and what escapes it: never [JSONDecodeError]
    (the loop catches it) and never a lack of fuel; a [ValueError] only with
    the digit limit on, a [RecursionError] only with a depth budget below the
    buffer length. *)
Lemma scan_rows_raises lim n clean rows e :
  length clean < n -> scan_rows lim n clean rows = Raise e ->
  (e = EIntDigits ∧ int_max_str_digits lim ≠ 0) ∨ (e = ERecursion ∧ max_depth lim < length clean).
Proof.
  revert clean rows. induction n as [|n IH]; intros clean rows Hn H; [lia|].
  rewrite scan_rows_step in H. pose proof (skip_ws_length clean).
  destruct (skip_ws clean) as [|c s] eqn:Hs; [discriminate|]. cbv zeta in H.
  destruct (raw_decode lim (c :: s)) as [[obj rest]|e'] eqn:Hd.
  - apply raw_decode_consumes in Hd. apply IH in H; [|lia]. destruct H as [H|[H1 H2]]; [by left|].
    right. split; [done|lia].
  - apply raw_decode_raises in Hd. destruct e'; simplify_eq.
    + apply IH in H; [|simpl in *; lia]. destruct H as [H|[H1 H2]]; [by left|].
      right. split; [done|simpl in *; lia].
    + destruct Hd as [Hd|[[_ Hd]|[Hd _]]]; [discriminate|by left|discriminate].
    + destruct Hd as [Hd|[[Hd _]|[_ Hd]]]; [discriminate|discriminate|right; split; [done|lia]].
    + destruct Hd as [Hd|[[Hd _]|[Hd _]]]; discriminate.
Qed.

(** ** The parser *)

Lemma parse_velo_output_unfold lim t :
  parse_velo_output lim t =
  let clean := PyStr.join [10%N] (List.filter (fun l => negb (is_error_line l)) (PyStr.splitlines t)) in
  match scan_rows lim (S (length clean)) clean [] with
  | Ok rows => Ok (rows, map PyStr.strip (List.filter is_error_line (PyStr.splitlines t)))
  | Raise e => Raise e
  end.
Proof. unfold parse_velo_output. by rewrite classify_lines_spec. Qed.

Lemma clean_length t :
  length (PyStr.join [10%N] (List.filter (fun l => negb (is_error_line l)) (PyStr.splitlines t)))
  <= length t.
Proof. etrans; [apply PyStr.join_filter_length|apply PyStr.join_splitlines_length]. Qed.

(** C3. [parse_velo_output] lets out no [JSONDecodeError]: malformed input
    only loses rows.  What can escape is a [ValueError] for an integer
    literal over [sys.int_max_str_digits] (only when the limit is on) or a
    [RecursionError] (only when the nesting budget is below the text
    length). *)
Theorem parse_velo_output_raises lim t e :
  parse_velo_output lim t = Raise e ->
  (e = EIntDigits ∧ int_max_str_digits lim ≠ 0) ∨ (e = ERecursion ∧ max_depth lim < length t).
Proof.
  rewrite parse_velo_output_unfold. cbv zeta. pose proof (clean_length t).
  case_match eqn:Hs; intros; simplify_eq.
  apply scan_rows_raises in Hs; [|lia]. destruct Hs as [H1|[H1 H2]]; [by left|].
  right. split; [done|lia].
Qed.

(** C9. The error list is the stripped lines that start with [[ERROR]], in
    the order of the text. *)
Theorem parse_velo_output_errors lim t rows errs :
  parse_velo_output lim t = Ok (rows, errs) ->
  errs = map PyStr.strip (List.filter is_error_line (PyStr.splitlines t)).
Proof. rewrite parse_velo_output_unfold. cbv zeta. case_match; intros; by simplify_eq. Qed.

Lemma filter_error_lines_all ls :
  Forall (fun l => is_error_line l = true) ls ->
  List.filter is_error_line ls = ls ∧ List.filter (fun l => negb (is_error_line l)) ls = [].
Proof.
  induction 1 as [|l ls Hl _ [IH1 IH2]]; [done|]. simpl. by rewrite Hl, IH1, IH2.
Qed.

Lemma filter_idem (p : text -> bool) (ls : list text) :
  List.filter p (List.filter p ls) = List.filter p ls.
Proof. induction ls as [|l ls IH]; [done|]. simpl. destruct (p l) eqn:E; simpl; rewrite ?E; congruence. Qed.

Lemma Forall_filter_text (P : text -> Prop) (p : text -> bool) (ls : list text) :
  Forall P ls -> Forall P (List.filter p ls).
Proof. intros H. apply Forall_forall. intros x Hx. apply filter_In in Hx as [Hx _]. by eapply Forall_forall in H. Qed.

(** A text made only of error lines gives no rows and its lines,
    stripped, as errors. *)
Theorem parse_error_only lim (ls : list text) :
  Forall (fun l => is_error_line l = true) ls ->
  Forall PyStr.no_break ls -> Forall (fun l => l ≠ []) ls ->
  parse_velo_output lim (PyStr.join [10%N] ls) = Ok ([], map PyStr.strip ls).
Proof.
  intros He Hb Hn. rewrite parse_velo_output_unfold, PyStr.splitlines_join by done.
  destruct (filter_error_lines_all ls He) as [-> ->]. reflexivity.
Qed.

(** Error lines interleaved with the JSON lines do not change the rows:
    parsing the text gives the rows of the text without its error lines,
    and the stripped error lines. *)
Lemma parse_drop_error_lines lim (ls : list text) :
  Forall PyStr.no_break ls -> Forall (fun l => l ≠ []) ls ->
  parse_velo_output lim (PyStr.join [10%N] ls) =
  omap (fun '(rows, _) => (rows, map PyStr.strip (List.filter is_error_line ls)))
       (parse_velo_output lim
          (PyStr.join [10%N] (List.filter (fun l => negb (is_error_line l)) ls))).
Proof.
  intros Hb Hn. rewrite !parse_velo_output_unfold, !PyStr.splitlines_join;
    try by apply Forall_filter_text.
  - rewrite filter_idem. cbv zeta. by case_match.
  - done.
  - done.
Qed.

(** ** Concrete runs *)

(** ** Witnesses *)

Lemma parse_velo_output_raises_witness :
  parse_velo_output {| max_depth := 990; int_max_str_digits := 2 |} (jtxt "[123]") = Raise EIntDigits ∧
  ((EIntDigits = EIntDigits ∧ int_max_str_digits {| max_depth := 990; int_max_str_digits := 2 |} ≠ 0) ∨
   (EIntDigits = ERecursion ∧ max_depth {| max_depth := 990; int_max_str_digits := 2 |} < length (jtxt "[123]"))).
Proof.
  assert (Hp : parse_velo_output {| max_depth := 990; int_max_str_digits := 2 |} (jtxt "[123]")
               = Raise EIntDigits) by (vm_compute; reflexivity).
  split; [exact Hp|exact (parse_velo_output_raises _ _ _ Hp)].
Defined.

Lemma parse_velo_output_errors_witness :
  parse_velo_output default_limits (txt "[ERROR] disk full" ++ [10%N] ++ jtxt "[{'a':1}]") =
    Ok ([JObj [(txt "a", JInt 1)]], [txt "[ERROR] disk full"]) ∧
  [txt "[ERROR] disk full"] =
    map PyStr.strip (List.filter is_error_line
      (PyStr.splitlines (txt "[ERROR] disk full" ++ [10%N] ++ jtxt "[{'a':1}]"))).
Proof.
  assert (Hp : parse_velo_output default_limits (txt "[ERROR] disk full" ++ [10%N] ++ jtxt "[{'a':1}]") =
    Ok ([JObj [(txt "a", JInt 1)]], [txt "[ERROR] disk full"])) by (vm_compute; reflexivity).
  split; [exact Hp|exact (parse_velo_output_errors _ _ _ _ Hp)].
Defined.

Lemma parse_error_only_witness :
  Forall (fun l => is_error_line l = true) [txt "[ERROR] a"; txt " [ERROR] b "] ∧
  Forall PyStr.no_break [txt "[ERROR] a"; txt " [ERROR] b "] ∧
  Forall (fun l => l ≠ []) [txt "[ERROR] a"; txt " [ERROR] b "] ∧
  parse_velo_output default_limits (PyStr.join [10%N] [txt "[ERROR] a"; txt " [ERROR] b "]) =
    Ok ([], map PyStr.strip [txt "[ERROR] a"; txt " [ERROR] b "]).
Proof.
  assert (He : Forall (fun l => is_error_line l = true) [txt "[ERROR] a"; txt " [ERROR] b "]) by decide_vm.
  assert (Hb : Forall PyStr.no_break [txt "[ERROR] a"; txt " [ERROR] b "]) by decide_vm.
  assert (Hn : Forall (fun l => l ≠ []) [txt "[ERROR] a"; txt " [ERROR] b "]) by decide_vm.
  split; [exact He|split; [exact Hb|split; [exact Hn|exact (parse_error_only _ _ He Hb Hn)]]].
Defined.


End Summarize.
