(* ===== verification/Recovery.v ===== *)
(** * [parse_velo_output] on the output it is written for

    What the tolerant parser of [Summarize] returns when its input is what
    the Velociraptor CLI writes: JSON arrays, one per line, with [[ERROR]]
    lines merged in from stderr.  The arrays are written as
    [json.dumps] writes them ([Dumps]); the theorems then show that every
    row comes back, in order, with the error lines, and that a single
    character injected between two arrays loses nothing unless it is a
    double quote. *)

From Stdlib Require Import NArith ZArith String Lia.
From stdpp Require Import base list decidable.
From S2P Require Import Prelude PyStr Json Dumps Summarize.

Module Recovery.
Import Json Dumps Summarize.

(** An array batch the decoder reads back within the limits. *)
Definition batch_ok (lim : limits) (xs : list json) : Prop :=
  json_ok lim (JArr xs) ∧ strs_ok (JArr xs) ∧ jdepth (JArr xs) <= max_depth lim.

(** One line of the saved output: an error line from stderr, or a batch of
    rows from stdout. *)
Inductive out_line : Type :=
| OutError (l : text)
| OutBatch (rows : list json).

Definition out_text (o : out_line) : text :=
  match o with OutError l => l | OutBatch rows => dumps (JArr rows) end.

Definition out_ok (lim : limits) (o : out_line) : Prop :=
  match o with
  | OutError l => is_error_line l = true ∧ PyStr.no_break l ∧ l ≠ []
  | OutBatch rows => batch_ok lim rows
  end.

Definition out_batches (ls : list out_line) : list (list json) :=
  flat_map (fun o => match o with OutBatch rows => [rows] | OutError _ => [] end) ls.

Definition out_errors (ls : list out_line) : list text :=
  flat_map (fun o => match o with OutError l => [PyStr.strip l] | OutBatch _ => [] end) ls.

(** ** The text of a batch *)

Lemma dumps_arr_shape xs : ∃ m, dumps (JArr xs) = 91%N :: m ++ [93%N].
Proof. eexists. cbn [dumps app]. reflexivity. Qed.

Lemma batch_no_break lim xs : batch_ok lim xs -> PyStr.no_break (dumps (JArr xs)).
Proof.
  intros (Hok & _ & _). apply Forall_forall. intros c Hc. apply printable_no_break.
  eapply Forall_forall; [apply (dumps_printable lim _ Hok)|done].
Qed.

Lemma strip_brackets (m : text) : PyStr.strip (91%N :: m ++ [93%N]) = 91%N :: m ++ [93%N].
Proof.
  unfold PyStr.strip. cbn [PyStr.drop_while]. change (PyStr.is_space 91) with false. cbn iota.
  cbn [rev]. rewrite rev_app_distr. cbn [rev app PyStr.drop_while].
  change (PyStr.is_space 93) with false. cbn iota.
  cbn [rev]. rewrite rev_app_distr, rev_involutive. reflexivity.
Qed.

(** A text that starts with a batch does not start with [[ERROR]]: the
    second character is a closing bracket or the start of a value, never
    the [E]. *)
Lemma batch_not_marker lim xs r :
  batch_ok lim xs -> PyStr.startswith (dumps (JArr xs) ++ r) error_marker = false.
Proof.
  intros (Hok & _ & _). apply json_ok_arr in Hok. destruct xs as [|x xs]; [reflexivity|].
  destruct (join_dumps_start lim (x :: xs) (93%N :: r)) as (c & t & Hct & Hc); [done|done|].
  cbn [dumps]. rewrite <-!app_assoc. cbn [app]. rewrite Hct. unfold error_marker. cbn.
  rewrite (bool_decide_false (69%N = c)); [done|].
  intros <-. unfold value_start in Hc. rewrite list_elem_of_In in Hc. simpl in Hc. lia.
Qed.

Lemma batch_not_error lim xs : batch_ok lim xs -> is_error_line (dumps (JArr xs)) = false.
Proof.
  intros Hb. unfold is_error_line.
  destruct (dumps_arr_shape xs) as [m Hm]. rewrite Hm, strip_brackets, <-Hm.
  rewrite <-(app_nil_r (dumps (JArr xs))). by apply (batch_not_marker lim).
Qed.

(** ** The scanning loop over batches *)

Lemma scan_rows_ws lim f c s rows :
  is_ws c = true -> scan_rows lim (S f) (c :: s) rows = scan_rows lim (S f) s rows.
Proof. intros Hc. rewrite !scan_rows_step. cbn [skip_ws]. by rewrite Hc. Qed.

Lemma scan_rows_batch lim f xs rest rows :
  batch_ok lim xs -> length (dumps (JArr xs) ++ rest) < S f ->
  scan_rows lim (S f) (dumps (JArr xs) ++ rest) rows = scan_rows lim f rest (rows ++ xs).
Proof.
  intros (Hok & Hs & Hd) Hlen. rewrite scan_rows_step, (skip_ws_dumps lim) by done.
  destruct (dumps_arr_shape xs) as [m Hm]. rewrite Hm. cbn [app].
  replace (91%N :: (m ++ [93%N]) ++ rest) with (dumps (JArr xs) ++ rest) by (rewrite Hm; reflexivity).
  rewrite raw_decode_dumps by done. reflexivity.
Qed.

Lemma dumps_arr_length xs : 2 <= length (dumps (JArr xs)).
Proof. destruct (dumps_arr_shape xs) as [m ->]. len_simpl. lia. Qed.

Lemma join_map_cons2 {A} (sep : text) (f : A -> text) x y l :
  PyStr.join sep (map f (x :: y :: l)) = f x ++ sep ++ PyStr.join sep (map f (y :: l)).
Proof. reflexivity. Qed.

Lemma scan_rows_batches lim f batches rows :
  Forall (batch_ok lim) batches ->
  length (PyStr.join [10%N] (map (fun xs => dumps (JArr xs)) batches)) < f ->
  scan_rows lim f (PyStr.join [10%N] (map (fun xs => dumps (JArr xs)) batches)) rows =
  Ok (rows ++ concat batches).
Proof.
  revert f rows. induction batches as [|xs bs IH]; intros f rows Hb Hf.
  - destruct f as [|f]; [simpl in Hf; lia|]. rewrite app_nil_r. reflexivity.
  - apply Forall_cons_1 in Hb as [Hxs Hb]. pose proof (dumps_arr_length xs).
    destruct f as [|f]; [simpl in Hf; lia|].
    destruct bs as [|xs' bs'].
    + cbn [map concat PyStr.join] in *. rewrite <-(app_nil_r (dumps (JArr xs))).
      rewrite scan_rows_batch by (done || (rewrite app_nil_r; lia)).
      destruct f as [|f]; [lia|]. by rewrite !app_nil_r.
    + rewrite join_map_cons2 in Hf |- *. cbn [concat].
      rewrite scan_rows_batch by done. destruct f as [|f]; [len_simpl; lia|].
      cbn [app]. rewrite scan_rows_ws by reflexivity.
      rewrite IH by (done || len_simpl; lia). by rewrite app_assoc.
Qed.

Lemma filter_true (p : text -> bool) (ls : list text) :
  Forall (fun l => p l = true) ls -> List.filter p ls = ls.
Proof. induction 1 as [|l ls Hl _ IH]; [done|]. simpl. by rewrite Hl, IH. Qed.

Lemma filter_no_errors (ls : list text) :
  Forall (fun l => is_error_line l = false) ls ->
  List.filter (fun l => negb (is_error_line l)) ls = ls ∧ List.filter is_error_line ls = [].
Proof. induction 1 as [|l ls Hl _ [IH1 IH2]]; [done|]. simpl. by rewrite Hl, IH1, IH2. Qed.

(** The lines of the output split into its error lines and its batch
    lines, each in order. *)
Lemma out_lines_split lim ls :
  Forall (out_ok lim) ls ->
  List.filter (fun l => negb (is_error_line l)) (map out_text ls) = map (fun xs => dumps (JArr xs)) (out_batches ls) ∧
  map PyStr.strip (List.filter is_error_line (map out_text ls)) = out_errors ls ∧
  Forall (batch_ok lim) (out_batches ls).
Proof.
  induction 1 as [|o ls Ho _ IH]; [done|]. destruct IH as (IH1 & IH2 & IH3).
  destruct o as [l|rows]; cbn [map List.filter out_text out_batches out_errors flat_map].
  - destruct Ho as (He & _ & _). rewrite He. cbn [negb map out_text]. by rewrite IH1, IH2.
  - rewrite (batch_not_error lim rows) by done. cbn [negb map out_text]. rewrite IH1, IH2.
    split_and!; [done|done|]. by constructor.
Qed.

Lemma out_lines_shape lim ls :
  Forall (out_ok lim) ls ->
  Forall PyStr.no_break (map out_text ls) ∧ Forall (fun l => l ≠ []) (map out_text ls).
Proof.
  intros H. split; apply List.Forall_map; eapply Forall_impl; try exact H; intros [l|rows] Ho; simpl in *.
  - by destruct Ho as (_ & Hb & _).
  - by apply (batch_no_break lim).
  - by destruct Ho as (_ & _ & Hn).
  - done.
Qed.

(** Lines of batches only. *)
Lemma parse_batches lim batches :
  Forall (batch_ok lim) batches ->
  parse_velo_output lim (PyStr.join [10%N] (map (fun xs => dumps (JArr xs)) batches)) =
  Ok (concat batches, []).
Proof.
  intros Hb.
  assert (Hls : Forall (out_ok lim) (map OutBatch batches)) by (apply List.Forall_map; exact Hb).
  destruct (out_lines_shape lim _ Hls) as [Hnb Hne]. rewrite map_map in Hnb, Hne. cbn [out_text] in Hnb, Hne.
  rewrite parse_velo_output_unfold, PyStr.splitlines_join by done. cbv zeta.
  assert (Hnerr : Forall (fun l => is_error_line l = false) (map (fun xs => dumps (JArr xs)) batches)).
  { apply List.Forall_map. eapply Forall_impl; [|exact Hb]. intros xs Hxs. by apply (batch_not_error lim). }
  destruct (filter_no_errors _ Hnerr) as [-> ->].
  rewrite scan_rows_batches by (done || lia). done.
Qed.

(** The whole of [parse_velo_output] on such a text. *)
Lemma parse_out_lines lim (ls : list out_line) :
  Forall (out_ok lim) ls ->
  parse_velo_output lim (PyStr.join [10%N] (map out_text ls)) =
  Ok (concat (out_batches ls), out_errors ls).
Proof.
  intros Hls. destruct (out_lines_shape lim ls Hls) as [Hb Hn].
  destruct (out_lines_split lim ls Hls) as (H1 & H2 & H3).
  rewrite parse_velo_output_unfold, PyStr.splitlines_join, H1, H2 by done. cbv zeta.
  rewrite scan_rows_batches by (done || lia). done.
Qed.

(** C1. The parser returns what the output holds: for a text made of
    error lines and [json.dumps] arrays, one per line, in any order, the
    rows are the elements of the arrays in order and the errors are the
    error lines, stripped, in order. *)
Theorem parse_velo_output_interleaved lim (ls : list out_line) :
  Forall (out_ok lim) ls ->
  parse_velo_output lim (PyStr.join [10%N] (map out_text ls)) =
  Ok (concat (out_batches ls), out_errors ls).
Proof. apply parse_out_lines. Qed.

(** ** One character injected between two batches *)

(** No constant continues with [c] after its first character. *)
Lemma find_constant_second cs c d t :
  Forall (fun kv => nth 1 kv.1 0%N ≠ d ∧ 2 <= length kv.1) cs -> find_constant cs (c :: d :: t) = None.
Proof.
  induction 1 as [|[lit w] cs [Hn Hl] _ IH]; [done|].
  destruct lit as [|a [|b rest]]; simpl in Hl; try lia. simpl in Hn.
  cbn [find_constant PyStr.startswith]. rewrite (bool_decide_false (b = d)) by done.
  by rewrite andb_false_r.
Qed.

(** A character before [[] is at most a one-digit integer. *)
Lemma match_number_bracket lim c t :
  match_number lim (c :: 91%N :: t) = Raise EDecode ∨
  ∃ n, match_number lim (c :: 91%N :: t) = Ok (JInt n, 91%N :: t).
Proof.
  unfold match_number. cbn [match_sign]. case_bool_decide as H45; [left; reflexivity|].
  cbn [match_int]. destruct (decide (c = 48%N ∨ is_digit c = true)) as [Hd|Hd].
  - right. assert (Hm : match_int (c :: 91%N :: t) = Some ([c], 91%N :: t)).
    { cbn [match_int]. case_bool_decide; [by subst|]. destruct Hd as [| ->]; [done|]. reflexivity. }
    cbn [match_int] in Hm. rewrite Hm.
    rewrite match_frac_stop, match_exp_stop by reflexivity.
    rewrite bool_decide_true by done. rewrite bool_decide_false by (simpl; lia).
    eexists. reflexivity.
  - left. rewrite bool_decide_false by tauto. by destruct (is_digit c) eqn:E; [tauto|].
Qed.

(** An opening bracket before a whole batch: the batch is read as the
    first element, and the missing [,] or [\]] after it is an error. *)
Lemma parse_array_one lim d f ys :
  json_ok lim (JArr ys) -> strs_ok (JArr ys) -> jdepth (JArr ys) <= d -> length (dumps (JArr ys)) < f ->
  parse_array (scan_once lim d f) f (dumps (JArr ys)) = Raise EDecode.
Proof.
  intros Hok Hs Hd Hf. destruct (dumps_arr_shape ys) as [m Hm]. unfold parse_array.
  pose proof (skip_ws_dumps lim (JArr ys) [] Hok) as Hsk. rewrite app_nil_r in Hsk. rewrite Hsk.
  assert (Hh : head_is 93 (dumps (JArr ys)) = false) by (rewrite Hm; reflexivity). rewrite Hh.
  destruct f as [|f]; [lia|]. cbn [array_items].
  pose proof (scan_once_dumps lim (JArr ys) d (S f) [] Hok Hs Hd ltac:(done)) as Hsc.
  rewrite app_nil_r in Hsc. rewrite Hsc by lia. reflexivity.
Qed.

(** The scanner at the injected character: a [JSONDecodeError], or a
    one-digit integer that leaves the next batch in place. *)
Lemma raw_decode_injected lim c ys :
  batch_ok lim ys -> jdepth (JArr ys) < max_depth lim -> c ≠ 34%N ->
  raw_decode lim (c :: dumps (JArr ys)) = Raise EDecode ∨
  ∃ n, raw_decode lim (c :: dumps (JArr ys)) = Ok (JInt n, dumps (JArr ys)).
Proof.
  intros (Hok & Hs & _) Hd Hc. destruct (dumps_arr_shape ys) as [m Hm]. unfold raw_decode.
  destruct (max_depth lim) as [|d] eqn:Hmd; [lia|]. cbn [length]. rewrite scan_once_cons.
  rewrite (bool_decide_false (c = 34%N)) by done.
  case_bool_decide as H123; [left|].
  { rewrite Hm. unfold parse_object. rewrite skip_ws_start by decide_vm. reflexivity. }
  case_bool_decide as H91; [left|].
  { apply parse_array_one; [done|done|lia|lia]. }
  rewrite Hm. cbn [app]. rewrite find_constant_second by decide_vm.
  rewrite <-Hm. apply match_number_bracket.
Qed.

Lemma scan_rows_last lim f ys rows :
  batch_ok lim ys -> length (dumps (JArr ys)) < f ->
  scan_rows lim f (dumps (JArr ys)) rows = Ok (rows ++ ys).
Proof.
  intros Hb Hf. pose proof (dumps_arr_length ys). destruct f as [|f]; [lia|].
  rewrite <-(app_nil_r (dumps (JArr ys))), scan_rows_batch by (done || rewrite app_nil_r; lia).
  destruct f as [|f]; [lia|]. reflexivity.
Qed.

(** The parser sees the text only through its lines. *)
Lemma parse_same_lines lim t t' :
  PyStr.splitlines t = PyStr.splitlines t' -> parse_velo_output lim t = parse_velo_output lim t'.
Proof. intros H. unfold parse_velo_output. by rewrite H. Qed.

Lemma injected_line_shape xs ys c :
  ∃ m, dumps (JArr xs) ++ c :: dumps (JArr ys) = 91%N :: m ++ [93%N].
Proof.
  destruct (dumps_arr_shape xs) as [ma Ha], (dumps_arr_shape ys) as [mb Hb].
  rewrite Ha, Hb. exists (ma ++ 93%N :: c :: 91%N :: mb). simpl. by rewrite <-!app_assoc.
Qed.

(** C2. One character injected between two batches loses no row, unless it
    is a double quote: the scanner either skips it, reads it as a one-digit
    integer that adds no row, or (for an opening bracket, given one level of
    nesting to spare) fails on it and skips it. *)
Theorem parse_injection_recovered lim xs ys c :
  batch_ok lim xs -> batch_ok lim ys -> jdepth (JArr ys) < max_depth lim -> c ≠ 34%N ->
  parse_velo_output lim (dumps (JArr xs) ++ c :: dumps (JArr ys)) = Ok (xs ++ ys, []).
Proof.
  intros Hx Hy Hd Hc. pose proof (batch_no_break lim xs Hx) as Hbx. pose proof (batch_no_break lim ys Hy) as Hby.
  destruct (dumps_arr_shape ys) as [mb Hmb].
  destruct (PyStr.is_linebreak c) eqn:Hbr.
  - rewrite (parse_same_lines lim _ (PyStr.join [10%N] (map (fun xs => dumps (JArr xs)) [xs; ys]))).
    + rewrite parse_batches by (constructor; [done|constructor; [done|constructor]]).
      cbn [concat]. by rewrite app_nil_r.
    + cbn [map PyStr.join app]. rewrite !PyStr.splitlines_app_break by (done || rewrite Hmb; by intros _ r' [=]).
      done.
  - set (w := dumps (JArr xs) ++ c :: dumps (JArr ys)).
    assert (Hw : PyStr.no_break w ∧ w ≠ []).
    { split; [apply Forall_app; split; [done|constructor; done]|]. unfold w.
      by destruct (dumps_arr_shape xs) as [ma ->]. }
    assert (He : is_error_line w = false).
    { unfold is_error_line. destruct (injected_line_shape xs ys c) as [m Hm]. unfold w.
      rewrite Hm, strip_brackets, <-Hm. by apply (batch_not_marker lim). }
    rewrite parse_velo_output_unfold, (PyStr.splitlines_single w) by apply Hw. cbn [List.filter].
    rewrite He. cbn [negb map PyStr.join]. unfold w.
    pose proof (dumps_arr_length xs). pose proof (dumps_arr_length ys).
    rewrite scan_rows_batch by (done || len_simpl; lia). cbn [app].
    rewrite length_app. cbn [length].
    replace (length (dumps (JArr xs)) + S (length (dumps (JArr ys))))
      with (S (length (dumps (JArr xs)) + length (dumps (JArr ys)))) by lia.
    destruct (is_ws c) eqn:Hws.
    + rewrite scan_rows_ws by done. rewrite scan_rows_last by (done || lia). done.
    + rewrite scan_rows_step. cbn [skip_ws]. rewrite Hws.
      destruct (raw_decode_injected lim c ys Hy Hd Hc) as [Hr | [n Hr]]; rewrite Hr; cbn [tail rows_of];
        rewrite ?app_nil_r, scan_rows_last by (done || lia); done.
Qed.

(** ** Witnesses *)

(** The side conditions of a concrete batch. *)
Ltac batch_side :=
  repeat match goal with
  | |- out_ok _ _ => cbn [out_ok]
  | |- batch_ok _ _ => unfold batch_ok
  | |- json_ok _ _ => simpl
  | |- strs_ok _ => simpl
  | |- PyStr.no_break _ => decide_vm
  | |- scalar _ => decide_vm
  | |- Forall _ _ => constructor
  | |- _ ∧ _ => split
  | |- NoDup _ => constructor
  | |- _ ∉ _ => rewrite list_elem_of_In; simpl; intros ?; intuition discriminate
  | |- int_max_str_digits _ = 0 ∨ _ => right; vm_compute; lia
  | |- _ => first [ done | (simpl; lia) | (vm_compute; reflexivity) | (vm_compute; discriminate) ]
  end.

Lemma parse_velo_output_interleaved_witness :
  Forall (out_ok default_limits)
    [OutBatch [JObj [(txt "a", JInt 1)]]; OutError (txt "[ERROR] boom");
     OutBatch [JStr (txt "x"); JNull]] ∧
  parse_velo_output default_limits
    (PyStr.join [10%N] (map out_text [OutBatch [JObj [(txt "a", JInt 1)]]; OutError (txt "[ERROR] boom");
                                      OutBatch [JStr (txt "x"); JNull]])) =
  Ok ([JObj [(txt "a", JInt 1)]; JStr (txt "x"); JNull], [txt "[ERROR] boom"]).
Proof.
  assert (H : Forall (out_ok default_limits)
    [OutBatch [JObj [(txt "a", JInt 1)]]; OutError (txt "[ERROR] boom");
     OutBatch [JStr (txt "x"); JNull]]) by batch_side.
  split; [exact H|]. exact (parse_velo_output_interleaved default_limits _ H).
Defined.

Lemma parse_injection_recovered_witness :
  batch_ok default_limits [JInt 1] ∧ batch_ok default_limits [JInt 2] ∧
  jdepth (JArr [JInt 2]) < max_depth default_limits ∧ 120%N ≠ 34%N ∧
  parse_velo_output default_limits (dumps (JArr [JInt 1]) ++ 120%N :: dumps (JArr [JInt 2])) =
  Ok ([JInt 1] ++ [JInt 2], []).
Proof.
  assert (H1 : batch_ok default_limits [JInt 1]) by (unfold batch_ok; batch_side).
  assert (H2 : batch_ok default_limits [JInt 2]) by (unfold batch_ok; batch_side).
  assert (Hd : jdepth (JArr [JInt 2]) < max_depth default_limits) by (simpl; lia).
  assert (Hc : 120%N ≠ 34%N) by lia.
  split_and!; [exact H1|exact H2|exact Hd|exact Hc|].
  exact (parse_injection_recovered default_limits _ _ _ H1 H2 Hd Hc).
Defined.

End Recovery.
