(* ===== verification/Client.v ===== *)
(** * The remote execution client: [run_vql_raw] and [run_vql]
    (src/scripts/velo_api.py, lines 42-154)

    One call loads the API configuration, builds TLS credentials from three
    of its keys, opens a gRPC channel to the fourth (a [with] block: closed
    on every exit), sends one [VQLCollectorArgs] request and folds the
    response stream: each chunk's log text is split into lines, kept and
    printed to stderr, and each chunk's [Response] is decoded with
    [json.loads] and its items appended to the rows.  After the stream the
    logs are classified: a [PermissionDenied] line raises
    [VeloPermissionError], no rows with an [ERROR:] line raises
    [VeloAPIError], otherwise the rows and logs are returned.  A
    [grpc.RpcError] becomes [VeloConnectionError].

    The network and the configuration file are the [world]: what
    [pyvelociraptor.LoadConfigFile] returns for a path, and the stream the
    server sends for a request.  The effects the code has are the [event]s:
    the channel opened and closed, and each stderr line. *)

From Stdlib Require Import NArith ZArith String Lia.
From stdpp Require Import base list decidable.
From S2P Require Import Prelude PyStr Json.

Module Client.
Import Json.

(** ** Exceptions (lines 42-49, and those the code lets through) *)

Inductive velo_kind : Type :=
| VeloAPIError          (** the base class, raised for a failed query *)
| VeloConnectionError
| VeloPermissionError.

Inductive exn : Type :=
| Velo (k : velo_kind) (msg : text)  (** [VeloAPIError] and its subclasses *)
| KeyError (key : text)              (** a configuration key is missing *)
| JsonError (e : jerr)               (** raised by [json.loads] *)
| TypeError                          (** a decoded chunk is not iterable *)
| RpcError (detail : text)           (** [grpc.RpcError] from the stream *)
| ValueError (msg : text).           (** another [ValueError] *)

(** [isinstance(e, VeloAPIError)]. *)
Definition is_velo_api_error (e : exn) : bool :=
  match e with Velo _ _ => true | _ => false end.

(** ** The world *)

Record config := {
  ca_certificate : option text;
  client_private_key : option text;
  client_cert : option text;
  api_connection_string : option text
}.

(** [api_pb2.VQLCollectorArgs] as built at lines 90-95. *)
Record request := {
  max_wait : Z;
  max_row : Z;
  env : list (text * text);
  query_name : text;
  vql : text
}.

(** One streamed [VQLResponse]: its [log] and [Response] strings. *)
Record response := { log : text; Response : text }.

(** How the stream ends: the server closes it, or iterating it raises
    [grpc.RpcError] (refused connection, deadline, mid-stream error). *)
Inductive stream_end : Type :=
| StreamClosed
| StreamFailed (detail : text).

Record world := {
  workspace_root : text;
  (** [pyvelociraptor.LoadConfigFile(path)]: the text of the exception it
      raises, or the configuration. *)
  load_config : text -> outcome text config;
  (** [stub.Query(request, timeout=timeout)] on a channel to [addr] with the
      credentials [(ca, key, cert)]: the responses, then how it ends. *)
  query_stream : text -> text * text * text -> request -> Z -> list response * stream_end
}.

Inductive event : Type :=
| EvOpen (addr : text)   (** [grpc.secure_channel] entered *)
| EvClose                (** the [with] block left *)
| EvStderr (line : text).

Definition M (A : Type) : Type := io event exn A.

(** ** Lines 35-36 and 73: the configuration path *)

Definition default_config (root : text) : text := root ++ txt "/config/api.config.yaml".

(** [config_path or _DEFAULT_CONFIG]: [None] and the empty string are
    false. *)
Definition config_path_or (config_path : option text) (root : text) : text :=
  match config_path with
  | Some (_ :: _ as p) => p
  | _ => default_config root
  end.

(** [config[k]]. *)
Definition get_key (k : text) (v : option text) : M text :=
  match v with Some x => iret x | None => iraise (KeyError k) end.

(** Lines 86-95: the request. *)
Definition make_request (query : text) (env_opt : option (list (text * text))) (max_row : Z) : request :=
  {| max_wait := 1; max_row := max_row;
     env := match env_opt with Some kvs => kvs | None => [] end;
     query_name := txt "Query"; vql := query |}.

(** ** Lines 105-115: one response *)

(** [response.log.strip().splitlines()] when the log is not empty. *)
Definition log_lines (r : response) : list text :=
  match log r with [] => [] | l => PyStr.splitlines (PyStr.strip l) end.

(** [for row in obj]: the items Python iterates over. *)
Definition py_iter (v : json) : option (list json) :=
  match v with
  | JArr xs => Some xs
  | JObj kvs => Some (map (fun kv => JStr kv.1) kvs)
  | JStr s => Some (map (fun c => JStr [c]) s)
  | _ => None
  end.

Definition stderr_lines (lines : list text) : list event :=
  map (fun l => EvStderr (txt "[velo] " ++ l)) lines.

Definition handle_response (lim : limits) (acc : list json * list text) (r : response)
  : M (list json * list text) :=
  let '(rows, logs) := acc in
  let lines := log_lines r in
  let logs' := logs ++ lines in
  let '(t, res) :=
    match Response r with
    | [] => iret (rows, logs')
    | body =>
        match loads lim body with
        | Raise e => iraise (JsonError e)
        | Ok obj =>
            match py_iter obj with
            | Some xs => iret (rows ++ xs, logs')
            | None => iraise TypeError
            end
        end
    end in
  (stderr_lines lines ++ t, res).

(** The [for] loop over the stream; the error that ends a stream is raised
    after the responses before it. *)
Fixpoint consume (lim : limits) (rs : list response) (fin : stream_end)
         (acc : list json * list text) : M (list json * list text) :=
  match rs with
  | [] => match fin with StreamClosed => iret acc | StreamFailed d => iraise (RpcError d) end
  | r :: rs' => acc' <~ handle_response lim acc r ;; consume lim rs' fin acc'
  end.

(** [with grpc.secure_channel(addr, ...) as channel: body]: the channel is
    closed whatever [body] does. *)
Definition with_channel {A} (addr : text) (body : M A) : M A :=
  (EvOpen addr :: body.1 ++ [EvClose], body.2).

(** ** Lines 119-132: classification of the result *)

Definition is_empty {A} (l : list A) : bool := match l with [] => true | _ => false end.

Definition classify (acc : list json * list text) : M (list json * list text) :=
  let '(rows, logs) := acc in
  match List.find (PyStr.contains (txt "PermissionDenied")) logs with
  | Some line => iraise (Velo VeloPermissionError (txt "Permission denied: " ++ line))
  | None =>
      let error_lines := List.filter (PyStr.contains (txt "ERROR:")) logs in
      if is_empty rows && negb (is_empty error_lines) then
        iraise (Velo VeloAPIError
                  (txt "VQL query returned no results with errors:" ++ [10%N] ++
                   PyStr.join [10%N] error_lines))
      else iret (rows, logs)
  end.

(** [except grpc.RpcError as e: raise VeloConnectionError(...)] (lines
    116-117); other exceptions pass. *)
Definition rpc_handler (e : exn) : M (list json * list text) :=
  match e with
  | RpcError d => iraise (Velo VeloConnectionError (txt "gRPC error: " ++ d))
  | e => iraise e
  end.

(** ** [run_vql_raw] (lines 55-132) *)
Definition run_vql_raw (lim : limits) (w : world) (query : text)
           (env_opt : option (list (text * text))) (config_path : option text)
           (timeout max_row : Z) : M (list json * list text) :=
  let path := config_path_or config_path (workspace_root w) in
  match load_config w path with
  | Raise d =>
      iraise (Velo VeloConnectionError (txt "Failed to load config " ++ path ++ txt ": " ++ d))
  | Ok cfg =>
      ca <~ get_key (txt "ca_certificate") (ca_certificate cfg) ;;
      key <~ get_key (txt "client_private_key") (client_private_key cfg) ;;
      cert <~ get_key (txt "client_cert") (client_cert cfg) ;;
      let req := make_request query env_opt max_row in
      acc <~ itry (addr <~ get_key (txt "api_connection_string") (api_connection_string cfg) ;;
                   let '(rs, fin) := query_stream w addr (ca, key, cert) req timeout in
                   with_channel addr (consume lim rs fin ([], [])))
                  rpc_handler ;;
      classify acc
  end.

(** [run_vql] (lines 135-154): the rows only. *)
Definition run_vql (lim : limits) (w : world) (query : text)
           (env_opt : option (list (text * text))) (config_path : option text)
           (timeout max_row : Z) : M (list json) :=
  acc <~ run_vql_raw lim w query env_opt config_path timeout max_row ;; iret acc.1.

(** ** What a call does with a well-formed stream *)

(** A chunk the service sends as the spec says: no [Response], or a JSON
    array. *)
Definition good_chunk (lim : limits) (r : response) : Prop :=
  Response r = [] ∨ ∃ xs, loads lim (Response r) = Ok (JArr xs).

Definition chunk_rows (lim : limits) (r : response) : list json :=
  match Response r with
  | [] => []
  | body => match loads lim body with Ok (JArr xs) => xs | _ => [] end
  end.

Definition is_stderr (ev : event) : Prop := ∃ l, ev = EvStderr l.

Definition all_rows (lim : limits) (rs : list response) : list json := flat_map (chunk_rows lim) rs.
Definition all_logs (rs : list response) : list text := flat_map log_lines rs.
Definition call_events (addr : text) (rs : list response) : list event :=
  EvOpen addr :: stderr_lines (all_logs rs) ++ [EvClose].

(** A test world: a configuration with its four keys, and a server that
    answers every request with the stream [rs] ending in [fin]. *)
Definition demo_cfg : config :=
  {| ca_certificate := Some (txt "CA"); client_private_key := Some (txt "KEY");
     client_cert := Some (txt "CERT"); api_connection_string := Some (txt "127.0.0.1:8001") |}.

Definition demo_world (rs : list response) (fin : stream_end) : world :=
  {| workspace_root := txt "/ws"; load_config := fun _ => Ok demo_cfg;
     query_stream := fun _ _ _ _ => (rs, fin) |}.

(** The spec's scenario 4: three rows and a [PermissionDenied] log line. *)
Definition denied_stream : list response :=
  [{| log := txt "Query: PermissionDenied: COLLECT_CLIENT required";
      Response := jtxt "[{'a':1},{'a':2},{'a':3}]" |}].

(** The spec's scenario 3: no rows and an [ERROR:] log line. *)
Definition failed_stream : list response :=
  [{| log := txt "hunt_results: ERROR: artifact not found"; Response := [] |}].

(** ** Lemmas *)

Lemma stderr_lines_only (lines : list text) : Forall is_stderr (stderr_lines lines).
Proof. apply Forall_forall. intros ev Hin. apply in_map_iff in Hin as (l & <- & _). by eexists. Qed.

#[local] Hint Resolve stderr_lines_only : velo.

Lemma stderr_lines_app (a b : list text) : stderr_lines (a ++ b) = stderr_lines a ++ stderr_lines b.
Proof. apply map_app. Qed.

Lemma handle_response_good lim rows logs r :
  good_chunk lim r ->
  handle_response lim (rows, logs) r =
  (stderr_lines (log_lines r), Ok (rows ++ chunk_rows lim r, logs ++ log_lines r)).
Proof.
  unfold handle_response, chunk_rows. intros [H|[xs H]].
  - rewrite H. simpl. by rewrite !app_nil_r.
  - destruct (Response r) as [|c b]; [discriminate|]. rewrite H. simpl. by rewrite !app_nil_r.
Qed.

(** Every event of one response is a stderr line. *)
Lemma handle_response_events lim acc r : Forall is_stderr (handle_response lim acc r).1.
Proof.
  unfold handle_response. destruct acc as [rows logs].
  assert (∀ m : M (list json * list text), m.1 = [] ->
            Forall is_stderr (let '(t, res) := m in (stderr_lines (log_lines r) ++ t, res)).1)
    as Hm.
  { intros [t res] Ht. simpl in *. subst. rewrite app_nil_r. apply stderr_lines_only. }
  apply Hm. repeat case_match; reflexivity.
Qed.

Lemma consume_events lim rs fin acc : Forall is_stderr (consume lim rs fin acc).1.
Proof.
  revert acc. induction rs as [|r rs IH]; intros acc; simpl.
  - by destruct fin.
  - pose proof (handle_response_events lim acc r) as Hh.
    destruct (handle_response lim acc r) as [t [acc'|e]]; simpl in *; [|done].
    specialize (IH acc'). destruct (consume lim rs fin acc'). simpl in *.
    by apply Forall_app.
Qed.

(** The fold over well-formed chunks prints every log line, keeps them, and
    appends every decoded row, in stream order; the stream's own failure
    comes after all of them. *)
Lemma consume_good lim rs fin rows logs :
  Forall (good_chunk lim) rs ->
  consume lim rs fin (rows, logs) =
  (stderr_lines (flat_map log_lines rs),
   match fin with
   | StreamClosed => Ok (rows ++ flat_map (chunk_rows lim) rs, logs ++ flat_map log_lines rs)
   | StreamFailed d => Raise (RpcError d)
   end).
Proof.
  revert rows logs. induction rs as [|r rs IH]; intros rows logs Hg; cbn [consume].
  - destruct fin; simpl; by rewrite ?app_nil_r.
  - inversion Hg; subst. rewrite handle_response_good by done. cbn [ibind].
    rewrite IH by done. cbn [flat_map]. rewrite stderr_lines_app.
    destruct fin; by rewrite ?app_assoc.
Qed.

(** ** [run_vql_raw] on a world whose configuration has its four keys *)

Section Configured.
Context (lim : limits) (w : world) (query : text) (env_opt : option (list (text * text)))
        (config_path : option text) (timeout max_row : Z).
Context (cfg : config) (ca key cert addr : text).
Hypothesis H_cfg : load_config w (config_path_or config_path (workspace_root w)) = Ok cfg.
Hypothesis H_ca : ca_certificate cfg = Some ca.
Hypothesis H_key : client_private_key cfg = Some key.
Hypothesis H_cert : client_cert cfg = Some cert.
Hypothesis H_addr : api_connection_string cfg = Some addr.

Lemma run_vql_raw_configured :
  run_vql_raw lim w query env_opt config_path timeout max_row =
  let '(rs, fin) := query_stream w addr (ca, key, cert) (make_request query env_opt max_row) timeout in
  ibind (itry (with_channel addr (consume lim rs fin ([], []))) rpc_handler) classify.
Proof.
  unfold run_vql_raw. rewrite H_cfg. cbn zeta.
  rewrite H_ca, H_key, H_cert, H_addr. cbn [get_key]. rewrite !ibind_ret.
  destruct (query_stream _ _ _ _ _) as [rs fin]. unfold itry, ibind at 2, iret. simpl.
  destruct (with_channel addr (consume lim rs fin ([], []))). reflexivity.
Qed.

(** C7. The channel is released on every path: once the configuration is
    read, the call's events are one [EvOpen], the stderr lines, one
    [EvClose], whatever the stream does (rows, logs, a mid-stream gRPC
    error, an undecodable chunk) and however the result is classified. *)
Theorem run_vql_raw_channel_released :
  ∃ mid, (run_vql_raw lim w query env_opt config_path timeout max_row).1 =
         EvOpen addr :: mid ++ [EvClose] ∧ Forall is_stderr mid.
Proof.
  rewrite run_vql_raw_configured.
  destruct (query_stream _ _ _ _ _) as [rs fin].
  rewrite ibind_events_silent, itry_events_silent by
    (intros []; try destruct_and?; unfold classify; repeat case_match; done).
  exists (consume lim rs fin ([], [])).1. split; [done|apply consume_events].
Qed.

Context (rs : list response) (fin : stream_end).
Hypothesis H_stream :
  query_stream w addr (ca, key, cert) (make_request query env_opt max_row) timeout = (rs, fin).
Hypothesis H_good : Forall (good_chunk lim) rs.

Abbreviation all_rows := (all_rows lim rs).
Abbreviation all_logs := (all_logs rs).
Abbreviation call_events := (call_events addr rs).

Lemma run_vql_raw_stream :
  run_vql_raw lim w query env_opt config_path timeout max_row =
  match fin with
  | StreamClosed => ibind (call_events, Ok (all_rows, all_logs)) classify
  | StreamFailed d => (call_events, Raise (Velo VeloConnectionError (txt "gRPC error: " ++ d)))
  end.
Proof.
  rewrite run_vql_raw_configured, H_stream, consume_good by done.
  unfold with_channel, itry, Client.call_events, Client.all_rows, Client.all_logs. simpl.
  destruct fin; simpl; by rewrite ?app_nil_r.
Qed.

(** C8. A gRPC failure of the stream is a connection failure, checked before
    the logs: even a [PermissionDenied] log line does not change it. *)
Theorem run_vql_raw_connection_failure d :
  fin = StreamFailed d ->
  run_vql_raw lim w query env_opt config_path timeout max_row =
  (call_events, Raise (Velo VeloConnectionError (txt "gRPC error: " ++ d))).
Proof. intros Hfin. by rewrite run_vql_raw_stream, Hfin. Qed.

(** C4. A log line containing [PermissionDenied] makes the call raise
    [VeloPermissionError] naming the first such line, whatever rows came
    back. *)
Theorem run_vql_raw_permission_first line :
  fin = StreamClosed ->
  List.find (PyStr.contains (txt "PermissionDenied")) all_logs = Some line ->
  run_vql_raw lim w query env_opt config_path timeout max_row =
  (call_events, Raise (Velo VeloPermissionError (txt "Permission denied: " ++ line))).
Proof.
  intros Hfin Hf. rewrite run_vql_raw_stream, Hfin. unfold ibind, classify. rewrite Hf.
  simpl. by rewrite app_nil_r.
Qed.

(** C5. No rows, no permission line and at least one [ERROR:] line: the
    call raises [VeloAPIError] listing the error lines. *)
Theorem run_vql_raw_query_failure :
  fin = StreamClosed ->
  List.find (PyStr.contains (txt "PermissionDenied")) all_logs = None ->
  all_rows = [] ->
  List.filter (PyStr.contains (txt "ERROR:")) all_logs ≠ [] ->
  run_vql_raw lim w query env_opt config_path timeout max_row =
  (call_events,
   Raise (Velo VeloAPIError
            (txt "VQL query returned no results with errors:" ++ [10%N] ++
             PyStr.join [10%N] (List.filter (PyStr.contains (txt "ERROR:")) all_logs)))).
Proof.
  intros Hfin Hf Hr He. rewrite run_vql_raw_stream, Hfin. unfold ibind, classify. rewrite Hf, Hr.
  destruct (List.filter _ all_logs) eqn:E; [done|]. simpl. by rewrite app_nil_r.
Qed.

(** C6. Otherwise the call returns every row and every log line, in stream
    order, having printed each log line once between opening and closing
    the channel. *)
Theorem run_vql_raw_success :
  fin = StreamClosed ->
  List.find (PyStr.contains (txt "PermissionDenied")) all_logs = None ->
  (all_rows ≠ [] ∨ List.filter (PyStr.contains (txt "ERROR:")) all_logs = []) ->
  run_vql_raw lim w query env_opt config_path timeout max_row = (call_events, Ok (all_rows, all_logs)).
Proof.
  intros Hfin Hf Hre. rewrite run_vql_raw_stream, Hfin. unfold ibind, classify. rewrite Hf.
  destruct Hre as [Hr|He].
  - destruct all_rows eqn:E; [done|]. simpl. by rewrite app_nil_r.
  - rewrite He. simpl. rewrite andb_false_r. simpl. by rewrite app_nil_r.
Qed.
End Configured.

(** C15. A configuration that cannot be loaded is a connection failure, and
    no channel is opened. *)
Theorem run_vql_raw_config_failure lim w query env_opt config_path timeout max_row d :
  load_config w (config_path_or config_path (workspace_root w)) = Raise d ->
  run_vql_raw lim w query env_opt config_path timeout max_row =
  ([], Raise (Velo VeloConnectionError
                (txt "Failed to load config " ++ config_path_or config_path (workspace_root w) ++
                 txt ": " ++ d))).
Proof. intros H. unfold run_vql_raw. by rewrite H. Qed.

(** C16. A configuration without [ca_certificate] raises [KeyError], which is
    not a [VeloAPIError]: no classified failure, and no channel. *)
Theorem run_vql_raw_missing_key lim w query env_opt config_path timeout max_row cfg :
  load_config w (config_path_or config_path (workspace_root w)) = Ok cfg ->
  ca_certificate cfg = None ->
  run_vql_raw lim w query env_opt config_path timeout max_row =
  ([], Raise (KeyError (txt "ca_certificate"))) ∧
  is_velo_api_error (KeyError (txt "ca_certificate")) = false.
Proof. intros H Hc. unfold run_vql_raw. rewrite H, Hc. by split. Qed.

(** ** Witnesses *)

(** The side conditions of a concrete world: chunks that decode, and the
    lookups in its logs. *)
Ltac good_chunks :=
  repeat (apply Forall_cons; [first [ by left | right; eexists; vm_compute; reflexivity ]|]);
  apply Forall_nil.

Ltac world_side :=
  first [ reflexivity
        | good_chunks
        | vm_compute; reflexivity
        | vm_compute; discriminate
        | left; vm_compute; discriminate ].

Lemma run_vql_raw_channel_released_witness :
  ∃ mid, (run_vql_raw default_limits (demo_world failed_stream (StreamFailed (txt "UNAVAILABLE")))
            (txt "SELECT * FROM info()") None None 600 1000).1 =
         EvOpen (txt "127.0.0.1:8001") :: mid ++ [EvClose] ∧ Forall is_stderr mid.
Proof.
  eapply (run_vql_raw_channel_released _ _ _ _ _ _ _ demo_cfg (txt "CA") (txt "KEY") (txt "CERT"));
    reflexivity.
Defined.

Lemma run_vql_raw_connection_failure_witness :
  run_vql_raw default_limits (demo_world denied_stream (StreamFailed (txt "DEADLINE_EXCEEDED")))
    (txt "SELECT * FROM info()") None None 600 1000 =
  (call_events (txt "127.0.0.1:8001") denied_stream,
   Raise (Velo VeloConnectionError (txt "gRPC error: " ++ txt "DEADLINE_EXCEEDED"))).
Proof.
  eapply (run_vql_raw_connection_failure _ _ _ _ _ _ _ demo_cfg); world_side.
Defined.

Lemma run_vql_raw_permission_first_witness :
  run_vql_raw default_limits (demo_world denied_stream StreamClosed)
    (txt "SELECT * FROM info()") None None 600 1000 =
  (call_events (txt "127.0.0.1:8001") denied_stream,
   Raise (Velo VeloPermissionError
            (txt "Permission denied: " ++ txt "Query: PermissionDenied: COLLECT_CLIENT required"))).
Proof.
  eapply (run_vql_raw_permission_first _ _ _ _ _ _ _ demo_cfg); world_side.
Defined.

Lemma run_vql_raw_query_failure_witness :
  run_vql_raw default_limits (demo_world failed_stream StreamClosed)
    (txt "SELECT * FROM hunt_results()") None None 600 1000 =
  (call_events (txt "127.0.0.1:8001") failed_stream,
   Raise (Velo VeloAPIError
            (txt "VQL query returned no results with errors:" ++ [10%N] ++
             PyStr.join [10%N] (List.filter (PyStr.contains (txt "ERROR:"))
                                  (all_logs failed_stream))))).
Proof.
  eapply (run_vql_raw_query_failure _ _ _ _ _ _ _ demo_cfg); world_side.
Defined.

Lemma run_vql_raw_success_witness :
  run_vql_raw default_limits
    (demo_world [{| log := txt "Starting query"; Response := jtxt "[{'a':1}]" |}] StreamClosed)
    (txt "SELECT * FROM info()") None None 600 1000 =
  (call_events (txt "127.0.0.1:8001") [{| log := txt "Starting query"; Response := jtxt "[{'a':1}]" |}],
   Ok (all_rows default_limits [{| log := txt "Starting query"; Response := jtxt "[{'a':1}]" |}],
       all_logs [{| log := txt "Starting query"; Response := jtxt "[{'a':1}]" |}])).
Proof.
  eapply (run_vql_raw_success _ _ _ _ _ _ _ demo_cfg); world_side.
Defined.

Lemma run_vql_raw_config_failure_witness :
  run_vql_raw default_limits
    {| workspace_root := txt "/ws"; load_config := fun _ => Raise (txt "No such file");
       query_stream := fun _ _ _ _ => ([], StreamClosed) |}
    (txt "SELECT 1") None None 600 1000 =
  ([], Raise (Velo VeloConnectionError
                (txt "Failed to load config " ++ default_config (txt "/ws") ++ txt ": " ++
                 txt "No such file"))).
Proof. apply run_vql_raw_config_failure. reflexivity. Defined.

Lemma run_vql_raw_missing_key_witness :
  run_vql_raw default_limits
    {| workspace_root := txt "/ws";
       load_config := fun _ => Ok {| ca_certificate := None; client_private_key := None;
                                     client_cert := None; api_connection_string := None |};
       query_stream := fun _ _ _ _ => ([], StreamClosed) |}
    (txt "SELECT 1") None None 600 1000 =
  ([], Raise (KeyError (txt "ca_certificate"))) ∧
  is_velo_api_error (KeyError (txt "ca_certificate")) = false.
Proof. eapply run_vql_raw_missing_key; reflexivity. Defined.

End Client.
