(* ===== verification/Poller.v ===== *)
(** * [poll_until] (src/scripts/velo_api.py, lines 292-319)

    The loop computes a deadline, and while the clock is before it runs the
    query once; a [VeloAPIError] (any of its subclasses) counts as no rows;
    rows the predicate accepts are returned; otherwise it sleeps for the
    smaller of the interval and the time left.  Past the deadline it returns
    [None].

    The poller sees its environment through the class [PollEnv]: the clock
    ([time.time]), [time.sleep] and one execution of [run_vql] with the
    caller's query, with the laws it relies on (sleeping moves the clock by
    the amount slept, a query never moves it back).  [client_env] is the
    instance built from [Client.run_vql]; [script_env] replays a list of
    outcomes for concrete runs. *)

From Stdlib Require Import NArith ZArith String Lia.
From stdpp Require Import base list decidable.
From S2P Require Import Prelude PyStr Json Client.

Module Poller.
Import Json Client.

Class PollEnv (W : Type) := {
  now : W -> Z;
  sleep : Z -> W -> W;
  run_query : W -> outcome exn (list json) * W;
  now_sleep : ∀ d w, (0 <= d)%Z -> now (sleep d w) = (now w + d)%Z;
  now_run : ∀ w, (now w <= now (run_query w).2)%Z
}.

Inductive poll_result : Type :=
| PollRows (rows : list json)   (** [return rows] *)
| PollNone                      (** [return None] *)
| PollRaise (e : exn)           (** an exception leaves [poll_until] *)
| PollFuel.                     (** the model's fuel ran out *)

Section Loop.
Context {W : Type} `{PollEnv W} (predicate : list json -> bool).

(** Lines 307-310: [try: rows = run_vql(...) except VeloAPIError: rows = []]. *)
Definition attempt (w : W) : outcome exn (list json) * W :=
  let '(r, w1) := run_query w in
  match r with
  | Ok rows => (Ok rows, w1)
  | Raise e => if is_velo_api_error e then (Ok [], w1) else (Raise e, w1)
  end.

(** Lines 306-319, one iteration per unit of fuel.  [time.sleep] raises
    [ValueError] for a negative length. *)
Fixpoint poll_loop (deadline interval : Z) (fuel : nat) (w : W) : poll_result * W :=
  match fuel with
  | O => (PollFuel, w)
  | S f =>
      if bool_decide (now w < deadline)%Z then
        match attempt w with
        | (Raise e, w1) => (PollRaise e, w1)
        | (Ok rows, w1) =>
            if predicate rows then (PollRows rows, w1)
            else
              let remaining := (deadline - now w1)%Z in
              if bool_decide (0 < remaining)%Z then
                let d := Z.min interval remaining in
                if bool_decide (d < 0)%Z
                then (PollRaise (ValueError (txt "sleep length must be non-negative")), w1)
                else poll_loop deadline interval f (sleep d w1)
              else poll_loop deadline interval f w1
        end
      else (PollNone, w)
  end.

(** [poll_until(query, predicate, timeout, interval)]. *)
Definition poll_until (timeout interval : Z) (fuel : nat) (w : W) : poll_result * W :=
  poll_loop (now w + timeout) interval fuel w.
End Loop.

(** ** Environments *)

(** [run_vql] against a sequence of worlds, one per call, each call taking
    the given time; the events of every call are kept. *)
Record client_state := {
  cs_clock : Z;
  cs_calls : nat;
  cs_events : list event
}.

Definition client_run (lim : limits) (worlds : nat -> world) (dur : nat -> N) (query : text)
           (config_path : option text) (st : client_state)
  : outcome exn (list json) * client_state :=
  let '(t, r) := run_vql lim (worlds (cs_calls st)) query None config_path 600 1000 in
  (r, {| cs_clock := cs_clock st + Z.of_N (dur (cs_calls st)); cs_calls := S (cs_calls st);
         cs_events := cs_events st ++ t |}).

Definition client_sleep (d : Z) (st : client_state) : client_state :=
  {| cs_clock := cs_clock st + d; cs_calls := cs_calls st; cs_events := cs_events st |}.

#[export] Program Instance client_env (lim : limits) (worlds : nat -> world) (dur : nat -> N)
  (query : text) (config_path : option text) : PollEnv client_state := {
  now := cs_clock;
  sleep := client_sleep;
  run_query := client_run lim worlds dur query config_path
}.
Next Obligation. reflexivity. Qed.
Next Obligation.
  intros. unfold client_run. destruct (run_vql _ _ _ _ _ _ _). simpl. lia.
Qed.

(** A replayed sequence of outcomes with their durations; the sleeps are
    recorded. *)
Record script_state := {
  sc_clock : Z;
  sc_calls : nat;
  sc_sleeps : list Z
}.

Definition script_run (script : list (N * outcome exn (list json))) (st : script_state)
  : outcome exn (list json) * script_state :=
  let '(d, r) := nth (sc_calls st) script (0%N, Raise (Velo VeloAPIError [])) in
  (r, {| sc_clock := sc_clock st + Z.of_N d; sc_calls := S (sc_calls st); sc_sleeps := sc_sleeps st |}).

Definition script_sleep (d : Z) (st : script_state) : script_state :=
  {| sc_clock := sc_clock st + d; sc_calls := sc_calls st; sc_sleeps := sc_sleeps st ++ [d] |}.

#[export] Program Instance script_env (script : list (N * outcome exn (list json)))
  : PollEnv script_state := {
  now := sc_clock;
  sleep := script_sleep;
  run_query := script_run script
}.
Next Obligation. reflexivity. Qed.
Next Obligation.
  intros. unfold script_run. destruct (nth _ _ _). simpl. lia.
Qed.

(** ** What a poll promises

    [poll_post deadline r w']: the rows returned satisfy the predicate, [None]
    is returned only once the clock has reached the deadline, and no
    [VeloAPIError] of any kind leaves the loop. *)
Definition poll_post {W} `{PollEnv W} (predicate : list json -> bool) (deadline : Z)
           (r : poll_result) (w' : W) : Prop :=
  match r with
  | PollRows rows => predicate rows = true
  | PollNone => (deadline <= now w')%Z
  | PollRaise e => is_velo_api_error e = false
  | PollFuel => True
  end.

(** Test data: a row, and the spec's scenario 5 replayed with query
    durations [d]. *)
Definition ready_row : json := JObj [(txt "state", JStr (txt "FINISHED"))].

Definition nonempty (rows : list json) : bool := negb (is_empty rows).

Definition scenario5 (d : N) : list (N * outcome exn (list json)) :=
  [(d, Raise (Velo VeloAPIError (txt "no results")));
   (d, Raise (Velo VeloAPIError (txt "no results")));
   (d, Ok [ready_row])].

Definition start : script_state := {| sc_clock := 0; sc_calls := 0; sc_sleeps := [] |}.

(** Every query refused with [VeloPermissionError], taking one second. *)
Definition denied : list (N * outcome exn (list json)) :=
  repeat (1%N, Raise (Velo VeloPermissionError (txt "Permission denied"))) 10.

(** ** Theorems *)

Section Props.
Context {W : Type} `{PollEnv W} (predicate : list json -> bool).

Lemma attempt_state w : (attempt w).2 = (run_query w).2.
Proof. unfold attempt. destruct (run_query w) as [[rows|e] w1]; repeat case_match; done. Qed.

Lemma attempt_raise w e w1 : attempt w = (Raise e, w1) -> is_velo_api_error e = false.
Proof.
  unfold attempt. destruct (run_query w) as [[rows|e'] w1']; [discriminate|].
  repeat case_match; intros; simplify_eq; done.
Qed.

(** C10. What [poll_until] returns meets its contract: accepted rows, a
    timeout only at the deadline, and never a [VeloAPIError] (the loop
    swallows the base class, so also connection and permission failures). *)
Theorem poll_loop_post deadline interval fuel w :
  poll_post predicate deadline (poll_loop predicate deadline interval fuel w).1
            (poll_loop predicate deadline interval fuel w).2.
Proof.
  revert w. induction fuel as [|f IH]; intros w; cbn [poll_loop]; [done|].
  case_bool_decide; [|simpl; lia].
  destruct (attempt w) as [[rows|e] w1] eqn:Ha; [|by eapply attempt_raise].
  destruct (predicate rows) eqn:Hp; [done|].
  repeat case_bool_decide; try done; apply IH.
Qed.

(** Each iteration that goes on either sleeps a whole interval or reaches
    the deadline; so [f] iterations with [(f - 1) * interval] covering the
    time left are enough. *)
Lemma poll_loop_no_fuel_out dl interval f w :
  (0 < interval)%Z -> 1 <= f -> ((Z.of_nat f - 1) * interval >= dl - now w)%Z ->
  (poll_loop predicate dl interval f w).1 ≠ PollFuel.
Proof.
  intros Hi. revert w. induction f as [|f IH]; intros w Hf1 Hm; [lia|]. cbn [poll_loop].
  case_bool_decide; [|done].
  pose proof (now_run w) as Hr. rewrite <-attempt_state in Hr.
  destruct (attempt w) as [[rows|e] w1]; [|done]. simpl in Hr.
  destruct (predicate rows); [done|].
  assert (1 <= f) by (destruct f; [simpl in Hm; lia|lia]).
  rewrite Nat2Z.inj_succ in Hm.
  repeat case_bool_decide; try done.
  - apply IH; [done|]. rewrite now_sleep by lia.
    destruct (Z.min_spec interval (dl - now w1)) as [[? ->]|[? ->]]; nia.
  - apply IH; [done|nia].
Qed.

(** [timeout / interval + 2] iterations cover a timeout: [f - 1] whole
    intervals reach past it. *)
Lemma fuel_covers timeout interval fuel :
  (0 < interval)%Z -> (0 <= timeout)%Z -> Z.to_nat (timeout / interval) + 2 <= fuel ->
  1 <= fuel ∧ ((Z.of_nat fuel - 1) * interval >= timeout)%Z.
Proof.
  intros Hi Ht Hf. split; [lia|].
  pose proof (Z.div_mod timeout interval ltac:(lia)) as Hdm.
  pose proof (Z.mod_pos_bound timeout interval Hi).
  pose proof (Z.div_pos timeout interval Ht Hi).
  apply Nat2Z.inj_le in Hf. rewrite Nat2Z.inj_add, Z2Nat.id in Hf by lia.
  set (q := (timeout / interval)%Z) in *. set (m := (timeout mod interval)%Z) in *.
  assert (Z.of_nat fuel - 1 >= q + 1)%Z by lia. nia.
Qed.

(** When no attempt is accepted, the loop ends with [None] past the
    deadline, or runs out of fuel. *)
Lemma poll_loop_rejected dl interval f w :
  (0 < interval)%Z -> (∀ w', ∃ rows, (attempt w').1 = Ok rows ∧ predicate rows = false) ->
  ((poll_loop predicate dl interval f w).1 = PollNone ∧ (dl <= now (poll_loop predicate dl interval f w).2)%Z) ∨
  (poll_loop predicate dl interval f w).1 = PollFuel.
Proof.
  intros Hi Hrej. revert w. induction f as [|f IH]; intros w; cbn [poll_loop]; [by right|].
  case_bool_decide; [|left; simpl; split; [done|lia]].
  destruct (Hrej w) as (rows & Ha & Hp). destruct (attempt w) as [r w1]; simpl in Ha; subst r.
  rewrite Hp. repeat case_bool_decide; try lia; apply IH.
Qed.

(** C11. Termination: with a positive interval and a timeout of at least
    zero, [timeout / interval + 2] iterations are enough for the loop to
    finish (it never runs out of fuel). *)
Theorem poll_until_terminates timeout interval fuel w :
  (0 < interval)%Z -> (0 <= timeout)%Z ->
  Z.to_nat (timeout / interval) + 2 <= fuel ->
  (poll_until predicate timeout interval fuel w).1 ≠ PollFuel.
Proof.
  intros Hi Ht Hf. destruct (fuel_covers _ _ _ Hi Ht Hf) as [H1 Hc].
  unfold poll_until. apply poll_loop_no_fuel_out; [done|done|lia].
Qed.

(** C13. Retry until the deadline: when every query fails with a
    [VeloAPIError] or returns rows the predicate rejects, and the predicate
    rejects the empty list that stands for a failure, [poll_until]
    keeps polling and returns [None], at a time past the deadline. *)
Theorem poll_until_gives_up timeout interval fuel w :
  (0 < interval)%Z -> (0 <= timeout)%Z -> Z.to_nat (timeout / interval) + 2 <= fuel ->
  (∀ w', match (run_query w').1 with
         | Ok rows => predicate rows = false
         | Raise e => is_velo_api_error e = true
         end) -> predicate [] = false ->
  (poll_until predicate timeout interval fuel w).1 = PollNone ∧
  (now w + timeout <= now (poll_until predicate timeout interval fuel w).2)%Z.
Proof.
  intros Hi Ht Hf Hq Hnil. destruct (fuel_covers _ _ _ Hi Ht Hf) as [H1 Hc]. unfold poll_until.
  assert (Hrej : ∀ w', ∃ rows, (attempt w').1 = Ok rows ∧ predicate rows = false).
  { intros w'. specialize (Hq w'). unfold attempt.
    destruct (run_query w') as [[rows|e] w1]; simpl in *; [by exists rows|]. rewrite Hq. by exists []. }
  destruct (poll_loop_rejected (now w + timeout) interval fuel w Hi Hrej) as [?|Hfuel]; [done|].
  exfalso. revert Hfuel. apply poll_loop_no_fuel_out; [done|done|lia].
Qed.

(** C14. A query is never cut short: when the first query takes [D] seconds
    with [D] at least the timeout and its rows are rejected, [poll_until]
    returns [None] at time [now + D], past the timeout plus one interval
    whenever [D > timeout + interval]. *)
Theorem poll_overrun timeout interval fuel w D rows :
  (0 < timeout <= D)%Z -> 2 <= fuel ->
  now (run_query w).2 = (now w + D)%Z ->
  (attempt w).1 = Ok rows -> predicate rows = false ->
  poll_until predicate timeout interval fuel w = (PollNone, (run_query w).2).
Proof.
  intros Ht Hf Hd Ha Hp. unfold poll_until.
  destruct fuel as [|[|f]]; [lia|lia|]. cbn [poll_loop].
  rewrite bool_decide_true by lia.
  pose proof (attempt_state w) as Hs. destruct (attempt w) as [r w1]; simpl in Ha, Hs; subst r w1.
  rewrite Hp, bool_decide_false by lia. cbn [poll_loop]. rewrite bool_decide_false by lia. done.
Qed.

Section Bound.
Variable Dmax : Z.
Hypothesis run_bound : ∀ w, (now (run_query w).2 <= now w + Dmax)%Z.

(** C12. Time bound: the loop ends no later than the deadline plus the
    duration of one query; sleeps never pass the deadline. *)
Theorem poll_loop_time_bound deadline interval fuel w :
  (now (poll_loop predicate deadline interval fuel w).2 <= Z.max (now w) (deadline + Dmax))%Z.
Proof.
  revert w. induction fuel as [|f IH]; intros w; cbn [poll_loop snd]; [lia|].
  case_bool_decide; [|simpl; lia].
  pose proof (run_bound w) as Hr. rewrite <-attempt_state in Hr.
  pose proof (now_run w) as Hr'. rewrite <-attempt_state in Hr'.
  destruct (attempt w) as [[rows|e] w1]; simpl in Hr, Hr'; [|simpl; lia].
  destruct (predicate rows); [simpl; lia|].
  repeat case_bool_decide; [simpl; lia| |].
  - etrans; [apply IH|]. rewrite now_sleep by lia. lia.
  - etrans; [apply IH|]. lia.
Qed.
End Bound.
End Props.

(** ** Witnesses *)

Lemma poll_until_terminates_witness :
  (0 < 2)%Z ∧ (0 <= 6)%Z ∧ Z.to_nat (6 / 2) + 2 <= 5 ∧
  (poll_until (W:=script_state) (H:=script_env (scenario5 1)) nonempty 6 2 5 start).1 ≠ PollFuel.
Proof.
  assert (Hi : (0 < 2)%Z) by lia. assert (Ht : (0 <= 6)%Z) by lia.
  assert (Hf : Z.to_nat (6 / 2) + 2 <= 5) by (vm_compute; lia).
  split; [exact Hi|split; [exact Ht|split; [exact Hf|]]].
  exact (poll_until_terminates nonempty 6 2 5 start Hi Ht Hf).
Defined.

Lemma poll_loop_time_bound_witness :
  (∀ st, @now _ (script_env [(10%N, Raise (Velo VeloAPIError []))])
           (@run_query _ (script_env [(10%N, Raise (Velo VeloAPIError []))]) st).2 <=
         @now _ (script_env [(10%N, Raise (Velo VeloAPIError []))]) st + 10)%Z ∧
  (@now _ (script_env [(10%N, Raise (Velo VeloAPIError []))])
     (poll_loop (H:=script_env [(10%N, Raise (Velo VeloAPIError []))]) nonempty 6 2 10 start).2
   <= Z.max (@now _ (script_env [(10%N, Raise (Velo VeloAPIError []))]) start) (6 + 10))%Z.
Proof.
  assert (Hb : (∀ st, @now _ (script_env [(10%N, Raise (Velo VeloAPIError []))])
           (@run_query _ (script_env [(10%N, Raise (Velo VeloAPIError []))]) st).2 <=
         @now _ (script_env [(10%N, Raise (Velo VeloAPIError []))]) st + 10)%Z).
  { intros st. cbn. unfold script_run. destruct (sc_calls st) as [|[|k]]; simpl; lia. }
  split; [exact Hb|exact (poll_loop_time_bound nonempty 10 Hb 6 2 10 start)].
Defined.

Lemma poll_until_gives_up_witness :
  (∀ st, match (@run_query _ (script_env denied) st).1 with
         | Ok rows => nonempty rows = false
         | Raise e => is_velo_api_error e = true
         end) ∧
  (poll_until (W:=script_state) (H:=script_env denied) nonempty 3 1 5 start).1 = PollNone ∧
  (0 + 3 <= @now _ (script_env denied) (poll_until (W:=script_state) (H:=script_env denied) nonempty 3 1 5 start).2)%Z.
Proof.
  assert (Hq : ∀ st, match (@run_query _ (script_env denied) st).1 with
         | Ok rows => nonempty rows = false
         | Raise e => is_velo_api_error e = true
         end).
  { intros st. cbn. unfold script_run. destruct (sc_calls st) as [|k]; [reflexivity|].
    do 10 (destruct k as [|k]; [reflexivity|]). reflexivity. }
  assert (Hi : (0 < 1)%Z) by lia. assert (Ht : (0 <= 3)%Z) by lia.
  assert (Hf : Z.to_nat (3 / 1) + 2 <= 5) by (vm_compute; lia).
  assert (Hn : nonempty [] = false) by reflexivity.
  split; [exact Hq|exact (poll_until_gives_up nonempty 3 1 5 start Hi Ht Hf Hq Hn)].
Defined.

Lemma poll_overrun_witness :
  poll_until (W:=script_state) (H:=script_env [(10%N, Raise (Velo VeloAPIError []))]) nonempty 6 2 2 start =
  (PollNone, (@run_query _ (script_env [(10%N, Raise (Velo VeloAPIError []))]) start).2) ∧
  (@now _ (script_env [(10%N, Raise (Velo VeloAPIError []))])
     (@run_query _ (script_env [(10%N, Raise (Velo VeloAPIError []))]) start).2 > 6 + 2)%Z.
Proof.
  assert (Ht : (0 < 6 <= 10)%Z) by lia. assert (Hf : 2 <= 2) by lia.
  assert (Hd : @now _ (script_env [(10%N, Raise (Velo VeloAPIError []))])
                 (@run_query _ (script_env [(10%N, Raise (Velo VeloAPIError []))]) start).2 =
               (@now _ (script_env [(10%N, Raise (Velo VeloAPIError []))]) start + 10)%Z) by reflexivity.
  assert (Ha : (@attempt _ (script_env [(10%N, Raise (Velo VeloAPIError []))]) start).1 = Ok []) by reflexivity.
  assert (Hn : nonempty [] = false) by reflexivity.
  split; [exact (poll_overrun nonempty 6 2 2 start 10 [] Ht Hf Hd Ha Hn)|vm_compute; reflexivity].
Defined.

End Poller.
