(* ===== verification/Queries.v ===== *)
(** * The convenience query builders (src/scripts/velo_api.py, lines 161-289)

    [list_clients], [push_artifact], [delete_artifact], [schedule_hunt],
    [get_hunt_status] and [get_hunt_results] format a VQL query from their
    arguments and call [run_vql]; those that return one record take the
    first row ([rows[0] if rows else None]).  Two conversions in the
    formatting can raise before any call: [str(int)] of a limit and
    [json.dumps] of an integer, both with more digits than
    [sys.int_max_str_digits].  A limit is modelled as an integer:
    [int(limit)] of a string or a float argument is not.

    Arguments are spliced into the query in two ways: [schedule_hunt] writes
    each value with [json.dumps], so a value is one JSON literal whatever it
    holds; the others paste names and hunt identifiers between double quotes
    as they are, so a double quote in a name ends the literal early and the
    rest of the name becomes query text.  [push_artifact] passes the YAML
    through the query environment and never through the text. *)

From Stdlib Require Import NArith ZArith String Lia.
From stdpp Require Import base list decidable.
From S2P Require Import Prelude PyStr Json Dumps Summarize Recovery Client.

Module Queries.
Import Json Dumps Recovery Client.

(** ** Conversions that may raise *)

Definition int_max_msg : text := txt "Exceeds the limit for integer string conversion".

(** [str(n)] for an [int]: [ValueError] above the digit limit. *)
Definition int_str (lim : limits) (z : Z) : outcome exn text :=
  if bool_decide (int_max_str_digits lim ≠ 0 ∧
                  int_max_str_digits lim < length (render_nat (Z.to_N (Z.abs z))))
  then Raise (ValueError int_max_msg)
  else Ok (render_int z).

(** Every integer of the value converts within the digit limit. *)
Fixpoint ints_ok (lim : limits) (v : json) : bool :=
  match v with
  | JInt z => negb (bool_decide (int_max_str_digits lim ≠ 0 ∧
                                 int_max_str_digits lim < length (render_nat (Z.to_N (Z.abs z)))))
  | JArr xs => forallb (ints_ok lim) xs
  | JObj kvs => forallb (fun kv => ints_ok lim kv.2) kvs
  | _ => true
  end.

(** [json.dumps(v)]: the integer conversion raises on the first integer
    over the limit. *)
Definition py_dumps (lim : limits) (v : json) : outcome exn text :=
  if ints_ok lim v then Ok (dumps v) else Raise (ValueError int_max_msg).

(** [rows[0] if rows else None]. *)
Definition first_row (rows : list json) : option json :=
  match rows with [] => None | r :: _ => Some r end.

(** ** Lines 161-171 *)
Definition list_clients_vql (limit : text) : text :=
  txt "SELECT client_id, os_info.hostname AS hostname, " ++
  txt "os_info.system AS os, last_seen_at " ++
  txt "FROM clients() LIMIT " ++ limit.

Definition list_clients (lim : limits) (w : world) (config_path : option text) (limit : Z)
  : M (list json) :=
  l <~ lift (int_str lim limit) ;;
  run_vql lim w (list_clients_vql l) None config_path 600 1000.

(** ** Lines 174-189 *)
Definition push_artifact_vql : text := txt "SELECT artifact_set(definition=ArtifactYAML) FROM scope()".

Definition push_artifact (lim : limits) (w : world) (yaml_content : text) (config_path : option text)
  : M (option json) :=
  rows <~ run_vql lim w push_artifact_vql (Some [(txt "ArtifactYAML", yaml_content)]) config_path 600 1000 ;;
  iret (first_row rows).

(** ** Lines 192-202 *)
Definition delete_artifact_vql (name : text) : text :=
  jtxt "SELECT artifact_delete(name='" ++ name ++ jtxt "') FROM scope()".

Definition delete_artifact (lim : limits) (w : world) (name : text) (config_path : option text)
  : M (option json) :=
  rows <~ run_vql lim w (delete_artifact_vql name) None config_path 600 1000 ;;
  iret (first_row rows).

(** ** Lines 205-255 *)

(** [`name`=dict(k=json.dumps(v), ...)] for one artifact of [spec]. *)
Definition spec_part (lim : limits) (art_name : text) (params : list (text * json)) : outcome exn text :=
  param_strs <- omapM (fun kv => s <- py_dumps lim kv.2 ;; Ok (kv.1 ++ txt "=" ++ s)) params ;;
  Ok (txt "`" ++ art_name ++ txt "`=dict(" ++ PyStr.join (txt ", ") param_strs ++ txt ")").

(** The VQL text of lines 228-253.  [spec], [os] and the label lists are
    optional and skipped when empty, as [if spec:] and the like do. *)
Definition hunt_vql (lim : limits) (description : text) (artifacts : list json)
           (spec : option (list (text * list (text * json)))) (os : option text)
           (include_labels exclude_labels : option (list json)) : outcome exn text :=
  artifacts_json <- py_dumps lim (JArr artifacts) ;;
  let parts := [txt "description=" ++ dumps (JStr description); txt "artifacts=" ++ artifacts_json] in
  parts <- (match spec with
            | Some ((_ :: _) as sp) =>
                spec_parts <- omapM (fun ap => spec_part lim ap.1 ap.2) sp ;;
                Ok (parts ++ [txt "spec=dict(" ++ PyStr.join (txt ", ") spec_parts ++ txt ")"])
            | _ => Ok parts
            end) ;;
  let parts := match os with
               | Some ((_ :: _) as o) => parts ++ [txt "os=" ++ dumps (JStr o)]
               | _ => parts
               end in
  parts <- (match include_labels with
            | Some ((_ :: _) as l) => s <- py_dumps lim (JArr l) ;; Ok (parts ++ [txt "include_labels=" ++ s])
            | _ => Ok parts
            end) ;;
  parts <- (match exclude_labels with
            | Some ((_ :: _) as l) => s <- py_dumps lim (JArr l) ;; Ok (parts ++ [txt "exclude_labels=" ++ s])
            | _ => Ok parts
            end) ;;
  Ok (txt "SELECT hunt(" ++ PyStr.join (txt ", ") parts ++ txt ") AS Hunt FROM scope()").

Definition schedule_hunt (lim : limits) (w : world) (description : text) (artifacts : list json)
           (spec : option (list (text * list (text * json)))) (os : option text)
           (include_labels exclude_labels : option (list json)) (config_path : option text)
  : M (option json) :=
  vql <~ lift (hunt_vql lim description artifacts spec os include_labels exclude_labels) ;;
  rows <~ run_vql lim w vql None config_path 600 1000 ;;
  iret (first_row rows).

(** ** Lines 258-270 *)
Definition get_hunt_status_vql (hunt_id : text) : text :=
  txt "SELECT HuntId, stats.total_clients_scheduled AS scheduled, " ++
  txt "stats.total_clients_with_results AS results, state " ++
  jtxt "FROM hunts() WHERE HuntId = '" ++ hunt_id ++ jtxt "'".

Definition get_hunt_status (lim : limits) (w : world) (hunt_id : text) (config_path : option text)
  : M (option json) :=
  rows <~ run_vql lim w (get_hunt_status_vql hunt_id) None config_path 600 1000 ;;
  iret (first_row rows).

(** ** Lines 273-289 *)
Definition get_hunt_results_vql (hunt_id artifact limit : text) : text :=
  jtxt "SELECT * FROM hunt_results(hunt_id='" ++ hunt_id ++ jtxt "', " ++
  jtxt "artifact='" ++ artifact ++ jtxt "') LIMIT " ++ limit.

Definition get_hunt_results (lim : limits) (w : world) (hunt_id artifact : text) (limit : Z)
           (config_path : option text) : M (list json) :=
  l <~ lift (int_str lim limit) ;;
  run_vql lim w (get_hunt_results_vql hunt_id artifact l) None config_path 600 1000.

(** ** The query [schedule_hunt] sends, without the exceptions *)

(** The VQL text of lines 228-253 when no conversion raises. *)
Definition spec_text (sp : list (text * list (text * json))) : text :=
  txt "spec=dict(" ++
  PyStr.join (txt ", ")
    (map (fun ap => txt "`" ++ ap.1 ++ txt "`=dict(" ++
                    PyStr.join (txt ", ") (map (fun kv => kv.1 ++ txt "=" ++ dumps kv.2) ap.2) ++
                    txt ")") sp) ++ txt ")".

Definition hunt_text (description : text) (artifacts : list json)
           (spec : option (list (text * list (text * json)))) (os : option text)
           (include_labels exclude_labels : option (list json)) : text :=
  txt "SELECT hunt(" ++
  PyStr.join (txt ", ")
    ([txt "description=" ++ dumps (JStr description); txt "artifacts=" ++ dumps (JArr artifacts)] ++
     match spec with Some ((_ :: _) as sp) => [spec_text sp] | _ => [] end ++
     match os with Some ((_ :: _) as o) => [txt "os=" ++ dumps (JStr o)] | _ => [] end ++
     match include_labels with Some ((_ :: _) as l) => [txt "include_labels=" ++ dumps (JArr l)] | _ => [] end ++
     match exclude_labels with Some ((_ :: _) as l) => [txt "exclude_labels=" ++ dumps (JArr l)] | _ => [] end) ++
  txt ") AS Hunt FROM scope()".

(** The values [schedule_hunt] passes to [json.dumps], in order. *)
Definition hunt_values (artifacts : list json) (spec : option (list (text * list (text * json))))
           (include_labels exclude_labels : option (list json)) : list json :=
  JArr artifacts ::
  match spec with Some ((_ :: _) as sp) => flat_map (fun ap => map snd ap.2) sp | _ => [] end ++
  match include_labels with Some ((_ :: _) as l) => [JArr l] | _ => [] end ++
  match exclude_labels with Some ((_ :: _) as l) => [JArr l] | _ => [] end.

(** A character that sits between double quotes as it is: printable, not
    a quote, not a backslash ([escape_ascii] leaves it alone). *)
Definition plain (c : char) : Prop := (32 <= c <= 126 ∧ c ≠ 92 ∧ c ≠ 34)%N.

#[export] Instance plain_dec c : Decision (plain c).
Proof. unfold plain. apply _. Defined.

(** ** Lemmas *)

Lemma py_dumps_eq lim v :
  py_dumps lim v = if ints_ok lim v then Ok (dumps v) else Raise (ValueError int_max_msg).
Proof. reflexivity. Qed.

Lemma forallb_flat_map {A B} (g : B -> bool) (f : A -> list B) (l : list A) :
  forallb g (flat_map f l) = forallb (fun x => forallb g (f x)) l.
Proof. induction l as [|x l IH]; [done|]. simpl. by rewrite forallb_app, IH. Qed.

Lemma forallb_map_snd {A B} (g : B -> bool) (l : list (A * B)) :
  forallb g (map snd l) = forallb (fun kv => g kv.2) l.
Proof. induction l as [|x l IH]; [done|]. simpl. by rewrite IH. Qed.

Lemma spec_part_eq lim art_name params :
  spec_part lim art_name params =
  if forallb (fun kv => ints_ok lim kv.2) params
  then Ok (txt "`" ++ art_name ++ txt "`=dict(" ++
           PyStr.join (txt ", ") (map (fun kv => kv.1 ++ txt "=" ++ dumps kv.2) params) ++ txt ")")
  else Raise (ValueError int_max_msg).
Proof.
  unfold spec_part.
  rewrite (omapM_guarded (fun kv => ints_ok lim kv.2) (fun kv => kv.1 ++ txt "=" ++ dumps kv.2)
                         (ValueError int_max_msg))
    by (intros kv; rewrite py_dumps_eq; by destruct (ints_ok lim kv.2)).
  by destruct (forallb _ _).
Qed.

Lemma spec_parts_eq lim sp :
  omapM (fun ap => spec_part lim ap.1 ap.2) sp =
  if forallb (ints_ok lim) (flat_map (fun ap => map snd ap.2) sp)
  then Ok (map (fun ap => txt "`" ++ ap.1 ++ txt "`=dict(" ++
                    PyStr.join (txt ", ") (map (fun kv => kv.1 ++ txt "=" ++ dumps kv.2) ap.2) ++
                    txt ")") sp)
  else Raise (ValueError int_max_msg).
Proof.
  rewrite forallb_flat_map.
  erewrite (omapM_guarded (fun ap => forallb (ints_ok lim) (map snd ap.2)) _ (ValueError int_max_msg));
    [reflexivity|].
  intros ap. rewrite spec_part_eq, forallb_map_snd. reflexivity.
Qed.

(** [hunt_vql] is the reference text, or [ValueError] when one of the
    values [json.dumps] converts has an integer over the digit limit. *)
Lemma hunt_vql_eq lim d arts spec os il el :
  hunt_vql lim d arts spec os il el =
  if forallb (ints_ok lim) (hunt_values arts spec il el)
  then Ok (hunt_text d arts spec os il el) else Raise (ValueError int_max_msg).
Proof.
  unfold hunt_vql, hunt_text, hunt_values. rewrite py_dumps_eq. cbn [forallb].
  destruct (ints_ok lim (JArr arts)); [|reflexivity]. rewrite obind_ok, andb_true_l.
  destruct spec as [[|ap sp]|];
    [| rewrite spec_parts_eq, forallb_app; destruct (forallb _ (flat_map _ _)); [|reflexivity] |];
    rewrite ?obind_ok; cbn [app forallb andb];
    (destruct il as [[|i il]|]; cbn [app forallb andb];
     [| rewrite py_dumps_eq; destruct (ints_ok lim (JArr _)); [|reflexivity] |]);
    rewrite ?obind_ok; cbn [app forallb andb];
    (destruct el as [[|x el]|]; cbn [app forallb andb];
     [| rewrite py_dumps_eq; destruct (ints_ok lim (JArr _)); [|reflexivity] |]);
    rewrite ?obind_ok; cbn [app forallb andb]; destruct os as [[|o os]|]; reflexivity.
Qed.

(** A run of plain characters between double quotes is the JSON literal of
    the run. *)
Lemma plain_quoted (a : text) : Forall plain a -> dumps (JStr a) = 34%N :: a ++ [34%N].
Proof.
  intros Ha. cbn [dumps]. unfold encode_ascii. cbn [app]. f_equal. f_equal.
  induction Ha as [|c a Hc _ IH]; [done|]. simpl. rewrite IH.
  unfold escape_ascii. by rewrite bool_decide_true.
Qed.

(** ** Theorems *)

(** C17. Whatever the description holds (quotes, backslashes, newlines,
    characters outside ASCII), it reaches the server as one string literal:
    the query starts with [SELECT hunt(description=] and the literal that
    follows reads back as the description, ending where the artifacts
    begin; the artifact list, a well-formed batch of values, reads back in
    the same way and is followed by the rest of the query. *)
Theorem hunt_vql_literals lim d arts spec os il el vql :
  Forall scalar d -> batch_ok lim arts ->
  hunt_vql lim d arts spec os il el = Ok vql ->
  ∃ rest,
    vql = txt "SELECT hunt(" ++ txt "description=" ++ dumps (JStr d) ++ txt ", " ++
          txt "artifacts=" ++ dumps (JArr arts) ++ rest ∧
    raw_decode lim (dumps (JStr d) ++ txt ", " ++ txt "artifacts=" ++ dumps (JArr arts) ++ rest) =
      Ok (JStr d, txt ", " ++ txt "artifacts=" ++ dumps (JArr arts) ++ rest) ∧
    raw_decode lim (dumps (JArr arts) ++ rest) = Ok (JArr arts, rest).
Proof.
  intros Hd (Hok & Hs & Hdep) Hv. rewrite hunt_vql_eq in Hv.
  destruct (forallb _ _); [|done]. injection Hv as <-. unfold hunt_text. cbn [app].
  rewrite !join_cons_app. eexists. split; [by rewrite <-!app_assoc|].
  split; apply raw_decode_dumps; simpl; auto with lia.
Qed.

(** C18. A double quote in the name ends the literal: the query holds the
    literal of the part before the quote, and the rest of the name follows
    it as query text. *)
Theorem delete_artifact_quote_breaks_out lim a b :
  Forall plain a ->
  delete_artifact_vql (a ++ 34%N :: b) =
    txt "SELECT artifact_delete(name=" ++ dumps (JStr a) ++ b ++ jtxt "') FROM scope()" ∧
  raw_decode lim (dumps (JStr a) ++ b ++ jtxt "') FROM scope()") = Ok (JStr a, b ++ jtxt "') FROM scope()").
Proof.
  intros Ha. split.
  - rewrite plain_quoted by done. unfold delete_artifact_vql. simpl. by rewrite <-!app_assoc.
  - apply raw_decode_dumps; simpl; auto with lia.
    eapply Forall_impl; [|exact Ha]. intros c Hc. unfold plain, scalar in *. lia.
Qed.

(** ** Witnesses *)

Lemma hunt_vql_literals_witness :
  ∃ rest,
    hunt_text (jtxt "say 'hi' \ bye") [JStr (txt "Generic.Client.Info")]
      (Some [(txt "Generic.Client.Info", [(txt "n", JInt 3)])]) None None None =
    txt "SELECT hunt(" ++ txt "description=" ++ dumps (JStr (jtxt "say 'hi' \ bye")) ++ txt ", " ++
    txt "artifacts=" ++ dumps (JArr [JStr (txt "Generic.Client.Info")]) ++ rest.
Proof.
  assert (Hd : Forall scalar (jtxt "say 'hi' \ bye")) by decide_vm.
  assert (Hb : batch_ok default_limits [JStr (txt "Generic.Client.Info")]).
  { unfold batch_ok. simpl. repeat split; first [lia | decide_vm]. }
  assert (Hv : hunt_vql default_limits (jtxt "say 'hi' \ bye") [JStr (txt "Generic.Client.Info")]
      (Some [(txt "Generic.Client.Info", [(txt "n", JInt 3)])]) None None None =
    Ok (hunt_text (jtxt "say 'hi' \ bye") [JStr (txt "Generic.Client.Info")]
      (Some [(txt "Generic.Client.Info", [(txt "n", JInt 3)])]) None None None)) by (vm_compute; reflexivity).
  destruct (hunt_vql_literals _ _ _ _ _ _ _ _ Hd Hb Hv) as (rest & Heq & _).
  exists rest. exact Heq.
Defined.

(** The name [x") FROM scope() WHERE artifact_delete(name="Windows.System.Pslist]
    deletes a second artifact: the text after the quote is query text. *)
Lemma delete_artifact_quote_breaks_out_witness :
  delete_artifact_vql (txt "x" ++ 34%N :: jtxt ") FROM scope() WHERE artifact_delete(name='Windows.System.Pslist") =
    txt "SELECT artifact_delete(name=" ++ dumps (JStr (txt "x")) ++
    jtxt ") FROM scope() WHERE artifact_delete(name='Windows.System.Pslist" ++ jtxt "') FROM scope()" ∧
  raw_decode default_limits (dumps (JStr (txt "x")) ++
    jtxt ") FROM scope() WHERE artifact_delete(name='Windows.System.Pslist" ++ jtxt "') FROM scope()") =
  Ok (JStr (txt "x"), jtxt ") FROM scope() WHERE artifact_delete(name='Windows.System.Pslist" ++ jtxt "') FROM scope()").
Proof. apply delete_artifact_quote_breaks_out. decide_vm. Defined.

End Queries.
