(* ===== verification/Report.v ===== *)
(** * The summary printer of summarize_results.py: [print_summary] and
    [main] (src/scripts/summarize_results.py, lines 70-185)

    [print_summary] prints the row and error counts; with rows, it collects
    the column names ([r.keys()] of every row), then prints, as the flags
    ask, the sorted visible and hidden columns, a count per distinct value
    of each [--group-by] column ([Counter.most_common]), the sorted distinct
    values of each [--unique] column (25 at most), [--sample] rows as
    indented JSON without their hidden columns, and the error lines (20 at
    most).  [main] reads the file or stdin, parses it with
    [parse_velo_output] and prints the summary.

    Printing is the list of strings passed to [print], in order, each
    followed on the terminal by a newline.  [argparse] itself is not
    modelled: [args] is the namespace it returns.  [str()] of a float, a
    list or a dict (Python's [repr]) is a parameter [repr_other] of the
    section: the theorems hold whatever text it gives.  The integers of the
    rows come from [json.loads] under the same digit limit, so [str()] of
    them does not raise and is their decimal text. *)

From Stdlib Require Import NArith ZArith String Lia.
From stdpp Require Import base list decidable sorting sets.
From S2P Require Import Prelude PyStr Json Dumps Summarize Recovery.

Module Report.
Import Json Dumps Summarize Recovery.

(** ** Data *)

(** The [argparse.Namespace] of lines 139-176.  [--group-by] and
    [--unique] use [action="append"]: [None] when the option is absent. *)
Record args := {
  file : text;
  group_by : option (list text);
  unique : option (list text);
  sample : Z;
  show_errors : bool;   (** [args.errors] *)
  columns : bool
}.

(** The exception [print_summary] can raise: [r.keys()] on a row that is
    not a dict. *)
Inductive rexn : Type :=
| AttributeError (msg : text).

(** What [print] was called with, and the outcome. *)
Definition R (A : Type) : Type := io text rexn A.

Definition print (s : text) : R unit := emit s.

(** [for l in ls: print(l)]. *)
Fixpoint print_all (ls : list text) : R unit :=
  match ls with
  | [] => iret tt
  | l :: r => print l ;;; print_all r
  end.

(** [f"{n}"] for a length or a count. *)
Definition str_nat (n : nat) : text := render_nat (N.of_nat n).

(** ** Python builtins on the rows *)

(** [type(v).__name__]. *)
Definition py_type_name (v : json) : text :=
  match v with
  | JNull => txt "NoneType" | JBool _ => txt "bool" | JInt _ => txt "int"
  | JFloat _ => txt "float" | JStr _ => txt "str" | JArr _ => txt "list" | JObj _ => txt "dict"
  end.

(** [r.keys()]: a dict's keys in order; on anything else [AttributeError]. *)
Definition row_keys (r : json) : outcome rexn (list text) :=
  match r with
  | JObj kvs => Ok (map fst kvs)
  | _ => Raise (AttributeError (txt "'" ++ py_type_name r ++ txt "' object has no attribute 'keys'"))
  end.

(** [d.get(k)] on the items of a dict. *)
Fixpoint dict_get (k : text) (kvs : list (text * json)) : option json :=
  match kvs with
  | [] => None
  | kv :: r => if bool_decide (kv.1 = k) then Some kv.2 else dict_get k r
  end.

(** [r.get(col, "")]. *)
Definition row_get (r : json) (col : text) : json :=
  match r with
  | JObj kvs => default (JStr []) (dict_get col kvs)
  | _ => JStr []
  end.

(** Python's ordering of [str]: code points, lexicographically. *)
Fixpoint str_leb (a b : text) : bool :=
  match a, b with
  | [], _ => true
  | _ :: _, [] => false
  | x :: a', y :: b' =>
      if bool_decide (x < y)%N then true
      else if bool_decide (x = y) then str_leb a' b' else false
  end.

Definition str_le (a b : text) : Prop := str_leb a b = true.

#[export] Instance str_le_dec : RelDecision str_le.
Proof. intros a b. unfold str_le. apply _. Defined.

(** [sorted(set(l))]. *)
Definition sorted_set (l : list text) : list text := merge_sort str_le (remove_dups l).

(** [collections.Counter(ks)]: the counts in order of first occurrence. *)
Fixpoint counter_add (c : list (text * nat)) (k : text) : list (text * nat) :=
  match c with
  | [] => [(k, 1)]
  | kn :: r => if bool_decide (kn.1 = k) then (kn.1, S kn.2) :: r else kn :: counter_add r k
  end.

Definition counter (ks : list text) : list (text * nat) := fold_left counter_add ks [].

(** [Counter.most_common()]: [sorted(items, key=count, reverse=True)],
    which is stable: equal counts keep the order of first occurrence. *)
Fixpoint insert_count (x : text * nat) (l : list (text * nat)) : list (text * nat) :=
  match l with
  | [] => [x]
  | y :: r => if bool_decide (y.2 < x.2) then x :: l else y :: insert_count x r
  end.

Definition most_common (c : list (text * nat)) : list (text * nat) :=
  fold_left (fun acc x => insert_count x acc) c [].

Section Str.
(** [str()] of a float, a list or a dict. *)
Context (repr_other : json -> text).

(** [str(v)]. *)
Definition py_str (v : json) : text :=
  match v with
  | JNull => txt "None"
  | JBool b => if b then txt "True" else txt "False"
  | JInt z => render_int z
  | JStr s => s
  | _ => repr_other v
  end.

(** ** The parts of [print_summary] *)

(** Lines 72-73. *)
Definition header_lines (rows : list json) (errors : list text) : list text :=
  [txt "Rows: " ++ str_nat (length rows); txt "Errors: " ++ str_nat (length errors)].

(** [c.startswith("_")]. *)
Definition is_hidden (c : text) : bool := PyStr.startswith c (txt "_").

(** Lines 86-92. *)
Definition columns_lines (all_cols : list text) : list text :=
  let visible_cols := merge_sort str_le (filter (fun c => negb (is_hidden c)) all_cols) in
  let hidden_cols := merge_sort str_le (filter is_hidden all_cols) in
  ([10%N] ++ txt "Columns: " ++ PyStr.join (txt ", ") visible_cols) ::
  (if bool_decide (hidden_cols ≠ []) then [txt "Hidden:  " ++ PyStr.join (txt ", ") hidden_cols] else []).

(** [val if len(val) <= n else val[:n-3] + "..."] (lines 102 and 114). *)
Definition label (n : nat) (v : text) : text :=
  if bool_decide (length v <= n) then v else take (n - 3) v ++ txt "...".

(** The [str] of a column's value in every row. *)
Definition column_values (rows : list json) (col : text) : list text :=
  map (fun r => py_str (row_get r col)) rows.

(** Lines 95-103: one [--group-by] column. *)
Definition group_by_lines (rows : list json) (all_cols : list text) (col : text) : list text :=
  if bool_decide (col ∈ all_cols) then
    ([10%N] ++ txt "Group by " ++ col ++ txt ":") ::
    map (fun vc => txt "  " ++ label 80 vc.1 ++ txt ": " ++ str_nat vc.2)
        (most_common (counter (column_values rows col)))
  else [[10%N] ++ txt "--group-by " ++ col ++ txt ": column not found"].

(** Lines 106-117: one [--unique] column. *)
Definition unique_lines (rows : list json) (all_cols : list text) (col : text) : list text :=
  if bool_decide (col ∈ all_cols) then
    let values := sorted_set (column_values rows col) in
    ([10%N] ++ txt "Unique " ++ col ++ txt " (" ++ str_nat (length values) ++ txt "):") ::
    map (fun v => txt "  " ++ label 100 v) (take 25 values) ++
    (if bool_decide (25 < length values)
     then [txt "  ... and " ++ str_nat (length values - 25) ++ txt " more"] else [])
  else [[10%N] ++ txt "--unique " ++ col ++ txt ": column not found"].

(** [{k: v for k, v in r.items() if not k.startswith("_")}]. *)
Definition visible_row (r : json) : json :=
  match r with
  | JObj kvs => JObj (filter (fun kv => negb (is_hidden kv.1)) kvs)
  | _ => r
  end.

(** Lines 120-126. *)
Definition sample_lines (rows : list json) (n_sample : Z) : list text :=
  if bool_decide (0 < n_sample)%Z then
    let n := Nat.min (Z.to_nat n_sample) (length rows) in
    ([10%N] ++ txt "Sample (" ++ str_nat n ++ txt " of " ++ str_nat (length rows) ++ txt "):") ::
    map (fun r => dumps_indent 0 (visible_row r)) (take n rows)
  else [].

(** Lines 129-135. *)
Definition error_tail_lines (errors : list text) (show : bool) : list text :=
  if bool_decide (errors ≠ []) && show then
    ([10%N] ++ txt "Error details (" ++ str_nat (length errors) ++ txt "):") ::
    map (fun e => txt "  " ++ e) (take 20 errors) ++
    (if bool_decide (20 < length errors)
     then [txt "  ... and " ++ str_nat (length errors - 20) ++ txt " more"] else [])
  else [].

(** [print_summary(rows, errors, args)] (lines 70-135). *)
Definition print_summary (rows : list json) (errors : list text) (a : args) : R unit :=
  print_all (header_lines rows errors) ;;;
  match rows with
  | [] =>
      print_all (if bool_decide (errors ≠ []) && show_errors a
                 then ([10%N] ++ txt "Error details:") :: map (fun e => txt "  " ++ e) errors
                 else [])
  | _ =>
      cols <~ lift (omapM row_keys rows) ;;
      let all_cols := remove_dups (concat cols) in
      print_all (if columns a then columns_lines all_cols else []) ;;;
      print_all (flat_map (group_by_lines rows all_cols) (default [] (group_by a))) ;;;
      print_all (flat_map (unique_lines rows all_cols) (default [] (unique a))) ;;;
      print_all (sample_lines rows (sample a)) ;;;
      print_all (error_tail_lines errors (show_errors a))
  end.

(** ** [main] (lines 138-185), after [parser.parse_args()] *)

(** Standard input, and [open(path).read()]: the text or the message of
    the [OSError] (or [UnicodeDecodeError]) it raises. *)
Record fs := {
  stdin : text;
  read_file : text -> outcome text text
}.

Inductive main_exn : Type :=
| ReadError (msg : text)      (** reading the input failed *)
| ParseError (e : jerr)       (** escaped [parse_velo_output] *)
| SummaryError (e : rexn).    (** escaped [print_summary] *)

Definition map_err {E F A} (f : E -> F) (m : outcome E A) : outcome F A :=
  match m with Ok a => Ok a | Raise e => Raise (f e) end.

Definition main (lim : limits) (w : fs) (a : args) : io text main_exn unit :=
  t <~ lift (if bool_decide (file a = txt "-") then Ok (stdin w)
             else map_err ReadError (read_file w (file a))) ;;
  p <~ lift (map_err ParseError (parse_velo_output lim t)) ;;
  let '(rows, errors) := p in
  let '(out, r) := print_summary rows errors a in
  (out, map_err SummaryError r).


(** ** What the theorems speak of *)

(** The count [Counter] holds for a key: the first entry's. *)
Fixpoint count_in (c : list (text * nat)) (k : text) : nat :=
  match c with
  | [] => 0
  | kn :: r => if bool_decide (kn.1 = k) then kn.2 else count_in r k
  end.

Definition occurrences (ks : list text) (k : text) : nat := length (filter (fun x => x = k) ks).

Definition by_count (x y : text * nat) : Prop := y.2 <= x.2.

Definition is_dict (r : json) : Prop := ∃ kvs, r = JObj kvs.

Definition dict_keys (r : json) : list text := match r with JObj kvs => map fst kvs | _ => [] end.

(** ** Lemmas *)

Lemma print_all_eq ls : print_all ls = (ls, Ok tt).
Proof.
  induction ls as [|l ls IH]; [reflexivity|]. simpl. rewrite IH. reflexivity.
Qed.

(** *** The order of [str] *)

Lemma str_leb_total a b : str_leb a b = true ∨ str_leb b a = true.
Proof.
  revert b. induction a as [|x a IH]; intros [|y b]; simpl; auto.
  repeat case_bool_decide; subst; auto; lia.
Qed.

Lemma str_leb_trans a b c : str_leb a b = true -> str_leb b c = true -> str_leb a c = true.
Proof.
  revert b c. induction a as [|x a IH]; intros [|y b] [|z c]; simpl; auto; try discriminate.
  repeat case_bool_decide; subst; try lia; eauto.
Qed.

#[export] Instance str_le_total : Total str_le.
Proof. intros a b. apply str_leb_total. Qed.

#[export] Instance str_le_trans : Transitive str_le.
Proof. intros a b c. apply str_leb_trans. Qed.

(** [sorted(set(l))]: once each, in order, the elements of [l]. *)
Lemma sorted_set_spec l :
  NoDup (sorted_set l) ∧ StronglySorted str_le (sorted_set l) ∧ (∀ v, v ∈ sorted_set l ↔ v ∈ l).
Proof.
  unfold sorted_set. pose proof (merge_sort_Permutation str_le (remove_dups l)) as Hp.
  split; [|split].
  - rewrite Hp. apply NoDup_remove_dups.
  - apply StronglySorted_merge_sort; [exact str_le_trans | exact str_le_total].
  - intros v. rewrite Hp. apply elem_of_remove_dups.
Qed.

(** *** [Counter] *)

Lemma count_in_add c k k' :
  count_in (counter_add c k) k' = if bool_decide (k = k') then S (count_in c k') else count_in c k'.
Proof.
  induction c as [|[k0 n] c IH]; cbn [count_in counter_add fst snd]; [by repeat case_bool_decide|].
  repeat (case_bool_decide; cbn [count_in fst snd] in *; subst); try done; congruence.
Qed.

Lemma keys_add c k : ∀ k', k' ∈ map fst (counter_add c k) ↔ k' = k ∨ k' ∈ map fst c.
Proof.
  induction c as [|[k0 n] c IH]; intros k'; cbn [counter_add fst snd]; [set_solver|].
  case_bool_decide; subst; rewrite !map_cons; cbn [fst]; [set_solver|]. rewrite !elem_of_cons, IH. naive_solver.
Qed.

Lemma nodup_add c k : NoDup (map fst c) -> NoDup (map fst (counter_add c k)).
Proof.
  induction c as [|[k0 n] c IH]; intros Hc; cbn [counter_add fst snd]; [constructor; [set_solver|constructor]|].
  rewrite map_cons in Hc. apply NoDup_cons in Hc as [Hk0 Hc].
  case_bool_decide; subst; rewrite map_cons; cbn [fst] in *; [by constructor|].
  constructor; [|by apply IH]. rewrite keys_add. set_solver.
Qed.

Lemma pos_add c k : Forall (fun kn => 0 < kn.2) c -> Forall (fun kn => 0 < kn.2) (counter_add c k).
Proof.
  induction c as [|[k0 n] c IH]; intros Hc; simpl; [repeat constructor; simpl; lia|].
  apply Forall_cons in Hc as [Hn Hc]. case_bool_decide; constructor; simpl in *; auto with lia.
Qed.

Lemma sum_add c k : sum_list (map snd (counter_add c k)) = S (sum_list (map snd c)).
Proof.
  induction c as [|[k0 n] c IH]; simpl; [lia|]. case_bool_decide; simpl; lia.
Qed.

(** In a list of distinct keys, an entry is the first one of its key. *)
Lemma count_in_elem c k n : NoDup (map fst c) -> ((k, n) ∈ c ↔ k ∈ map fst c ∧ count_in c k = n).
Proof.
  induction c as [|[k0 n0] c IH]; intros Hc; [set_solver|].
  rewrite map_cons in Hc |- *. apply NoDup_cons in Hc as [Hk0 Hc]. cbn [count_in fst snd] in *.
  rewrite !elem_of_cons, IH by done.
  case_bool_decide; subst.
  - split; [intros [[=]|[Hk _]]; subst; [set_solver|contradiction]|].
    intros [_ ->]. by left.
  - split; [intros [[=]|[Hk Hn]]; [congruence|set_solver]|]. intros [[->|Hk] Hn]; [congruence|]. by right.
Qed.

(** The invariant of the [Counter] loop: distinct keys, each counted as
    often as it occurs, all counts positive, and the counts sum to the
    number of keys. *)
Lemma counter_loop ks c :
  NoDup (map fst c) -> Forall (fun kn => 0 < kn.2) c ->
  let c' := fold_left counter_add ks c in
  NoDup (map fst c') ∧ Forall (fun kn => 0 < kn.2) c' ∧
  (∀ k, count_in c' k = count_in c k + occurrences ks k) ∧
  (∀ k, k ∈ map fst c' ↔ k ∈ map fst c ∨ k ∈ ks) ∧
  sum_list (map snd c') = sum_list (map snd c) + length ks.
Proof.
  revert c. induction ks as [|k ks IH]; intros c Hd Hp; simpl.
  - split_and!; auto with lia. set_solver.
  - destruct (IH (counter_add c k)) as (H1 & H2 & H3 & H4 & H5);
      [by apply nodup_add | by apply pos_add |].
    split_and!; auto.
    + intros k'. rewrite H3, count_in_add. unfold occurrences. rewrite filter_cons.
      case_bool_decide; case_decide; cbn [length]; subst; try lia; congruence.
    + intros k'. rewrite H4, keys_add. set_solver.
    + rewrite H5, sum_add. lia.
Qed.

Lemma counter_spec ks :
  NoDup (map fst (counter ks)) ∧
  (∀ k n, (k, n) ∈ counter ks ↔ k ∈ ks ∧ n = occurrences ks k) ∧
  sum_list (map snd (counter ks)) = length ks.
Proof.
  destruct (counter_loop ks [] ltac:(constructor) ltac:(constructor)) as (H1 & H2 & H3 & H4 & H5).
  fold (counter ks) in *. split_and!; [done| |done].
  intros k n. rewrite count_in_elem, H4, H3 by done. simpl. set_solver.
Qed.

(** *** [most_common] *)

Lemma insert_count_perm x l : insert_count x l ≡ₚ x :: l.
Proof.
  induction l as [|y l IH]; simpl; [done|]. case_bool_decide; [done|].
  rewrite IH. constructor.
Qed.

Lemma insert_count_sorted x l : Sorted by_count l -> Sorted by_count (insert_count x l).
Proof.
  induction 1 as [|y l Hl IH Hy]; simpl; [by repeat constructor|].
  case_bool_decide as Hxy; [constructor; [by constructor|]; constructor; unfold by_count; lia|].
  constructor; [done|]. destruct l as [|z l]; simpl in *; [constructor; unfold by_count; lia|].
  inversion Hy; subst. case_bool_decide; constructor; unfold by_count in *; lia.
Qed.

Lemma most_common_loop c acc :
  Sorted by_count acc ->
  fold_left (fun acc x => insert_count x acc) c acc ≡ₚ acc ++ c ∧
  Sorted by_count (fold_left (fun acc x => insert_count x acc) c acc).
Proof.
  revert acc. induction c as [|x c IH]; intros acc Hs; simpl; [by rewrite app_nil_r|].
  destruct (IH (insert_count x acc)) as [Hp Hs']; [by apply insert_count_sorted|].
  split; [|done]. rewrite Hp, insert_count_perm. simpl. by rewrite Permutation_middle.
Qed.

Lemma most_common_spec c : most_common c ≡ₚ c ∧ Sorted by_count (most_common c).
Proof. apply (most_common_loop c []). constructor. Qed.

(** *** [print_summary] *)

Lemma ibind_print_all {A} ls (k : unit -> R A) :
  ibind (print_all ls) k = (ls ++ (k tt).1, (k tt).2).
Proof. rewrite print_all_eq. unfold ibind. by destruct (k tt). Qed.

Lemma omapM_row_keys rows : Forall is_dict rows -> omapM row_keys rows = Ok (map dict_keys rows).
Proof. induction 1 as [|r rows [kvs ->] _ IH]; [done|]. simpl. by rewrite IH. Qed.

Lemma elem_of_concat_map (f : json -> list text) rows c :
  c ∈ concat (map f rows) ↔ ∃ r, r ∈ rows ∧ c ∈ f r.
Proof.
  induction rows as [|r rows IH]; simpl; [set_solver|]. rewrite elem_of_app, IH. set_solver.
Qed.

(** With rows that are all dicts, [print_summary] prints its sections in
    the order of the code and returns normally. *)
Lemma print_summary_dicts r rs errors a :
  Forall is_dict (r :: rs) ->
  let all_cols := remove_dups (concat (map dict_keys (r :: rs))) in
  print_summary (r :: rs) errors a =
  (header_lines (r :: rs) errors ++ (if columns a then columns_lines all_cols else []) ++
   flat_map (group_by_lines (r :: rs) all_cols) (default [] (group_by a)) ++
   flat_map (unique_lines (r :: rs) all_cols) (default [] (unique a)) ++
   sample_lines (r :: rs) (sample a) ++ error_tail_lines errors (show_errors a), Ok tt).
Proof.
  intros Hd all_cols. unfold print_summary. rewrite ibind_print_all. cbn beta iota.
  rewrite ibind_lift, omapM_row_keys by done. rewrite !ibind_print_all, print_all_eq. reflexivity.
Qed.

(** [sorted(c for c in cols if p(c))] over distinct [cols]. *)
Lemma sorted_filter_spec (p : text -> bool) cols :
  NoDup cols ->
  NoDup (merge_sort str_le (filter p cols)) ∧ StronglySorted str_le (merge_sort str_le (filter p cols)) ∧
  (∀ c, c ∈ merge_sort str_le (filter p cols) ↔ c ∈ cols ∧ p c = true).
Proof.
  intros Hn. pose proof (merge_sort_Permutation str_le (filter p cols)) as Hp. split_and!.
  - rewrite Hp. by apply NoDup_filter.
  - apply StronglySorted_merge_sort; [exact str_le_trans | exact str_le_total].
  - intros c. rewrite Hp, list_elem_of_filter, Is_true_true. tauto.
Qed.

Lemma perm_counts (l l' : list (text * nat)) :
  l ≡ₚ l' -> (NoDup (map fst l) ↔ NoDup (map fst l')) ∧ sum_list (map snd l) = sum_list (map snd l').
Proof.
  intros Hp. split.
  - by rewrite (Permutation_map fst Hp).
  - induction Hp; simpl; lia.
Qed.

Lemma label_length n v : 3 <= n -> length (label n v) <= n ∧ (length v <= n -> label n v = v).
Proof.
  intros Hn. unfold label. case_bool_decide; [done|]. split; [|lia].
  rewrite length_app, length_take. simpl. lia.
Qed.

(** ** Theorems *)

(** [r.keys()] on a row that is not a dict raises [AttributeError] after
    the header, whatever the other rows are. *)
Lemma print_summary_raise rows errors a r :
  r ∈ rows -> ¬ is_dict r ->
  ∃ msg, print_summary rows errors a = (header_lines rows errors, Raise (AttributeError msg)).
Proof.
  intros Hr Hnd. destruct rows as [|r0 rs]; [set_solver|].
  destruct (omapM_raise row_keys r (r0 :: rs)) as [[msg] He].
  - by apply list_elem_of_In.
  - destruct r; try (eexists; reflexivity). destruct Hnd. by eexists.
  - exists msg. unfold print_summary. rewrite ibind_print_all. cbn beta iota.
    rewrite ibind_lift, He. reflexivity.
Qed.

(** C19. [--group-by COL] prints, after its header, one line per distinct
    [str] value of the column, each value once, with its number of rows,
    most frequent first; the counts add up to the number of rows. *)
Theorem group_by_counts rows all_cols col :
  col ∈ all_cols ->
  let vals := column_values rows col in
  ∃ mc, group_by_lines rows all_cols col =
        ([10%N] ++ txt "Group by " ++ col ++ txt ":") ::
        map (fun vc => txt "  " ++ label 80 vc.1 ++ txt ": " ++ str_nat vc.2) mc ∧
        NoDup (map fst mc) ∧
        (∀ v n, (v, n) ∈ mc ↔ v ∈ vals ∧ n = occurrences vals v) ∧
        Sorted by_count mc ∧
        sum_list (map snd mc) = length rows.
Proof.
  intros Hc vals. destruct (counter_spec vals) as (Hd & Hm & Hs).
  destruct (most_common_spec (counter vals)) as [Hp Hsort].
  destruct (perm_counts _ _ Hp) as [Hnd Hsum].
  exists (most_common (counter vals)). split_and!; [| by apply Hnd | | done |].
  - unfold group_by_lines. by rewrite bool_decide_true.
  - intros v n. rewrite Hp. apply Hm.
  - rewrite Hsum, Hs. apply length_map.
Qed.

(** C23. [--unique COL] prints the number of distinct [str] values of the
    column, then the first 25 of them in Python's string order, each once
    and cut to at most 100 characters, then how many were left out. *)
Theorem unique_lines_spec rows all_cols col :
  col ∈ all_cols ->
  let vals := column_values rows col in
  ∃ values, unique_lines rows all_cols col =
        ([10%N] ++ txt "Unique " ++ col ++ txt " (" ++ str_nat (length values) ++ txt "):") ::
        map (fun v => txt "  " ++ label 100 v) (take 25 values) ++
        (if bool_decide (25 < length values)
         then [txt "  ... and " ++ str_nat (length values - 25) ++ txt " more"] else []) ∧
        NoDup values ∧ StronglySorted str_le values ∧ (∀ v, v ∈ values ↔ v ∈ vals) ∧
        Forall (fun v => length (label 100 v) <= 100) values.
Proof.
  intros Hc vals. destruct (sorted_set_spec vals) as (Hd & Hs & Hm).
  exists (sorted_set vals). split_and!; try done.
  - unfold unique_lines. by rewrite bool_decide_true.
  - apply Forall_forall. intros v _. apply label_length. lia.
Qed.

(** C21. A row that is not a JSON object (an element of an array of
    scalars, say) makes [print_summary] raise [AttributeError] from
    [r.keys()] right after the two count lines: nothing else is printed. *)
Theorem print_summary_non_dict rows errors a r :
  r ∈ rows -> ¬ is_dict r ->
  ∃ msg, print_summary rows errors a = (header_lines rows errors, Raise (AttributeError msg)).
Proof. apply print_summary_raise. Qed.

(** C20. With [--columns] and rows that are all objects, the line after the
    counts lists the visible columns: every key of some row that does not
    start with an underscore, once each, in Python's string order. *)
Theorem print_summary_columns rows errors a :
  rows ≠ [] -> columns a = true -> Forall is_dict rows ->
  ∃ vis rest,
    print_summary rows errors a =
      (header_lines rows errors ++ ([10%N] ++ txt "Columns: " ++ PyStr.join (txt ", ") vis) :: rest, Ok tt) ∧
    NoDup vis ∧ StronglySorted str_le vis ∧
    (∀ c, c ∈ vis ↔ (∃ r, r ∈ rows ∧ c ∈ dict_keys r) ∧ is_hidden c = false).
Proof.
  intros Hne Hcol Hd. destruct rows as [|r rs]; [done|].
  rewrite print_summary_dicts by done. rewrite Hcol. unfold columns_lines. cbn zeta.
  destruct (sorted_filter_spec (fun c => negb (is_hidden c)) (remove_dups (concat (map dict_keys (r :: rs)))))
    as (Hn & Hs & Hm); [apply NoDup_remove_dups|].
  eexists _, _. split; [reflexivity|]. split_and!; [done|done|].
  intros c. rewrite Hm, elem_of_remove_dups, elem_of_concat_map, negb_true_iff. done.
Qed.

(** C22. [main] composed with the parser: when the saved output read from
    stdin is made of error lines and [json.dumps] arrays and one of the rows
    is not a JSON object, the script prints the two count lines of all the
    rows and errors, and stops with the [AttributeError] of [r.keys()]. *)
Theorem main_non_object_row lim w a ls r :
  file a = txt "-" -> stdin w = PyStr.join [10%N] (map out_text ls) -> Forall (out_ok lim) ls ->
  r ∈ concat (out_batches ls) -> ¬ is_dict r ->
  ∃ msg, main lim w a = (header_lines (concat (out_batches ls)) (out_errors ls),
                         Raise (SummaryError (AttributeError msg))).
Proof.
  intros Hf Hs Hls Hr Hnd. unfold main. rewrite Hf, bool_decide_true by done.
  rewrite ibind_lift, Hs, parse_out_lines by done. cbn [map_err]. rewrite ibind_lift.
  destruct (print_summary_raise (concat (out_batches ls)) (out_errors ls) a r Hr Hnd) as [msg ->].
  by exists msg.
Qed.

End Str.

(** ** Witnesses, at a [str] of floats and containers that they never use *)

Lemma group_by_counts_witness :
  ∃ mc, group_by_lines (fun _ : json => []) [JObj [(txt "k", JStr (txt "b"))]; JObj [(txt "k", JStr (txt "a"))];
                        JObj [(txt "k", JStr (txt "b"))]] [txt "k"] (txt "k") =
        ([10%N] ++ txt "Group by " ++ txt "k" ++ txt ":") ::
        map (fun vc => txt "  " ++ label 80 vc.1 ++ txt ": " ++ str_nat vc.2) mc ∧
        sum_list (map snd mc) = 3.
Proof.
  assert (Hc : txt "k" ∈ [txt "k"]) by set_solver.
  destruct (group_by_counts (fun _ : json => []) [JObj [(txt "k", JStr (txt "b"))]; JObj [(txt "k", JStr (txt "a"))];
                             JObj [(txt "k", JStr (txt "b"))]] _ _ Hc) as (mc & Heq & _ & _ & _ & Hsum).
  exists mc. split; [exact Heq | exact Hsum].
Defined.

Lemma unique_lines_spec_witness :
  ∃ values, unique_lines (fun _ : json => []) [JObj [(txt "k", JStr (txt "b"))]; JObj [(txt "k", JStr (txt "a"))]] [txt "k"] (txt "k") =
        ([10%N] ++ txt "Unique " ++ txt "k" ++ txt " (" ++ str_nat (length values) ++ txt "):") ::
        map (fun v => txt "  " ++ label 100 v) (take 25 values) ++
        (if bool_decide (25 < length values)
         then [txt "  ... and " ++ str_nat (length values - 25) ++ txt " more"] else []).
Proof.
  assert (Hc : txt "k" ∈ [txt "k"]) by set_solver.
  destruct (unique_lines_spec (fun _ : json => []) [JObj [(txt "k", JStr (txt "b"))]; JObj [(txt "k", JStr (txt "a"))]] _ _ Hc)
    as (values & Heq & _).
  exists values. exact Heq.
Defined.

Lemma print_summary_non_dict_witness :
  ∃ msg, print_summary (fun _ : json => []) [JObj []; JInt 1] [] {| file := txt "-"; group_by := None; unique := None; sample := 0;
                                               show_errors := false; columns := true |} =
         (header_lines [JObj []; JInt 1] [], Raise (AttributeError msg)).
Proof.
  assert (Hr : JInt 1 ∈ [JObj []; JInt 1]) by set_solver.
  assert (Hn : ¬ is_dict (JInt 1)) by (intros [kvs Hk]; discriminate).
  exact (print_summary_non_dict (fun _ : json => []) _ _ _ _ Hr Hn).
Defined.

Lemma print_summary_columns_witness :
  ∃ vis rest,
    print_summary (fun _ : json => []) [JObj [(txt "b", JNull); (txt "_h", JNull)]; JObj [(txt "a", JNull)]] []
      {| file := txt "-"; group_by := None; unique := None; sample := 0; show_errors := false; columns := true |} =
      (header_lines [JObj [(txt "b", JNull); (txt "_h", JNull)]; JObj [(txt "a", JNull)]] [] ++
       ([10%N] ++ txt "Columns: " ++ PyStr.join (txt ", ") vis) :: rest, Ok tt).
Proof.
  assert (Hne : [JObj [(txt "b", JNull); (txt "_h", JNull)]; JObj [(txt "a", JNull)]] ≠ []) by done.
  assert (Hd : Forall is_dict [JObj [(txt "b", JNull); (txt "_h", JNull)]; JObj [(txt "a", JNull)]])
    by (repeat constructor; eexists; reflexivity).
  destruct (print_summary_columns (fun _ : json => []) _ [] {| file := txt "-"; group_by := None; unique := None; sample := 0;
                                          show_errors := false; columns := true |} Hne eq_refl Hd)
    as (vis & rest & Heq & _).
  exists vis, rest. exact Heq.
Defined.


Lemma main_non_object_row_witness :
  ∃ msg, main (fun _ : json => []) default_limits
           {| stdin := PyStr.join [10%N] (map out_text [OutBatch [JObj []; JInt 1]; OutError (txt "[ERROR] boom")]);
              read_file := fun _ => Raise [] |}
           {| file := txt "-"; group_by := None; unique := None; sample := 0;
              show_errors := false; columns := true |} =
         (header_lines [JObj []; JInt 1] [txt "[ERROR] boom"], Raise (SummaryError (AttributeError msg))).
Proof.
  assert (Hls : Forall (out_ok default_limits) [OutBatch [JObj []; JInt 1]; OutError (txt "[ERROR] boom")])
    by batch_side.
  assert (Hr : JInt 1 ∈ concat (out_batches [OutBatch [JObj []; JInt 1]; OutError (txt "[ERROR] boom")]))
    by (cbn; set_solver).
  assert (Hn : ¬ is_dict (JInt 1)) by (intros [kvs Hk]; discriminate).
  exact (main_non_object_row (fun _ : json => []) default_limits
           {| stdin := PyStr.join [10%N] (map out_text [OutBatch [JObj []; JInt 1]; OutError (txt "[ERROR] boom")]);
              read_file := fun _ => Raise [] |}
           {| file := txt "-"; group_by := None; unique := None; sample := 0;
              show_errors := false; columns := true |} _ _ eq_refl eq_refl Hls Hr Hn).
Defined.

End Report.
