(* ===== verification/Cli.v ===== *)
(** * The command line of velo_api.py: [_cli_main]
    (src/scripts/velo_api.py, lines 326-372)

    After [argparse] the [--env KEY=VALUE] items are read into a dict, in
    order: an item without [=] stops the program with [parser.error]
    (exit status 2) before any query; the text is cut at its first [=] and
    a later item overrides the value of an earlier key.  The query then
    runs through [run_vql] (an empty dict is passed as [None]); its rows
    are printed to stdout as [json.dumps(rows, indent=2)] and the program
    ends with status 0; a [VeloAPIError] is printed to stderr as
    [Error: <message>] with status 1; any other exception is not caught.

    [argparse] is not modelled: [cli_args] is the namespace it returns, and
    [parser.error] is the event [UsageError] with its message (argparse
    adds the usage text and the program name). *)

From Stdlib Require Import NArith ZArith String Lia.
From stdpp Require Import base list decidable sets.
From S2P Require Import Prelude PyStr Json Dumps Client Recovery.

Module Cli.
Import Json Dumps Client Recovery.

(** ** Data *)

(** The namespace of lines 330-352. *)
Record cli_args := {
  query : text;
  env_items : list text;      (** [--env], [action="append", default=[]] *)
  config : option text;       (** [--config], default [None] *)
  timeout : Z;                (** [--timeout], default 600 *)
  max_row : Z                 (** [--max-row], default 1000 *)
}.

(** What the program does that can be seen: the events of the call, the
    lines it prints, and [parser.error]. *)
Inductive cev : Type :=
| Call (e : event)
| Stdout (s : text)
| Stderr (s : text)
| UsageError (msg : text).

(** ** Lines 354-359: the environment *)

(** [item.split("=", 1)] when ["=" in item]. *)
Fixpoint split_eq (item : text) : option (text * text) :=
  match item with
  | [] => None
  | c :: r =>
      if bool_decide (c = 61%N) then Some ([], r)
      else match split_eq r with Some (k, v) => Some (c :: k, v) | None => None end
  end.

(** [env[k] = v]: a new key goes last, an existing key keeps its place. *)
Fixpoint env_set (k v : text) (env : list (text * text)) : list (text * text) :=
  match env with
  | [] => [(k, v)]
  | (k', v') :: r => if bool_decide (k = k') then (k, v) :: r else (k', v') :: env_set k v r
  end.

Fixpoint parse_env (items : list text) (env : list (text * text)) : outcome text (list (text * text)) :=
  match items with
  | [] => Ok env
  | item :: r =>
      match split_eq item with
      | None => Raise (txt "Invalid --env format (expected KEY=VALUE): " ++ item)
      | Some (k, v) => parse_env r (env_set k v env)
      end
  end.

(** [str(e)] of a [VeloAPIError]: its message. *)
Definition exn_message (e : exn) : text :=
  match e with Velo _ msg => msg | _ => [] end.

(** ** Lines 326-372 *)
Definition cli_main (lim : limits) (w : world) (a : cli_args) : io cev exn Z :=
  match parse_env (env_items a) [] with
  | Raise msg => ([UsageError msg], Ok 2%Z)
  | Ok env =>
      let '(evs, r) := run_vql lim w (query a) (match env with [] => None | _ => Some env end)
                                (config a) (timeout a) (max_row a) in
      match r with
      | Ok rows => (map Call evs ++ [Stdout (dumps_indent 0 (JArr rows))], Ok 0%Z)
      | Raise e =>
          if is_velo_api_error e then (map Call evs ++ [Stderr (txt "Error: " ++ exn_message e)], Ok 1%Z)
          else (map Call evs, Raise e)
      end
  end.

(** [env.get(k)]. *)
Fixpoint env_lookup (k : text) (env : list (text * text)) : option text :=
  match env with
  | [] => None
  | kv :: r => if bool_decide (kv.1 = k) then Some kv.2 else env_lookup k r
  end.

(** The last value of [k] among the pairs. *)
Definition last_value (k : text) (pairs : list (text * text)) : option text :=
  last (map snd (filter (fun kv => kv.1 = k) pairs)).

(** ** Lemmas *)

Lemma env_set_lookup k v env k' :
  env_lookup k' (env_set k v env) = if bool_decide (k = k') then Some v else env_lookup k' env.
Proof.
  induction env as [|[k0 v0] env IH]; cbn [env_set env_lookup fst snd]; [by repeat case_bool_decide|].
  repeat (case_bool_decide; cbn [env_lookup fst snd] in *; subst); try done; congruence.
Qed.

Lemma env_set_keys k v env k' : k' ∈ map fst (env_set k v env) ↔ k' = k ∨ k' ∈ map fst env.
Proof.
  induction env as [|[k0 v0] env IH]; cbn [env_set fst]; [set_solver|].
  case_bool_decide; subst; rewrite !map_cons; cbn [fst]; [set_solver|]. rewrite !elem_of_cons, IH. naive_solver.
Qed.

Lemma env_set_nodup k v env : NoDup (map fst env) -> NoDup (map fst (env_set k v env)).
Proof.
  induction env as [|[k0 v0] env IH]; intros Hn; cbn [env_set fst]; [constructor; [set_solver|constructor]|].
  rewrite map_cons in Hn. apply NoDup_cons in Hn as [Hk0 Hn].
  case_bool_decide; subst; rewrite map_cons; cbn [fst]; [by constructor|].
  constructor; [rewrite env_set_keys; set_solver|by apply IH].
Qed.

Lemma last_value_snoc k pairs k' v :
  last_value k (pairs ++ [(k', v)]) = if bool_decide (k' = k) then Some v else last_value k pairs.
Proof.
  unfold last_value. rewrite filter_app, filter_cons, filter_nil, map_app.
  case_decide; case_bool_decide; simpl in *; try congruence.
  - by rewrite last_snoc.
  - by rewrite app_nil_r.
Qed.

(** The loop of lines 354-359 on valid items, from any dict. *)
Lemma parse_env_valid items env :
  Forall (fun i => split_eq i ≠ None) items -> NoDup (map fst env) ->
  ∃ env', parse_env items env = Ok env' ∧ NoDup (map fst env') ∧
    ∀ k, env_lookup k env' =
         match last_value k (stdpp.base.omap split_eq items) with Some v => Some v | None => env_lookup k env end.
Proof.
  revert env. induction items as [|i items IH] using rev_ind; intros env Hv Hn.
  - exists env. split_and!; [done|done|]. intros k. reflexivity.
  - apply Forall_app in Hv as [Hv Hi]. apply Forall_cons_1 in Hi as [Hi _].
    destruct (IH env Hv Hn) as (e1 & He1 & Hn1 & Hl1).
    assert (Hsnoc : ∀ env0, parse_env (items ++ [i]) env0 =
              match parse_env items env0 with
              | Ok e => match split_eq i with
                        | Some (k, v) => Ok (env_set k v e)
                        | None => Raise (txt "Invalid --env format (expected KEY=VALUE): " ++ i)
                        end
              | Raise m => Raise m
              end).
    { clear. induction items as [|j items IH]; intros env0; simpl; [by destruct (split_eq i) as [[]|]|].
      destruct (split_eq j) as [[k v]|]; [apply IH|done]. }
    destruct (split_eq i) as [[k v]|] eqn:Hs; [|done].
    exists (env_set k v e1). rewrite Hsnoc, He1, ?Hs. split_and!; [done|by apply env_set_nodup|].
    intros k'. rewrite omap_app. simpl. rewrite Hs, last_value_snoc, env_set_lookup, Hl1.
    by repeat case_bool_decide.
Qed.

Lemma parse_env_invalid pre item post env :
  Forall (fun i => split_eq i ≠ None) pre -> split_eq item = None ->
  parse_env (pre ++ item :: post) env = Raise (txt "Invalid --env format (expected KEY=VALUE): " ++ item).
Proof.
  revert env. induction pre as [|i pre IH]; intros env Hv Hi; simpl; [by rewrite Hi|].
  apply Forall_cons_1 in Hv as [Hv1 Hv]. destruct (split_eq i) as [[k v]|]; [by apply IH|done].
Qed.

(** ** Theorems *)

(** C24. With every [--env] item of the form [KEY=VALUE], the dict sent with
    the query has each key once, with the value of its last item. *)
Theorem parse_env_last_wins items :
  Forall (fun i => split_eq i ≠ None) items ->
  ∃ env, parse_env items [] = Ok env ∧ NoDup (map fst env) ∧
         ∀ k, env_lookup k env = last_value k (stdpp.base.omap split_eq items).
Proof.
  intros Hv. destruct (parse_env_valid items [] Hv) as (env & He & Hn & Hl); [constructor|].
  exists env. split_and!; [done|done|]. intros k. rewrite Hl. by destruct (last_value _ _).
Qed.

(** C25. The first [--env] item without [=] stops the program with status 2
    and its message, before any configuration is read or channel opened. *)
Theorem cli_bad_env lim w a pre item post :
  env_items a = pre ++ item :: post -> Forall (fun i => split_eq i ≠ None) pre -> split_eq item = None ->
  cli_main lim w a = ([UsageError (txt "Invalid --env format (expected KEY=VALUE): " ++ item)], Ok 2%Z).
Proof. intros Ha Hv Hi. unfold cli_main. by rewrite Ha, parse_env_invalid. Qed.

(** C26. A query that succeeds prints its rows: the channel's events, then
    one text on stdout that [json.loads] reads back as the list of rows,
    and status 0. *)
Theorem cli_success_prints_rows lim w a env evs rows :
  parse_env (env_items a) [] = Ok env ->
  run_vql lim w (query a) (match env with [] => None | _ => Some env end) (config a) (timeout a) (max_row a) =
    (evs, Ok rows) ->
  json_ok lim (JArr rows) -> strs_ok (JArr rows) -> jdepth (JArr rows) <= max_depth lim ->
  ∃ s, cli_main lim w a = (map Call evs ++ [Stdout s], Ok 0%Z) ∧ loads lim s = Ok (JArr rows).
Proof.
  intros He Hr Hok Hs Hd. unfold cli_main. rewrite He, Hr.
  eexists. split; [reflexivity|]. by apply loads_dumps_indent.
Qed.

(** ** Witnesses *)

Lemma parse_env_last_wins_witness :
  ∃ env, parse_env [txt "A=1"; txt "B=2"; txt "A=3"] [] = Ok env ∧ NoDup (map fst env) ∧
         ∀ k, env_lookup k env = last_value k (stdpp.base.omap split_eq [txt "A=1"; txt "B=2"; txt "A=3"]).
Proof.
  assert (Hv : Forall (fun i => split_eq i ≠ None) [txt "A=1"; txt "B=2"; txt "A=3"])
    by (repeat constructor; discriminate).
  exact (parse_env_last_wins _ Hv).
Defined.

Lemma cli_bad_env_witness :
  cli_main default_limits (demo_world [] StreamClosed)
    {| query := txt "SELECT 1"; env_items := [txt "A=1"; txt "B"]; config := None;
       timeout := 600; max_row := 1000 |} =
  ([UsageError (txt "Invalid --env format (expected KEY=VALUE): " ++ txt "B")], Ok 2%Z).
Proof.
  assert (Ha : env_items {| query := txt "SELECT 1"; env_items := [txt "A=1"; txt "B"]; config := None;
                            timeout := 600; max_row := 1000 |} = [txt "A=1"] ++ txt "B" :: []) by reflexivity.
  assert (Hv : Forall (fun i => split_eq i ≠ None) [txt "A=1"]) by (repeat constructor; discriminate).
  assert (Hi : split_eq (txt "B") = None) by reflexivity.
  exact (cli_bad_env _ _ _ _ _ _ Ha Hv Hi).
Defined.

Lemma cli_success_prints_rows_witness :
  ∃ s, cli_main default_limits
         (demo_world [{| log := txt "Starting query"; Response := jtxt "[{'a':1}]" |}] StreamClosed)
         {| query := txt "SELECT * FROM info()"; env_items := [txt "A=1"]; config := None;
            timeout := 600; max_row := 1000 |} =
       (map Call (call_events (txt "127.0.0.1:8001")
                    [{| log := txt "Starting query"; Response := jtxt "[{'a':1}]" |}]) ++ [Stdout s], Ok 0%Z) ∧
       loads default_limits s = Ok (JArr [JObj [(txt "a", JInt 1)]]).
Proof.
  assert (Hr : run_vql default_limits
                 (demo_world [{| log := txt "Starting query"; Response := jtxt "[{'a':1}]" |}] StreamClosed)
                 (txt "SELECT * FROM info()") (Some [(txt "A", txt "1")]) None 600 1000 =
               (call_events (txt "127.0.0.1:8001")
                  [{| log := txt "Starting query"; Response := jtxt "[{'a':1}]" |}],
                Ok [JObj [(txt "a", JInt 1)]])) by (vm_compute; reflexivity).
  assert (Hok : json_ok default_limits (JArr [JObj [(txt "a", JInt 1)]])) by batch_side.
  assert (Hs : strs_ok (JArr [JObj [(txt "a", JInt 1)]])) by batch_side.
  assert (Hd : jdepth (JArr [JObj [(txt "a", JInt 1)]]) <= max_depth default_limits) by (vm_compute; lia).
  exact (cli_success_prints_rows _ _
           {| query := txt "SELECT * FROM info()"; env_items := [txt "A=1"]; config := None;
              timeout := 600; max_row := 1000 |} [(txt "A", txt "1")] _ _ eq_refl Hr Hok Hs Hd).
Defined.

End Cli.
